(** * pegnetd API server: the JSON-RPC method handlers of [srv/methods.go]

    A shallow embedding of the request handlers of the second revision of
    [srv/methods.go] (the one that registers [get-rich-list],
    [get-transactions] and [get-transaction-status]), together with the
    properties of the handlers that the specification states.

    Layout: Go's machine integers and [float64]; the JSON-RPC error values;
    payloads and parameter types; the collaborators (ledger store, factom
    client, configuration); the handler monad, which records every call made
    to a collaborator; validation, the ticker-keyed result and the handlers;
    a small deployment on which the handlers can be run; then the properties,
    and the handlers run on the deployment. *)

From Stdlib Require Import ZArith NArith List String Bool Lia.
From Stdlib Require Import Sorted Permutation SpecFloat.
From stdpp Require Import base option list gmap strings.

Local Open Scope Z_scope.

(** ** Go's fixed-width integers

    [int] and [int64] are 64-bit two's complement, kept as [Z] with the
    wrap-around written out; [uint32] and [uint64] are kept as [N]. *)
Module Go.

Definition max_int : Z := 2 ^ 63 - 1.
Definition min_int : Z := - 2 ^ 63.

(** The value an [int64] holds after an operation whose exact result is [z]. *)
Definition wrap_int64 (z : Z) : Z := (z + 2 ^ 63) mod 2 ^ 64 - 2 ^ 63.

(** [a + b] on [int]. *)
Definition int_add (a b : Z) : Z := wrap_int64 (a + b).

(** [len(s)]. *)
Definition len {A} (s : list A) : Z := Z.of_nat (length s).

(** The conversions [uint64(z)], [uint32(z)] and [int64(n)]. *)
Definition to_uint64 (z : Z) : N := Z.to_N (z mod 2 ^ 64).
Definition to_uint32 (z : Z) : N := Z.to_N (z mod 2 ^ 32).
Definition to_int64 (n : N) : Z := wrap_int64 (Z.of_N n).

Definition is_int (z : Z) : Prop := min_int <= z <= max_int.

End Go.

(** ** Go's [float64]

    IEEE 754 binary64 through the integer specification of the Standard
    Library ([prec = 53], [emax = 1024], rounding to nearest even). *)
Module Float64.

Definition prec : Z := 53.
Definition emax : Z := 1024.

Definition float64 : Type := spec_float.

(** [float64(z)] for an integer [z]. *)
Definition of_int (z : Z) : float64 := binary_normalize prec emax z 0 false.

(** The constant [1e8], which binary64 holds exactly. *)
Definition f1e8 : float64 := of_int 100000000.

(** [x / y]. *)
Definition div (x y : float64) : float64 := SFdiv prec emax x y.

(** [x > y]: false as soon as one side is a NaN. *)
Definition gt (x y : float64) : bool :=
  match SFcompare x y with
  | Some Gt => true
  | _ => false
  end.

(** [x >= y]. *)
Definition ge (x y : float64) : bool :=
  match SFcompare x y with
  | Some Gt | Some Eq => true
  | _ => false
  end.

(** [x == 0]: holds of both signed zeros. *)
Definition is_zero (x : float64) : bool := SFeqb x (S754_zero false).

Definition is_nan (x : float64) : bool :=
  match x with
  | S754_nan => true
  | _ => false
  end.

End Float64.

(** A [float64] that is neither a zero nor a NaN. *)
Definition proper (x : Float64.float64) : Prop :=
  match x with
  | S754_finite _ _ _ | S754_infinity _ => True
  | _ => False
  end.

(** ** Identifiers

    [factom.Bytes32] (hashes, chain ids) and [factom.FAAddress] values are
    kept by their printed form. *)
Definition Bytes32 : Type := string.
Definition FAAddress : Type := string.

(** ** JSON-RPC errors *)

(** Modelled from the spec: the error constants [ErrorTransactionNotFound],
    [ErrorNoEC], [ErrorInvalidTransaction], [ErrorTokenNotFound] are declared
    in [srv/errors.go], which is not among the sources; section 7 of the
    specification lists them as separate kinds of error. They are told apart
    here by name, next to the two errors of the jsonrpc2 package. *)
Inductive ErrorName :=
  | InvalidParamsName
  | InternalErrorName
  | TransactionNotFoundName
  | NoECName
  | InvalidTransactionName
  | TokenNotFoundName.

(** [jrpc.Error]: which error it is, and the optional [Data] member. *)
Record Error := { Name : ErrorName; Data : option string }.

Definition InvalidParams (data : string) : Error :=
  {| Name := InvalidParamsName; Data := Some data |}.
Definition InternalError : Error :=
  {| Name := InternalErrorName; Data := None |}.
Definition ErrorTransactionNotFound : Error :=
  {| Name := TransactionNotFoundName; Data := None |}.
Definition ErrorNoEC : Error :=
  {| Name := NoECName; Data := None |}.
Definition ErrorInvalidTransaction : Error :=
  {| Name := InvalidTransactionName; Data := None |}.
Definition ErrorTokenNotFound : Error :=
  {| Name := TokenNotFoundName; Data := None |}.

(** [rerr.Data = data] on a copy of [e]. *)
Definition with_Data (e : Error) (data : string) : Error :=
  {| Name := Name e; Data := Some data |}.

(** A Go [error] value: a [jrpc.Error], or any other error, known by the
    string its [Error()] method gives. *)
Inductive GoError :=
  | RpcError (e : Error)
  | PlainError (msg : string).

(** ** Payloads and the strict decoder *)

#[local] Unset Elimination Schemes.
Inductive JSON :=
  | JNull
  | JBool (b : bool)
  | JNumber (n : Z)
  | JString (s : string)
  | JArray (items : list JSON)
  | JObject (members : list (string * JSON)).
#[local] Set Elimination Schemes.

(** A [json.RawMessage], by what the scanner of [encoding/json] makes of its
    bytes: no bytes at all, bytes that are not one JSON value, or a value. *)
Inductive RawMessage :=
  | RawEmpty
  | RawSyntaxError (msg : string)
  | RawValue (v : JSON).

(** [len(data) == 0]. *)
Definition is_empty (data : RawMessage) : bool :=
  match data with
  | RawEmpty => true
  | _ => false
  end.

(** What storing one member's value into a struct field does: the field is
    set; the value does not fit the field's type (the decoder notes the error
    and goes on); or the field's own [UnmarshalJSON] fails (decoding stops). *)
Inductive FieldResult (P : Type) :=
  | Stored (p : P)
  | Mismatch (err : string) (p : P)
  | Failed (err : string).
Arguments Stored {P} p.
Arguments Mismatch {P} err p.
Arguments Failed {P} err.

(** The [Params] interface of package [srv], with what [encoding/json] knows
    of the type behind a [Params] value. The parameter types and their methods
    are declared in [srv/params.go], which is not among the sources, so the
    handlers are stated over any implementation.
    - [IsValid] may store into its receiver, so it gives the receiver back;
    - [field name] is the struct field that the member [name] of an object is
      stored into, if the type has one. *)
Class Params (P : Type) := {
  IsValid : P -> P * option GoError;
  ValidChainID : P -> option Bytes32;
  field : string -> option (JSON -> P -> FieldResult P)
}.

(** ** The types of the packages that [srv] imports *)

(** [factom.Entry], as far as the handlers look into it. *)
Module Entry.
Record t := {
  ChainID : option Bytes32;
  Hash : option Bytes32;
  Body : string
}.
(** [entry.ChainID = &id]. *)
Definition set_ChainID (e : t) (id : Bytes32) : t :=
  {| ChainID := Some id; Hash := Hash e; Body := Body e |}.
End Entry.

(** [factom.EsAddress]: the entry-credit private key. *)
Definition EsAddress : Type := string.

(** Package-level declarations that [srv] uses and the sources do not hold. *)
Class Imports := {
  (** [node.TransactionChain] *)
  TransactionChain : Bytes32;
  (** [factom.NewFAAddress] *)
  NewFAAddress : string -> FAAddress * option string;
  (** the method [Set] of [factom.EsAddress] *)
  EsAddress_Set : string -> EsAddress * option string;
  (** [factom.Entry.Cost], called with [false] *)
  Entry_Cost : Entry.t -> Z * option string;
  (** [conversions.Convert] *)
  Convert : Z -> N -> N -> Z * option string
}.

(** [fat2.PTicker] with the operations the handlers use. *)
Class PTickerOps (PTicker : Type) := {
  PTickerUSD : PTicker;
  PTicker_String : PTicker -> string;
  PTicker_UnmarshalJSON : string -> string + PTicker
}.

(** Modelled from the spec: [fat2.PTicker], its [String] and its
    [UnmarshalJSON] are declared in package [fat2], which is not among the
    sources. The specification has tickers form a fixed registry in which each
    ticker has one canonical string symbol, and has decoding turn a symbol
    back into its ticker and reject every string that is no symbol. *)
Class PTickerRegistry (PTicker : Type) `{PTickerOps PTicker} : Prop := {
  symbol_decodes : forall t : PTicker,
    PTicker_UnmarshalJSON (PTicker_String t) = inr t;
  decoded_is_symbol : forall (s : string) (t : PTicker),
    PTicker_UnmarshalJSON s = inr t -> s = PTicker_String t
}.

(** [pegnet.HistoryQueryOptions] *)
Module HistoryQueryOptions.
Record t := {
  Offset : Z;
  Desc : bool;
  Transfer : bool;
  Conversion : bool;
  Coinbase : bool;
  FCTBurn : bool
}.
End HistoryQueryOptions.

(** ** Parameter and result structs of [srv] *)

(** [ParamsGetPegnetTransaction], by the members [getTransactions] reads. *)
Module ParamsGetPegnetTransaction.
Record t := {
  Hash : option Bytes32;
  Address : string;
  Height : Z;
  Offset : Z;
  Desc : bool;
  Transfer : bool;
  Conversion : bool;
  Coinbase : bool;
  Burn : bool
}.
(** [ParamsGetPegnetTransaction{}] *)
Definition zero : t :=
  {| Hash := None; Address := ""; Height := 0; Offset := 0; Desc := false;
     Transfer := false; Conversion := false; Coinbase := false;
     Burn := false |}.
End ParamsGetPegnetTransaction.

(** [ParamsGetPegnetTransactionStatus] *)
Module ParamsGetPegnetTransactionStatus.
Record t := { Hash : option Bytes32 }.
Definition zero : t := {| Hash := None |}.
End ParamsGetPegnetTransactionStatus.

(** [ParamsSendTransaction]: the dry-run flag and the entry that the method
    [Entry()] gives. *)
Module ParamsSendTransaction.
Record t := { DryRun : bool; Entry : Entry.t }.
Definition zero : t :=
  {| DryRun := false;
     Entry := {| Entry.ChainID := None; Entry.Hash := None;
                 Entry.Body := "" |} |}.
End ParamsSendTransaction.

(** [RichEntry] *)
Module RichEntry.
Record t := { Address : FAAddress; USDEquiv : Float64.float64 }.
End RichEntry.

(** [ResultGetRichList] *)
Module ResultGetRichList.
Record t := { Height : N; Top100 : list RichEntry.t }.
End ResultGetRichList.

(** [ResultGetTransactionStatus] *)
Module ResultGetTransactionStatus.
Record t := { Height : N; Executed : N }.
End ResultGetTransactionStatus.

(** [ResultGetTransactions] *)
Module ResultGetTransactions.
Record t {HistoryTransaction : Type} := {
  Actions : list HistoryTransaction;
  Count : Z;
  NextOffset : Z
}.
Arguments t : clear implicits.
End ResultGetTransactions.

(** The struct that [sendTransaction] returns. *)
Module ResultSendTransaction.
Record t := {
  ChainID : option Bytes32;
  TxID : option Bytes32;
  Hash : option Bytes32
}.
End ResultSendTransaction.

(** ** Collaborators

    What a call to a collaborator gives back is a field of the collaborator:
    the value together with the [error] (by its message), as Go returns
    them. *)

(** [pegnet.Pegnet]: the ledger store, by the queries the handlers make. *)
Module Pegnet.
Record t {PTicker : Type} `{Countable PTicker} {HistoryTransaction : Type} := {
  SelectAddresses : list FAAddress * option string;
  SelectRates : N -> gmap PTicker N * option string;
  SelectBalances : FAAddress -> gmap PTicker N * option string;
  SelectTransactionHistoryStatus : option Bytes32 -> N * N * option string;
  SelectTransactionHistoryActionsByHash :
    Bytes32 -> HistoryQueryOptions.t ->
    list HistoryTransaction * Z * option string;
  SelectTransactionHistoryActionsByAddress :
    FAAddress -> HistoryQueryOptions.t ->
    list HistoryTransaction * Z * option string;
  SelectTransactionHistoryActionsByHeight :
    N -> HistoryQueryOptions.t ->
    list HistoryTransaction * Z * option string
}.
Arguments t PTicker {_ _} HistoryTransaction.
End Pegnet.

(** [factom.Client]: the entry-credit balance of the address of a key, and
    the submission of an entry, which gives the entry back as the call leaves
    it, with the transaction id. *)
Module FactomClient.
Record t := {
  GetBalance : EsAddress -> N * option string;
  ComposeCreate :
    Entry.t -> EsAddress -> Entry.t * option Bytes32 * option string
}.
End FactomClient.

(** [node.Pegnetd] *)
Module Node.
Record t {PTicker : Type} `{Countable PTicker} {HistoryTransaction : Type} := {
  GetCurrentSync : N;
  Pegnet : Pegnet.t PTicker HistoryTransaction;
  FactomClient : FactomClient.t
}.
Arguments t PTicker {_ _} HistoryTransaction.
End Node.

(** The configuration, by the one setting read here. *)
Module Config.
Record t := { ECPrivateKey : string }.
End Config.

Module APIServer.
Record t {PTicker : Type} `{Countable PTicker} {HistoryTransaction : Type} := {
  Node : Node.t PTicker HistoryTransaction;
  Config : Config.t
}.
Arguments t PTicker {_ _} HistoryTransaction.
End APIServer.

(** The calls a handler makes, in the order it makes them. *)
Inductive Call :=
  | CallSelectAddresses
  | CallSelectRates (height : N)
  | CallSelectBalances (a : FAAddress)
  | CallSelectTransactionHistoryStatus (hash : option Bytes32)
  | CallSelectTransactionHistoryActionsByHash
      (hash : Bytes32) (options : HistoryQueryOptions.t)
  | CallSelectTransactionHistoryActionsByAddress
      (a : FAAddress) (options : HistoryQueryOptions.t)
  | CallSelectTransactionHistoryActionsByHeight
      (height : N) (options : HistoryQueryOptions.t)
  | CallGetBalance (key : EsAddress)
  | CallCost (e : Entry.t)
  | CallComposeCreate (e : Entry.t) (key : EsAddress).

(** ** What a handler hands to the JSON-RPC library

    The handlers return an [interface{}]: an [error], or one of the result
    values below. *)
Inductive Response {PTicker : Type} `{Countable PTicker}
    {HistoryTransaction : Type} :=
  | RespError (e : GoError)
  | RespRates (rates : gmap PTicker N)
  | RespRichList (res : ResultGetRichList.t)
  | RespTransactionStatus (res : ResultGetTransactionStatus.t)
  | RespTransactions (res : ResultGetTransactions.t HistoryTransaction)
  | RespSendTransaction (res : ResultSendTransaction.t).
Arguments Response PTicker {_ _} HistoryTransaction.

(** A call of a handler ends by returning a value or by a [panic]. *)
Inductive Outcome (R : Type) :=
  | Returned (r : R)
  | Panicked (err : string).
Arguments Returned {R} r.
Arguments Panicked {R} err.

(** ** The handler monad

    A computation lists the collaborator calls made so far and either has
    ended the handler (by [return] or [panic]) or goes on with a value. *)
Definition Handler (R A : Type) : Type := list Call * (Outcome R + A).

#[global] Instance Handler_ret {R} : MRet (Handler R) :=
  fun A (a : A) => ([], inr a).

#[global] Instance Handler_bind {R} : MBind (Handler R) :=
  fun A B (f : A -> Handler R B) (m : Handler R A) =>
    match m with
    | (calls, inl o) => (calls, inl o)
    | (calls, inr a) => let '(calls', r) := f a in (calls ++ calls', r)
    end.

(** A call to a collaborator that gives [v]. *)
Definition call {R A} (c : Call) (v : A) : Handler R A := ([c], inr v).

(** [return r] *)
Definition Return {R A} (r : R) : Handler R A := ([], inl (Returned r)).

(** [panic(err)] *)
Definition panic {R A} (err : string) : Handler R A := ([], inl (Panicked err)).

(** A handler body always ends the handler. *)
Abbreviation Body R := (Handler R Empty_set).

Definition calls {R} (h : Body R) : list Call := fst h.

Definition outcome {R} (h : Body R) : Outcome R :=
  match snd h with
  | inl o => o
  | inr e => match e with end
  end.

(** [sort.Slice(s, less)], as an insertion sort: the library promises a
    permutation ordered by [less] and leaves the order of ties open. *)
Fixpoint sort_insert {A} (less : A -> A -> bool) (x : A) (l : list A) : list A :=
  match l with
  | [] => [x]
  | y :: l' => if less x y then x :: l else y :: sort_insert less x l'
  end.

Definition sort_Slice {A} (l : list A) (less : A -> A -> bool) : list A :=
  fold_right (sort_insert less) [] l.

(** [ordered less a b]: [b] may stand right after [a] in a slice sorted by
    [less]. *)
Definition ordered {A} (less : A -> A -> bool) (a b : A) : Prop :=
  less b a = false.

(** ** Validation (methods.go:763-810) *)
Section Validation.
Context `{Imports} {P : Type} `{Params P}.

(** [d.saveError]: only the first error is kept. *)
Definition saveError (saved : option string) (err : string) : option string :=
  match saved with
  | None => Some err
  | Some _ => saved
  end.

(** The member loop of the decoder on an object: a member that names no
    field is an error when unknown fields are disallowed, and is skipped
    otherwise. *)
Fixpoint decodeObject (disallowUnknownFields : bool)
    (members : list (string * JSON)) (p : P) (saved : option string)
    : P * option string :=
  match members with
  | [] => (p, saved)
  | (name, v) :: rest =>
      match field name with
      | None =>
          decodeObject disallowUnknownFields rest p
            (if disallowUnknownFields
             then saveError saved ("json: unknown field " +:+ name)
             else saved)
      | Some store =>
          match store v p with
          | Stored p' => decodeObject disallowUnknownFields rest p' saved
          | Mismatch err p' =>
              decodeObject disallowUnknownFields rest p' (saveError saved err)
          | Failed err => (p, Some err)
          end
      end
  end.

(** [Decode] of a [json.Decoder] into a pointer to a struct. *)
Definition Decode (disallowUnknownFields : bool) (data : RawMessage) (p : P)
    : P * option string :=
  match data with
  | RawEmpty => (p, Some "EOF")
  | RawSyntaxError msg => (p, Some msg)
  | RawValue JNull => (p, None)
  | RawValue (JObject members) =>
      decodeObject disallowUnknownFields members p None
  | RawValue _ => (p, Some "json: cannot unmarshal value into Go struct")
  end.

(** [unmarshalStrict] *)
Definition unmarshalStrict (data : RawMessage) (v : P) : P * option string :=
  Decode true data v.

(** [validate]. [params] is [None] for a nil [Params]; the first component
    of the result is what [params] points to afterwards, the second is the
    returned [error]. (The message of the first error is written without
    the quotation marks it has around the word params.) *)
Definition validate (data : RawMessage) (params : option P)
    : option P * option GoError :=
  match params with
  | None =>
      if negb (is_empty data)
      then (None, Some (RpcError (InvalidParams "no params accepted")))
      else (None, None)
  | Some p =>
      if is_empty data
      then let '(p, err) := IsValid p in (Some p, err)
      else
        match unmarshalStrict data p with
        | (p, Some err) => (Some p, Some (RpcError (InvalidParams err)))
        | (p, None) =>
            match IsValid p with
            | (p, Some err) => (Some p, Some err)
            | (p, None) =>
                match ValidChainID p with
                | Some chainID =>
                    if negb (String.eqb chainID TransactionChain)
                    then (Some p, Some (RpcError ErrorTokenNotFound))
                    else (Some p, None)
                | None => (Some p, None)
                end
            end
        end
  end.

End Validation.

(** ** The ticker-keyed result (methods.go:589-616)

    The wire form of a [ResultPegnetTickerMap] is the JSON object that
    [json.Marshal] writes for a [map[string]uint64] and [json.Unmarshal] reads
    back; it is kept as that string-keyed map. *)
Section TickerMap.
Context {PTicker : Type} `{Countable PTicker} `{!PTickerOps PTicker}.

(** [ResultPegnetTickerMap.MarshalJSON] *)
Definition MarshalJSON (r : gmap PTicker N) : gmap string N :=
  map_fold
    (fun ticker balance (strMap : gmap string N) =>
       <[PTicker_String ticker := balance]> strMap)
    ∅ r.

(** One round of the loop of [UnmarshalJSON]; the loop is left at the first
    error. *)
Definition unmarshal_step (str : string) (balance : N)
    (st : gmap PTicker N * option string) : gmap PTicker N * option string :=
  match st with
  | (r, Some err) => (r, Some err)
  | (r, None) =>
      match PTicker_UnmarshalJSON str with
      | inl err => (r, Some err)
      | inr ticker => (<[ticker := balance]> r, None)
      end
  end.

(** [ResultPegnetTickerMap.UnmarshalJSON]: [data] is what [json.Unmarshal]
    makes of the bytes, an error or a string-keyed map; the result is the
    map the receiver points to afterwards, and the returned [error]. *)
Definition UnmarshalJSON (r : gmap PTicker N) (data : string + gmap string N)
    : gmap PTicker N * option string :=
  match data with
  | inl err => (r, Some err)
  | inr strMap => map_fold unmarshal_step (∅, None) strMap
  end.

End TickerMap.

(** ** The handlers *)
Section Handlers.
Context `{Imports} {PTicker : Type} `{Countable PTicker} `{!PTickerOps PTicker}.
Context {HistoryTransaction : Type}.
Context `{!Params ParamsGetPegnetTransaction.t}.
Context `{!Params ParamsGetPegnetTransactionStatus.t}.
Context `{!Params ParamsSendTransaction.t}.

#[local] Abbreviation Server := (APIServer.t PTicker HistoryTransaction).
#[local] Abbreviation Resp := (Response PTicker HistoryTransaction).

(** *** [getRichList] (methods.go:403) *)

(** The inner loop: the USD value of one address, summed in an [int64]. A
    ticker without a rate reads as rate 0, as a missing key of a Go map
    does; the error of [conversions.Convert] is dropped. *)
Definition usd_of (rates balance : gmap PTicker N) : Z :=
  map_fold
    (fun k v (usd : Z) =>
       let tmp :=
         fst (Convert (Go.to_int64 v) (default 0%N (rates !! k))
                (default 0%N (rates !! PTickerUSD))) in
       Go.int_add usd tmp)
    0 balance.

(** The loop over the addresses, with [top] for [res.Top100]. *)
Fixpoint richEntries (s : Server) (rates : gmap PTicker N)
    (addrs : list FAAddress) (top : list RichEntry.t)
    : Handler Resp (list RichEntry.t) :=
  match addrs with
  | [] => mret top
  | a :: rest =>
      '(balance, err) ←
        call (CallSelectBalances a)
          (Pegnet.SelectBalances (Node.Pegnet (APIServer.Node s)) a);
      match err with
      | Some e => Return (RespError (PlainError e))
      | None =>
          let usd := usd_of rates balance in
          if usd =? 0
          then richEntries s rates rest top
          else
            richEntries s rates rest
              (top ++ [ {| RichEntry.Address := a;
                           RichEntry.USDEquiv :=
                             Float64.div (Float64.of_int usd) Float64.f1e8 |} ])
      end
  end.

(** An entry of the list stands for an address whose total is not zero, and
    holds that total divided by [1e8]. *)
Definition ranked (s : Server) (rates : gmap PTicker N) (e : RichEntry.t) : Prop :=
  let balance :=
    fst (Pegnet.SelectBalances (Node.Pegnet (APIServer.Node s))
           (RichEntry.Address e)) in
  usd_of rates balance <> 0 /\
  RichEntry.USDEquiv e
    = Float64.div (Float64.of_int (usd_of rates balance)) Float64.f1e8.

Definition getRichList (s : Server) (data : RawMessage) : Body Resp :=
  let height := Node.GetCurrentSync (APIServer.Node s) in
  '(addrs, err) ←
    call CallSelectAddresses
      (Pegnet.SelectAddresses (Node.Pegnet (APIServer.Node s)));
  match err with
  | Some e => Return (RespError (PlainError e))
  | None =>
      '(rates, err) ←
        call (CallSelectRates height)
          (Pegnet.SelectRates (Node.Pegnet (APIServer.Node s)) height);
      match err with
      | Some _ => Return (RespRates rates)
      | None =>
          top ← richEntries s rates addrs [];
          let top :=
            sort_Slice top
              (fun i j =>
                 Float64.gt (RichEntry.USDEquiv i) (RichEntry.USDEquiv j)) in
          let top := if Go.len top >? 100 then firstn 100 top else top in
          Return
            (RespRichList
               {| ResultGetRichList.Height := height;
                  ResultGetRichList.Top100 := top |})
      end
  end.

(** *** [getTransactionStatus] (methods.go:453) *)
Definition getTransactionStatus (s : Server) (data : RawMessage) : Body Resp :=
  let '(params, err) :=
    validate data (Some ParamsGetPegnetTransactionStatus.zero) in
  let params := default ParamsGetPegnetTransactionStatus.zero params in
  match err with
  | Some e => Return (RespError e)
  | None =>
      '(height, executed, err) ←
        call
          (CallSelectTransactionHistoryStatus
             (ParamsGetPegnetTransactionStatus.Hash params))
          (Pegnet.SelectTransactionHistoryStatus
             (Node.Pegnet (APIServer.Node s))
             (ParamsGetPegnetTransactionStatus.Hash params));
      match err with
      | Some e => Return (RespError (RpcError (InvalidParams e)))
      | None =>
          if (height =? 0)%N
          then Return (RespError (RpcError ErrorTransactionNotFound))
          else
            Return
              (RespTransactionStatus
                 {| ResultGetTransactionStatus.Height := height;
                    ResultGetTransactionStatus.Executed := executed |})
      end
  end.

(** *** [getTransactions] (methods.go:487) *)

(** The query of lines 506-513: by hash if one is given, else by address if
    one is given, else by height. *)
Definition selectActions (s : Server) (params : ParamsGetPegnetTransaction.t)
    (options : HistoryQueryOptions.t)
    : Handler Resp (list HistoryTransaction * Z * option string) :=
  let store := Node.Pegnet (APIServer.Node s) in
  match ParamsGetPegnetTransaction.Hash params with
  | Some hash =>
      call (CallSelectTransactionHistoryActionsByHash hash options)
        (Pegnet.SelectTransactionHistoryActionsByHash store hash options)
  | None =>
      if negb (String.eqb (ParamsGetPegnetTransaction.Address params) "")
      then
        let '(addr, _) :=
          NewFAAddress (ParamsGetPegnetTransaction.Address params) in
        call (CallSelectTransactionHistoryActionsByAddress addr options)
          (Pegnet.SelectTransactionHistoryActionsByAddress store addr options)
      else
        let height :=
          Go.to_uint32 (ParamsGetPegnetTransaction.Height params) in
        call (CallSelectTransactionHistoryActionsByHeight height options)
          (Pegnet.SelectTransactionHistoryActionsByHeight store height options)
  end.

(** Lines 495-501: the options handed to the store. *)
Definition queryOptions (params : ParamsGetPegnetTransaction.t)
    : HistoryQueryOptions.t :=
  {| HistoryQueryOptions.Offset := ParamsGetPegnetTransaction.Offset params;
     HistoryQueryOptions.Desc := ParamsGetPegnetTransaction.Desc params;
     HistoryQueryOptions.Transfer := ParamsGetPegnetTransaction.Transfer params;
     HistoryQueryOptions.Conversion :=
       ParamsGetPegnetTransaction.Conversion params;
     HistoryQueryOptions.Coinbase := ParamsGetPegnetTransaction.Coinbase params;
     HistoryQueryOptions.FCTBurn := ParamsGetPegnetTransaction.Burn params |}.

Definition getTransactions (s : Server) (data : RawMessage) : Body Resp :=
  let '(params, err) := validate data (Some ParamsGetPegnetTransaction.zero) in
  let params := default ParamsGetPegnetTransaction.zero params in
  match err with
  | Some e => Return (RespError e)
  | None =>
      let options := queryOptions params in
      '(actions, count, err) ← selectActions s params options;
      match err with
      | Some e => Return (RespError (RpcError (InvalidParams e)))
      | None =>
          if Go.len actions =? 0
          then Return (RespError (RpcError ErrorTransactionNotFound))
          else
            let offset := ParamsGetPegnetTransaction.Offset params in
            Return
              (RespTransactions
                 {| ResultGetTransactions.Count := count;
                    ResultGetTransactions.NextOffset :=
                      if Go.int_add offset (Go.len actions) <? count
                      then Go.int_add offset (Go.len actions)
                      else 0;
                    ResultGetTransactions.Actions := actions |})
      end
  end.

(** *** [sendTransaction] (methods.go:671) *)

(** Lines 699-717: what is done unless the request is a dry run; gives the
    transaction id and the entry as the submission leaves it. *)
Definition submit (s : Server) (ecPrivateKey : EsAddress) (entry : Entry.t)
    : Handler Resp (option Bytes32 * Entry.t) :=
  let client := Node.FactomClient (APIServer.Node s) in
  '(balance, err) ←
    call (CallGetBalance ecPrivateKey)
      (FactomClient.GetBalance client ecPrivateKey);
  match err with
  | Some e => panic e
  | None =>
      '(cost, err) ← call (CallCost entry) (Entry_Cost entry);
      match err with
      | Some e =>
          Return (RespError (RpcError (with_Data ErrorInvalidTransaction e)))
      | None =>
          if (balance <? Go.to_uint64 cost)%N
          then Return (RespError (RpcError ErrorNoEC))
          else
            '(entry, txID, err) ←
              call (CallComposeCreate entry ecPrivateKey)
                (FactomClient.ComposeCreate client entry ecPrivateKey);
            match err with
            | Some e => panic e
            | None => mret (txID, entry)
            end
      end
  end.

Definition sendTransaction (s : Server) (data : RawMessage) : Body Resp :=
  let '(params, err) := validate data (Some ParamsSendTransaction.zero) in
  let params := default ParamsSendTransaction.zero params in
  match err with
  | Some e => Return (RespError e)
  | None =>
      let ecPrivateKeyString := Config.ECPrivateKey (APIServer.Config s) in
      let '(ecPrivateKey, err) := EsAddress_Set ecPrivateKeyString in
      match err with
      | Some _ => Return (RespError (RpcError InternalError))
      | None =>
          let entry :=
            Entry.set_ChainID (ParamsSendTransaction.Entry params)
              TransactionChain in
          '(txID, entry) ←
            (if negb (ParamsSendTransaction.DryRun params)
             then submit s ecPrivateKey entry
             else mret (None, entry));
          Return
            (RespSendTransaction
               {| ResultSendTransaction.ChainID := Entry.ChainID entry;
                  ResultSendTransaction.TxID := txID;
                  ResultSendTransaction.Hash := Entry.Hash entry |})
      end
  end.

End Handlers.

(** ** A small deployment

    Three tickers, one implementation of each parameter type, and servers
    over a store and a client with fixed answers: the handlers are run on
    these below. *)
Module Sample.

Inductive Ticker := PEG | pUSD | pEUR.

#[export] Instance Ticker_eq_dec : EqDecision Ticker.
Proof. solve_decision. Defined.

Definition Ticker_to_nat (t : Ticker) : nat :=
  match t with
  | PEG => 0
  | pUSD => 1
  | pEUR => 2
  end.

Definition Ticker_of_nat (n : nat) : Ticker :=
  match n with
  | O => PEG
  | S O => pUSD
  | _ => pEUR
  end.

#[export] Instance Ticker_countable : Countable Ticker :=
  inj_countable' Ticker_to_nat Ticker_of_nat
    (fun t => match t with PEG | pUSD | pEUR => eq_refl end).

#[export] Instance Ticker_ops : PTickerOps Ticker := {|
  PTickerUSD := pUSD;
  PTicker_String t :=
    match t with
    | PEG => "PEG"
    | pUSD => "pUSD"
    | pEUR => "pEUR"
    end;
  PTicker_UnmarshalJSON str :=
    if String.eqb str "PEG" then inr PEG
    else if String.eqb str "pUSD" then inr pUSD
    else if String.eqb str "pEUR" then inr pEUR
    else inl "invalid token type"
|}.

#[export] Instance Ticker_registry : PTickerRegistry Ticker.
Proof.
  split.
  - intros []; reflexivity.
  - intros str t. simpl.
    destruct (String.eqb_spec str "PEG") as [-> | _]; [by intros [= <-] |].
    destruct (String.eqb_spec str "pUSD") as [-> | _]; [by intros [= <-] |].
    destruct (String.eqb_spec str "pEUR") as [-> | _]; [by intros [= <-] |].
    discriminate.
Qed.

#[export] Instance imports : Imports := {|
  TransactionChain :=
    "cffce0f409ebba4ed236d49d89c70e4bd1f1367d86402a3363366683265a242d";
  NewFAAddress str := (str, None);
  EsAddress_Set str :=
    if String.prefix "Es" str then (str, None) else ("", Some "invalid prefix");
  Entry_Cost e :=
    let size := Z.of_nat (String.length (Entry.Body e)) in
    if size >? 10240
    then (0, Some "Entry cannot be larger than 10KB")
    else (Z.max 1 ((size + 1023) / 1024), None);
  Convert amount fromRate toRate :=
    if (toRate =? 0)%N
    then (0, Some "invalid rate")
    else (amount * Z.of_N fromRate / Z.of_N toRate, None)
|}.

(** [get-transactions]: members [entryhash], [address], [height], [offset]
    and [desc]; the offset may not be negative. *)
#[export] Instance params_transactions : Params ParamsGetPegnetTransaction.t := {|
  IsValid p :=
    if ParamsGetPegnetTransaction.Offset p <? 0
    then (p, Some (RpcError (InvalidParams "offset must be positive")))
    else (p, None);
  ValidChainID _ := None;
  field name :=
    let upd hash address height offset desc (p : ParamsGetPegnetTransaction.t) :=
      {| ParamsGetPegnetTransaction.Hash :=
           from_option Some (ParamsGetPegnetTransaction.Hash p) hash;
         ParamsGetPegnetTransaction.Address :=
           default (ParamsGetPegnetTransaction.Address p) address;
         ParamsGetPegnetTransaction.Height :=
           default (ParamsGetPegnetTransaction.Height p) height;
         ParamsGetPegnetTransaction.Offset :=
           default (ParamsGetPegnetTransaction.Offset p) offset;
         ParamsGetPegnetTransaction.Desc :=
           default (ParamsGetPegnetTransaction.Desc p) desc;
         ParamsGetPegnetTransaction.Transfer :=
           ParamsGetPegnetTransaction.Transfer p;
         ParamsGetPegnetTransaction.Conversion :=
           ParamsGetPegnetTransaction.Conversion p;
         ParamsGetPegnetTransaction.Coinbase :=
           ParamsGetPegnetTransaction.Coinbase p;
         ParamsGetPegnetTransaction.Burn := ParamsGetPegnetTransaction.Burn p |} in
    let mismatch p := Mismatch ("json: cannot unmarshal into field " +:+ name) p in
    if String.eqb name "entryhash" then
      Some (fun v p =>
              match v with
              | JString h => Stored (upd (Some h) None None None None p)
              | _ => mismatch p
              end)
    else if String.eqb name "address" then
      Some (fun v p =>
              match v with
              | JString a => Stored (upd None (Some a) None None None p)
              | _ => mismatch p
              end)
    else if String.eqb name "height" then
      Some (fun v p =>
              match v with
              | JNumber n => Stored (upd None None (Some n) None None p)
              | _ => mismatch p
              end)
    else if String.eqb name "offset" then
      Some (fun v p =>
              match v with
              | JNumber n => Stored (upd None None None (Some n) None p)
              | _ => mismatch p
              end)
    else if String.eqb name "desc" then
      Some (fun v p =>
              match v with
              | JBool b => Stored (upd None None None None (Some b) p)
              | _ => mismatch p
              end)
    else None
|}.

(** [get-transaction-status]: the member [entryhash], which must be given. *)
#[export] Instance params_status : Params ParamsGetPegnetTransactionStatus.t := {|
  IsValid p :=
    match ParamsGetPegnetTransactionStatus.Hash p with
    | Some _ => (p, None)
    | None => (p, Some (RpcError (InvalidParams "required: entryhash")))
    end;
  ValidChainID _ := None;
  field name :=
    if String.eqb name "entryhash" then
      Some (fun v p =>
              match v with
              | JString h => Stored {| ParamsGetPegnetTransactionStatus.Hash := Some h |}
              | _ => Mismatch "json: cannot unmarshal into field entryhash" p
              end)
    else None
|}.

(** [send-transaction]: the members [chainid], [content] and [dryrun]; the
    hash of the entry is made from the content alone. *)
#[export] Instance params_send : Params ParamsSendTransaction.t := {|
  IsValid p := (p, None);
  ValidChainID p := Entry.ChainID (ParamsSendTransaction.Entry p);
  field name :=
    if String.eqb name "chainid" then
      Some (fun v p =>
              match v with
              | JString c =>
                  Stored
                    {| ParamsSendTransaction.DryRun := ParamsSendTransaction.DryRun p;
                       ParamsSendTransaction.Entry :=
                         Entry.set_ChainID (ParamsSendTransaction.Entry p) c |}
              | _ => Mismatch "json: cannot unmarshal into field chainid" p
              end)
    else if String.eqb name "content" then
      Some (fun v p =>
              match v with
              | JString c =>
                  Stored
                    {| ParamsSendTransaction.DryRun := ParamsSendTransaction.DryRun p;
                       ParamsSendTransaction.Entry :=
                         {| Entry.ChainID :=
                              Entry.ChainID (ParamsSendTransaction.Entry p);
                            Entry.Hash := Some ("hash of " +:+ c);
                            Entry.Body := c |} |}
              | _ => Mismatch "json: cannot unmarshal into field content" p
              end)
    else if String.eqb name "dryrun" then
      Some (fun v p =>
              match v with
              | JBool b =>
                  Stored
                    {| ParamsSendTransaction.DryRun := b;
                       ParamsSendTransaction.Entry := ParamsSendTransaction.Entry p |}
              | _ => Mismatch "json: cannot unmarshal into field dryrun" p
              end)
    else None
|}.

(** The store: three addresses, of which [FA3] holds nothing; rates at every
    height; one transaction, at height 12; three actions at height 100 and
    five for the address [FA1], which come two to a page. *)
Definition store (rates_error : option string) : Pegnet.t Ticker string := {|
  Pegnet.SelectAddresses := (["FA1"; "FA2"; "FA3"], None);
  Pegnet.SelectRates _ :=
    match rates_error with
    | Some err => (∅, Some err)
    | None =>
        ({[ PEG := 2000000%N; pUSD := 100000000%N; pEUR := 110000000%N ]}, None)
    end;
  Pegnet.SelectBalances a :=
    if String.eqb a "FA1" then ({[ pUSD := 500000000%N ]}, None)
    else if String.eqb a "FA2"
    then ({[ PEG := 100000000000%N; pEUR := 1200000000%N ]}, None)
    else (∅, None);
  Pegnet.SelectTransactionHistoryStatus hash :=
    match hash with
    | Some h => if String.eqb h "aa" then (12%N, 1%N, None) else (0%N, 0%N, None)
    | None => (0%N, 0%N, None)
    end;
  Pegnet.SelectTransactionHistoryActionsByHash _ _ := ([], 0, None);
  Pegnet.SelectTransactionHistoryActionsByAddress a options :=
    if String.eqb a "FA1"
    then
      (firstn 2
         (skipn (Z.to_nat (HistoryQueryOptions.Offset options))
            ["t1"; "t2"; "t3"; "t4"; "t5"]),
       5, None)
    else ([], 0, None);
  Pegnet.SelectTransactionHistoryActionsByHeight height _ :=
    if (height =? 100)%N then (["t1"; "t2"; "t3"], 3, None) else ([], 0, None)
|}.

(** The client: a balance, and a submission that may fail. *)
Definition client (balance : N * option string) (submit_error : option string)
    : FactomClient.t := {|
  FactomClient.GetBalance _ := balance;
  FactomClient.ComposeCreate e _ := (e, Some "txid", submit_error)
|}.

Definition server (rates_error : option string) (balance : N * option string)
    (submit_error : option string) : APIServer.t Ticker string := {|
  APIServer.Node :=
    {| Node.GetCurrentSync := 215000%N;
       Node.Pegnet := store rates_error;
       Node.FactomClient := client balance submit_error |};
  APIServer.Config := {| Config.ECPrivateKey := "Es-sample-key" |}
|}.

(** A server in good order, holding 20 entry credits. *)
Definition healthy : APIServer.t Ticker string := server None (20%N, None) None.

Definition object (members : list (string * JSON)) : RawMessage :=
  RawValue (JObject members).

(** A content of [n] bytes. *)
Fixpoint filler (n : nat) : string :=
  match n with
  | O => ""
  | S n' => "x" +:+ filler n'
  end.

(** An entry one byte above the size for which a cost exists. *)
Definition oversized : string := filler (Z.to_nat 10241).

(** A server whose store has no rates, and two whose client is out of
    reach, at the balance lookup and at the submission. *)
Definition without_rates : APIServer.t Ticker string :=
  server (Some "sql: no rows in result set") (20%N, None) None.
Definition unreachable_at_lookup : APIServer.t Ticker string :=
  server None (0%N, Some "connection refused") None.
Definition unreachable_at_submission : APIServer.t Ticker string :=
  server None (20%N, None) (Some "connection refused").

(** A server without entry credits. *)
Definition broke : APIServer.t Ticker string := server None (0%N, None) None.

(** A server whose configuration holds no key. *)
Definition unconfigured : APIServer.t Ticker string := {|
  APIServer.Node := APIServer.Node healthy;
  APIServer.Config := {| Config.ECPrivateKey := "" |}
|}.

Definition balances : gmap Ticker N := {[ PEG := 5%N; pEUR := 7%N ]}.

End Sample.


(** * What stands around the handlers *)

(** ** The caller *)

(** Modelled from the spec: the handlers are called by the library [jrpc]
    and by nothing else; the library is not among the sources. The
    specification has every failure that is no error of the domain reported
    to the caller as an opaque internal error, without a crash of the serving
    process, and the first revision of the file marks the [panic] of a
    handler with the words: Defer to internal error. So the call of a handler
    answers what the handler returns and, when the handler panics, the
    internal error. *)
Definition MethodFunc_call {PTicker : Type} `{Countable PTicker}
    {HistoryTransaction : Type}
    (method : Body (Response PTicker HistoryTransaction))
    : Response PTicker HistoryTransaction :=
  match outcome method with
  | Returned r => r
  | Panicked _ => RespError (RpcError InternalError)
  end.

(** ** The hash of an entry *)

(** Modelled from the spec: the method [Entry()] of [ParamsSendTransaction]
    and the entries of package [factom] are not among the sources. The
    specification has the entry hash content-addressed, deterministic from
    the contents of the entry: a function of the chain that the entry names
    and of its content. *)
Class EntryHash := Entry_ComputeHash : option Bytes32 -> string -> Bytes32.

(** Modelled from the spec: the specification has a dry run return the
    would-be hash of the entry, so the entry that [Entry()] gives for a
    request that passed [validate] holds the hash of its contents. *)
Class ContentAddressed `{Imports} `{!Params ParamsSendTransaction.t}
    `{!EntryHash} : Prop :=
  Entry_hashed :
    forall (data : RawMessage) (params : ParamsSendTransaction.t),
      validate data (Some ParamsSendTransaction.zero) = (Some params, None) ->
      Entry.Hash (ParamsSendTransaction.Entry params)
        = Some
            (Entry_ComputeHash
               (Entry.ChainID (ParamsSendTransaction.Entry params))
               (Entry.Body (ParamsSendTransaction.Entry params))).

(** ** A sample of requests to send whose entries are hashed *)

Module SampleEntries.
Import Sample.

Definition entry_hash : EntryHash := fun _ content => "hash of " +:+ content.

(** [send-transaction] with the members of the sample deployment; the hash
    of the entry is made when the request is validated. *)
Definition params_send : Params ParamsSendTransaction.t := {|
  IsValid p :=
    let entry := ParamsSendTransaction.Entry p in
    ({| ParamsSendTransaction.DryRun := ParamsSendTransaction.DryRun p;
        ParamsSendTransaction.Entry :=
          {| Entry.ChainID := Entry.ChainID entry;
             Entry.Hash :=
               Some (entry_hash (Entry.ChainID entry) (Entry.Body entry));
             Entry.Body := Entry.Body entry |} |},
     None);
  ValidChainID := @ValidChainID _ Sample.params_send;
  field := @field _ Sample.params_send
|}.

Lemma content_addressed : @ContentAddressed imports params_send entry_hash.
Proof.
  intros data params. unfold validate.
  destruct (is_empty data); [intros [= <-]; reflexivity |].
  destruct (unmarshalStrict data ParamsSendTransaction.zero) as [q [err|]];
    [discriminate |].
  cbn [IsValid params_send].
  destruct (ValidChainID _) as [chainID|].
  - destruct (negb (String.eqb chainID TransactionChain)); [discriminate |].
    intros [= <-]. reflexivity.
  - intros [= <-]. reflexivity.
Qed.

End SampleEntries.
(** * The remaining handlers

    The handlers of [srv/methods.go] that are left: [getSyncStatus],
    [getPegnetBalances], [getPegnetIssuance], [getPegnetRates] and
    [getTransaction], in both revisions of the file, and the first revision
    of [sendTransaction]. The two revisions differ in what a handler does
    with an error it has no name for, and in the structs
    [ResultGetTransaction] and [ResultGetIssuance]. *)

(** Which revision of the file. *)
Inductive Revision := First | Second.

(** [sql.ErrNoRows], by its message, and the test [err == sql.ErrNoRows]. *)
Definition ErrNoRows : string := "sql: no rows in result set".

Definition is_ErrNoRows (err : option string) : bool :=
  match err with
  | Some msg => String.eqb msg ErrNoRows
  | None => false
  end.

(** The conversion [int32(n)] of a [uint32]. *)
Definition to_int32 (n : N) : Z := (Z.of_N n + 2 ^ 31) mod 2 ^ 32 - 2 ^ 31.

(** What the Go runtime panics with when a nil pointer is read. *)
Definition nil_dereference : string :=
  "runtime error: invalid memory address or nil pointer dereference".

(** What the Go runtime panics with when a type assertion fails. *)
Definition failed_assertion : string := "interface conversion".

(** Modelled from the spec: the error constants [ErrorAddressNotFound] and
    [ErrorNotFound] are declared in [srv/errors.go], which is not among the
    sources; the specification has address-not-found and not-found as two
    more errors. *)
Inductive ErrorConstant := ErrorAddressNotFound | ErrorNotFound.

(** [ParamsGetTransaction] *)
Module ParamsGetTransaction.
Record t := { Hash : option Bytes32 }.
Definition zero : t := {| Hash := None |}.
End ParamsGetTransaction.

(** [ParamsGetPegnetBalances]: the member [Address] is a pointer, kept by
    the printed form of what it points to. *)
Module ParamsGetPegnetBalances.
Record t := { Address : FAAddress }.
Definition zero : t := {| Address := "" |}.
End ParamsGetPegnetBalances.

(** [ParamsGetPegnetRates] *)
Module ParamsGetPegnetRates.
Record t := { Height : option N }.
Definition zero : t := {| Height := None |}.
End ParamsGetPegnetRates.

(** [ResultGetSyncStatus] *)
Module ResultGetSyncStatus.
Record t := { Sync : N; Current : Z }.
End ResultGetSyncStatus.

(** [ResultGetIssuance] of the second revision (methods.go:633-636), whose
    members are written as [syncstatus] and [issuance]. *)
Module ResultGetIssuance.
Record t {PTicker : Type} `{Countable PTicker} := {
  SyncStatus : ResultGetSyncStatus.t;
  Issuance : gmap PTicker N
}.
Arguments t PTicker {_ _}.
End ResultGetIssuance.

(** [ResultGetTransaction] of the second revision (methods.go:533-537),
    whose members are written as [entryhash], [timestamp] and [actions]. *)
Module ResultGetTransaction.
Record t {TransactionBatch : Type} := {
  Hash : option Bytes32;
  Timestamp : Z;
  Tx : option TransactionBatch
}.
Arguments t : clear implicits.
End ResultGetTransaction.

(** The two structs as the first revision declares them: they are other
    types than those of the second. *)
Module FirstRevision.

(** [ResultGetIssuance] (methods.go:155-158), whose members are written as
    [sync-status] and [issuance]. *)
Module ResultGetIssuance.
Record t {PTicker : Type} `{Countable PTicker} := {
  SyncStatus : ResultGetSyncStatus.t;
  Issuance : gmap PTicker N
}.
Arguments t PTicker {_ _}.
End ResultGetIssuance.

(** [ResultGetTransaction] (methods.go:54-59), whose members are written
    as [entryhash], [timestamp], [txindex] (left out when it is 0) and
    [data]. *)
Module ResultGetTransaction.
Record t {TransactionBatch : Type} := {
  Hash : option Bytes32;
  Timestamp : Z;
  TxIndex : N;
  Tx : option TransactionBatch
}.
Arguments t : clear implicits.
End ResultGetTransaction.

End FirstRevision.

(** What package [srv] uses of [factom.Entry] and [fat2.TransactionBatch]
    in [getTransaction]; none of it is among the sources. *)
Class Batches (TransactionBatch : Type) := {
  (** [factom.Entry.IsPopulated] *)
  Entry_IsPopulated : Entry.t -> bool;
  (** [fat2.NewTransactionBatch] *)
  NewTransactionBatch : Entry.t -> TransactionBatch;
  (** the method [UnmarshalEntry], which gives its receiver back *)
  UnmarshalEntry : TransactionBatch -> TransactionBatch * option string
}.

(** The server with the answers to the calls that only these handlers make:
    [DoesTransactionExist] and [SelectIssuances] of the store, and on the
    factom client [Get] of [factom.Heights] (the directory block height) and
    [Get] of a [factom.Entry] (the entry as the call leaves it). *)
Module Service.
Record t {PTicker : Type} `{Countable PTicker} {HistoryTransaction : Type} := {
  Server : APIServer.t PTicker HistoryTransaction;
  DoesTransactionExist : Bytes32 -> bool * option string;
  SelectIssuances : gmap PTicker N * option string;
  Heights_Get : N * option string;
  Entry_Get : Entry.t -> Entry.t * option string
}.
Arguments t PTicker {_ _} HistoryTransaction.
End Service.

(** The calls these handlers make: those listed above, and four more. *)
Inductive Event :=
  | Made (c : Call)
  | CallDoesTransactionExist (hash : Bytes32)
  | CallSelectIssuances
  | CallHeightsGet
  | CallEntryGet (e : Entry.t).

(** What these handlers return. *)
Inductive Reply {PTicker : Type} `{Countable PTicker}
    {HistoryTransaction TransactionBatch : Type} :=
  | Earlier (r : Response PTicker HistoryTransaction)
  | ReplyError (e : ErrorConstant)
  | ReplyTickerMap (r : gmap PTicker N)
  | ReplyIssuance (res : ResultGetIssuance.t PTicker)
  | ReplyFirstIssuance (res : FirstRevision.ResultGetIssuance.t PTicker)
  | ReplySyncStatus (res : ResultGetSyncStatus.t)
  | ReplyTransaction (res : ResultGetTransaction.t TransactionBatch)
  | ReplyFirstTransaction
      (res : FirstRevision.ResultGetTransaction.t TransactionBatch)
  | ReplyEntry (e : Entry.t).
Arguments Reply PTicker {_ _} HistoryTransaction TransactionBatch.

(** The handler monad over these calls. *)
Record Traced (E R A : Type) := Trace {
  events : list E;
  state : Outcome R + A
}.
Arguments Trace {E R A} events state.
Arguments events {E R A} t.
Arguments state {E R A} t.

#[global] Instance Traced_ret {E R} : MRet (Traced E R) :=
  fun A (a : A) => Trace [] (inr a).

#[global] Instance Traced_bind {E R} : MBind (Traced E R) :=
  fun A B (f : A -> Traced E R B) (m : Traced E R A) =>
    match state m with
    | inl o => Trace (events m) (inl o)
    | inr a => Trace (events m ++ events (f a)) (state (f a))
    end.

(** A call that gives [v]; [return r]; [panic(err)]. *)
Definition ask {E R A} (e : E) (v : A) : Traced E R A := Trace [e] (inr v).
Definition reply {E R A} (r : R) : Traced E R A := Trace [] (inl (Returned r)).
Definition raise {E R A} (err : string) : Traced E R A :=
  Trace [] (inl (Panicked err)).

Abbreviation Method R := (Traced Event R Empty_set).

Definition result {E R} (h : Traced E R Empty_set) : Outcome R :=
  match state h with
  | inl o => o
  | inr e => match e with end
  end.

(** A handler called from another one: its calls are made, a panic goes
    through, and what it returns is the value of the call. *)
Definition invoke {E R} (h : Traced E R Empty_set) : Traced E R R :=
  match result h with
  | Returned r => Trace (events h) (inr r)
  | Panicked err => Trace (events h) (inl (Panicked err))
  end.

Section RemainingHandlers.
Context `{Imports} {PTicker : Type} `{Countable PTicker} `{!PTickerOps PTicker}.
Context {HistoryTransaction TransactionBatch : Type}.
Context `{!Batches TransactionBatch}.
Context `{!Params ParamsGetTransaction.t}.
Context `{!Params ParamsGetPegnetBalances.t}.
Context `{!Params ParamsGetPegnetRates.t}.
Context `{!Params ParamsSendTransaction.t}.

#[local] Abbreviation Server := (APIServer.t PTicker HistoryTransaction).
#[local] Abbreviation Resp := (Response PTicker HistoryTransaction).
#[local] Abbreviation Svc := (Service.t PTicker HistoryTransaction).
#[local] Abbreviation Rep := (Reply PTicker HistoryTransaction TransactionBatch).

(** An error the handler has no name for: the first revision has
    [panic(err)], the second [return jsonrpc2.InternalError]. *)
Definition fault {A} (rev : Revision) (err : string) : Traced Event Rep A :=
  match rev with
  | First => raise err
  | Second => reply (Earlier (RespError (RpcError InternalError)))
  end.

(** *** [getSyncStatus] (methods.go:274 and 752) *)
Definition getSyncStatus (s : Svc) (data : RawMessage) : Method Rep :=
  let node := APIServer.Node (Service.Server s) in
  '(directoryBlock, err) ← ask CallHeightsGet (Service.Heights_Get s);
  match err with
  | Some _ =>
      reply
        (ReplySyncStatus
           {| ResultGetSyncStatus.Sync := Node.GetCurrentSync node;
              ResultGetSyncStatus.Current := -1 |})
  | None =>
      reply
        (ReplySyncStatus
           {| ResultGetSyncStatus.Sync := Node.GetCurrentSync node;
              ResultGetSyncStatus.Current := to_int32 directoryBlock |})
  end.

(** *** [getTransaction] (methods.go:61 and 539) *)

(** [res], the zero value of the [ResultGetTransaction] of the revision
    with the members [Hash] and [Tx] set. *)
Definition transaction_of (rev : Revision) (e : Entry.t)
    (txBatch : TransactionBatch) : Rep :=
  match rev with
  | First =>
      ReplyFirstTransaction
        {| FirstRevision.ResultGetTransaction.Hash := Entry.Hash e;
           FirstRevision.ResultGetTransaction.Timestamp := 0;
           FirstRevision.ResultGetTransaction.TxIndex := 0%N;
           FirstRevision.ResultGetTransaction.Tx := Some txBatch |}
  | Second =>
      ReplyTransaction
        {| ResultGetTransaction.Hash := Entry.Hash e;
           ResultGetTransaction.Timestamp := 0;
           ResultGetTransaction.Tx := Some txBatch |}
  end.

Definition getTransaction (rev : Revision) (s : Svc) (getEntry : bool)
    (data : RawMessage) : Method Rep :=
  let '(params, err) := validate data (Some ParamsGetTransaction.zero) in
  let params := default ParamsGetTransaction.zero params in
  match err with
  | Some e => reply (Earlier (RespError e))
  | None =>
      match ParamsGetTransaction.Hash params with
      | None => raise nil_dereference
      | Some hash =>
          '(found, err) ←
            ask (CallDoesTransactionExist hash)
              (Service.DoesTransactionExist s hash);
          match err with
          | Some e => reply (Earlier (RespError (PlainError e)))
          | None =>
              if negb found
              then reply (Earlier (RespError (RpcError ErrorTransactionNotFound)))
              else
                let e :=
                  {| Entry.ChainID := None; Entry.Hash := Some hash;
                     Entry.Body := "" |} in
                '(e, err) ← ask (CallEntryGet e) (Service.Entry_Get s e);
                match err with
                | Some msg => fault rev msg
                | None =>
                    if negb (Entry_IsPopulated e)
                    then
                      reply
                        (Earlier (RespError (RpcError ErrorTransactionNotFound)))
                    else if getEntry
                    then reply (ReplyEntry e)
                    else
                      let '(txBatch, err) :=
                        UnmarshalEntry (NewTransactionBatch e) in
                      match err with
                      | Some msg => fault rev msg
                      | None => reply (transaction_of rev e txBatch)
                      end
                end
          end
      end
  end.

(** *** [getPegnetBalances] (methods.go:140 and 618) *)
Definition getPegnetBalances (rev : Revision) (s : Svc) (data : RawMessage)
    : Method Rep :=
  let '(params, err) := validate data (Some ParamsGetPegnetBalances.zero) in
  let params := default ParamsGetPegnetBalances.zero params in
  match err with
  | Some e => reply (Earlier (RespError e))
  | None =>
      let address := ParamsGetPegnetBalances.Address params in
      '(bals, err) ←
        ask (Made (CallSelectBalances address))
          (Pegnet.SelectBalances
             (Node.Pegnet (APIServer.Node (Service.Server s))) address);
      if is_ErrNoRows err
      then reply (ReplyError ErrorAddressNotFound)
      else
        match err with
        | Some msg => fault rev msg
        | None => reply (ReplyTickerMap bals)
        end
  end.

(** *** [getPegnetIssuance] (methods.go:160 and 638) *)

(** The [ResultGetIssuance] of the revision. *)
Definition issuance_of (rev : Revision) (status : ResultGetSyncStatus.t)
    (issuance : gmap PTicker N) : Rep :=
  match rev with
  | First =>
      ReplyFirstIssuance
        {| FirstRevision.ResultGetIssuance.SyncStatus := status;
           FirstRevision.ResultGetIssuance.Issuance := issuance |}
  | Second =>
      ReplyIssuance
        {| ResultGetIssuance.SyncStatus := status;
           ResultGetIssuance.Issuance := issuance |}
  end.

Definition getPegnetIssuance (rev : Revision) (s : Svc) (data : RawMessage)
    : Method Rep :=
  '(issuance, err) ← ask CallSelectIssuances (Service.SelectIssuances s);
  if is_ErrNoRows err
  then reply (ReplyError ErrorAddressNotFound)
  else
    match err with
    | Some msg => fault rev msg
    | None =>
        syncStatus ← invoke (getSyncStatus s RawEmpty);
        match syncStatus with
        | ReplySyncStatus status => reply (issuance_of rev status issuance)
        | _ => raise failed_assertion
        end
    end.

(** *** [getPegnetRates] (methods.go:176 and 654) *)
Definition getPegnetRates (rev : Revision) (s : Svc) (data : RawMessage)
    : Method Rep :=
  let '(params, err) := validate data (Some ParamsGetPegnetRates.zero) in
  let params := default ParamsGetPegnetRates.zero params in
  match err with
  | Some e => reply (Earlier (RespError e))
  | None =>
      match ParamsGetPegnetRates.Height params with
      | None => raise nil_dereference
      | Some height =>
          '(rates, err) ←
            ask (Made (CallSelectRates height))
              (Pegnet.SelectRates
                 (Node.Pegnet (APIServer.Node (Service.Server s))) height);
          if is_ErrNoRows err || (size rates =? 0)%nat
          then reply (ReplyError ErrorNotFound)
          else
            match err with
            | Some msg => fault rev msg
            | None => reply (ReplyTickerMap rates)
            end
      end
  end.

(** The handlers that have a revision. *)
Definition revised (rev : Revision) (s : Svc) (data : RawMessage)
    : list (Method Rep) :=
  [ getTransaction rev s false data; getTransaction rev s true data;
    getPegnetBalances rev s data; getPegnetIssuance rev s data;
    getPegnetRates rev s data ].

(** What the first revision returns, in the struct that the second has for
    it: the members that both declare, under the names of the second. All
    else is returned by both as it is. *)
Definition as_second (r : Rep) : Rep :=
  match r with
  | ReplyFirstTransaction res =>
      ReplyTransaction
        {| ResultGetTransaction.Hash := FirstRevision.ResultGetTransaction.Hash res;
           ResultGetTransaction.Timestamp :=
             FirstRevision.ResultGetTransaction.Timestamp res;
           ResultGetTransaction.Tx := FirstRevision.ResultGetTransaction.Tx res |}
  | ReplyFirstIssuance res =>
      ReplyIssuance
        {| ResultGetIssuance.SyncStatus :=
             FirstRevision.ResultGetIssuance.SyncStatus res;
           ResultGetIssuance.Issuance :=
             FirstRevision.ResultGetIssuance.Issuance res |}
  | _ => r
  end.

(** A handler of the first revision and the same of the second: they make
    the same calls, and either the second returns what the first returns, in
    its own struct; or both panic alike; or the first panics where the
    second returns the internal error. *)
Definition softened (first second : Method Rep) : Prop :=
  events first = events second /\
  ((exists r,
      result first = Returned r /\ result second = Returned (as_second r)) \/
   (exists err,
      result first = Panicked err /\
      (result second = Panicked err \/
       result second
         = Returned (Earlier (RespError (RpcError InternalError)))))).

(** *** [sendTransaction] of the first revision (methods.go:193): as in the
    second but for the configured key, where it panics. *)
Definition sendTransaction_first (s : Server) (data : RawMessage) : Body Resp :=
  let '(params, err) := validate data (Some ParamsSendTransaction.zero) in
  let params := default ParamsSendTransaction.zero params in
  match err with
  | Some e => Return (RespError e)
  | None =>
      let ecPrivateKeyString := Config.ECPrivateKey (APIServer.Config s) in
      let '(ecPrivateKey, err) := EsAddress_Set ecPrivateKeyString in
      match err with
      | Some e => panic e
      | None =>
          let entry :=
            Entry.set_ChainID (ParamsSendTransaction.Entry params)
              TransactionChain in
          '(txID, entry) ←
            (if negb (ParamsSendTransaction.DryRun params)
             then submit s ecPrivateKey entry
             else mret (None, entry));
          Return
            (RespSendTransaction
               {| ResultSendTransaction.ChainID := Entry.ChainID entry;
                  ResultSendTransaction.TxID := txID;
                  ResultSendTransaction.Hash := Entry.Hash entry |})
      end
  end.

End RemainingHandlers.

(** ** [getRichList], as a function of what the store holds *)
Section RichEntries.
Context `{Imports} {PTicker : Type} `{Countable PTicker} `{!PTickerOps PTicker}.
Context {HistoryTransaction : Type}.

(** The entry that the loop of [getRichList] appends for an address, if it
    appends one. *)
Definition entry_of (s : APIServer.t PTicker HistoryTransaction)
    (rates : gmap PTicker N) (a : FAAddress) : option RichEntry.t :=
  let balance :=
    fst (Pegnet.SelectBalances (Node.Pegnet (APIServer.Node s)) a) in
  let usd := usd_of rates balance in
  if usd =? 0
  then None
  else
    Some
      {| RichEntry.Address := a;
         RichEntry.USDEquiv :=
           Float64.div (Float64.of_int usd) Float64.f1e8 |}.

End RichEntries.

(** ** [getTransactions], as a function of the request *)
Section HistoryQuery.
Context `{Imports}.

(** The one query of [getTransactions]. *)
Definition query_of (params : ParamsGetPegnetTransaction.t) : Call :=
  match ParamsGetPegnetTransaction.Hash params with
  | Some hash =>
      CallSelectTransactionHistoryActionsByHash hash (queryOptions params)
  | None =>
      if String.eqb (ParamsGetPegnetTransaction.Address params) ""
      then
        CallSelectTransactionHistoryActionsByHeight
          (Go.to_uint32 (ParamsGetPegnetTransaction.Height params))
          (queryOptions params)
      else
        CallSelectTransactionHistoryActionsByAddress
          (fst (NewFAAddress (ParamsGetPegnetTransaction.Address params)))
          (queryOptions params)
  end.

End HistoryQuery.


(** ** A sample deployment for the remaining handlers *)

Module SampleService.
Import Sample.

(** [get-transaction]: the member [entryhash], which must be given. *)
#[export] Instance params_transaction : Params ParamsGetTransaction.t := {|
  IsValid p :=
    match ParamsGetTransaction.Hash p with
    | Some _ => (p, None)
    | None => (p, Some (RpcError (InvalidParams "required: entryhash")))
    end;
  ValidChainID _ := None;
  field name :=
    if String.eqb name "entryhash" then
      Some (fun v p =>
              match v with
              | JString h => Stored {| ParamsGetTransaction.Hash := Some h |}
              | _ => Mismatch "json: cannot unmarshal into field entryhash" p
              end)
    else None
|}.

(** [get-pegnet-balances]: the member [address], which must be given. *)
#[export] Instance params_balances : Params ParamsGetPegnetBalances.t := {|
  IsValid p :=
    if String.eqb (ParamsGetPegnetBalances.Address p) ""
    then (p, Some (RpcError (InvalidParams "required: address")))
    else (p, None);
  ValidChainID _ := None;
  field name :=
    if String.eqb name "address" then
      Some (fun v p =>
              match v with
              | JString a => Stored {| ParamsGetPegnetBalances.Address := a |}
              | _ => Mismatch "json: cannot unmarshal into field address" p
              end)
    else None
|}.

(** [get-pegnet-rates]: the member [height], which must be given. *)
#[export] Instance params_rates : Params ParamsGetPegnetRates.t := {|
  IsValid p :=
    match ParamsGetPegnetRates.Height p with
    | Some _ => (p, None)
    | None => (p, Some (RpcError (InvalidParams "required: height")))
    end;
  ValidChainID _ := None;
  field name :=
    if String.eqb name "height" then
      Some (fun v p =>
              match v with
              | JNumber n =>
                  if n <? 0
                  then Mismatch "json: cannot unmarshal into field height" p
                  else Stored {| ParamsGetPegnetRates.Height := Some (Z.to_N n) |}
              | _ => Mismatch "json: cannot unmarshal into field height" p
              end)
    else None
|}.

(** Batches kept by the content of their entry; a content decodes when it
    opens a list. *)
#[export] Instance batches : Batches string := {|
  Entry_IsPopulated e := negb (String.eqb (Entry.Body e) "");
  NewTransactionBatch e := Entry.Body e;
  UnmarshalEntry txBatch :=
    if String.prefix "[" txBatch
    then (txBatch, None)
    else (txBatch, Some "invalid character")
|}.

(** The sample store with other answers on addresses, rates and balances. *)
Definition store_with (addresses : list FAAddress * option string)
    (rates : gmap Ticker N * option string)
    (balances : FAAddress -> gmap Ticker N * option string)
    : Pegnet.t Ticker string := {|
  Pegnet.SelectAddresses := addresses;
  Pegnet.SelectRates _ := rates;
  Pegnet.SelectBalances := balances;
  Pegnet.SelectTransactionHistoryStatus :=
    Pegnet.SelectTransactionHistoryStatus (store None);
  Pegnet.SelectTransactionHistoryActionsByHash :=
    Pegnet.SelectTransactionHistoryActionsByHash (store None);
  Pegnet.SelectTransactionHistoryActionsByAddress :=
    Pegnet.SelectTransactionHistoryActionsByAddress (store None);
  Pegnet.SelectTransactionHistoryActionsByHeight :=
    Pegnet.SelectTransactionHistoryActionsByHeight (store None)
|}.

Definition server_over (pegnet : Pegnet.t Ticker string)
    : APIServer.t Ticker string := {|
  APIServer.Node :=
    {| Node.GetCurrentSync := Node.GetCurrentSync (APIServer.Node healthy);
       Node.Pegnet := pegnet;
       Node.FactomClient := Node.FactomClient (APIServer.Node healthy) |};
  APIServer.Config := APIServer.Config healthy
|}.

(** A store that answers a query for rates or balances with rows and with
    an error at once. *)
Definition torn : APIServer.t Ticker string :=
  server_over
    (store_with (Pegnet.SelectAddresses (store None))
       ({[ PEG := 2000000%N ]}, Some "database is locked")
       (fun a =>
          if String.eqb a "FA1" then ({[ pUSD := 500000000%N ]}, Some ErrNoRows)
          else (∅, Some "database is locked"))).

(** A store that cannot list the addresses, one that fails on the rates,
    and one that cannot read the balances of [FA2]. *)
Definition blind : APIServer.t Ticker string :=
  server_over
    (store_with ([], Some "database is locked")
       (Pegnet.SelectRates (store None) 0%N) (Pegnet.SelectBalances (store None))).
Definition rates_down : APIServer.t Ticker string :=
  server_over
    (store_with (Pegnet.SelectAddresses (store None))
       (∅, Some "database is locked") (Pegnet.SelectBalances (store None))).
Definition patchy : APIServer.t Ticker string :=
  server_over
    (store_with (Pegnet.SelectAddresses (store None))
       (Pegnet.SelectRates (store None) 0%N)
       (fun a =>
          if String.eqb a "FA2" then (∅, Some "database is locked")
          else Pegnet.SelectBalances (store None) a)).

(** The store knows the transaction [aa], whose entry the client has, the
    transaction [bb], whose entry does not decode, and the transaction [dd],
    whose entry the client cannot get; it fails on [ee]. *)
Definition service (server : APIServer.t Ticker string)
    (issuances : gmap Ticker N * option string) (heights : N * option string)
    : Service.t Ticker string := {|
  Service.Server := server;
  Service.DoesTransactionExist hash :=
    if String.eqb hash "aa" then (true, None)
    else if String.eqb hash "bb" then (true, None)
    else if String.eqb hash "dd" then (true, None)
    else if String.eqb hash "ee" then (false, Some "database is locked")
    else (false, None);
  Service.SelectIssuances := issuances;
  Service.Heights_Get := heights;
  Service.Entry_Get e :=
    match Entry.Hash e with
    | Some hash =>
        if String.eqb hash "aa"
        then
          ({| Entry.ChainID := Some TransactionChain;
              Entry.Hash := Some hash;
              Entry.Body := "[transfer]" |}, None)
        else if String.eqb hash "bb"
        then
          ({| Entry.ChainID := Some TransactionChain;
              Entry.Hash := Some hash;
              Entry.Body := "transfer" |}, None)
        else (e, Some "connection refused")
    | None => (e, Some "connection refused")
    end
|}.

Definition issued : gmap Ticker N := {[ PEG := 7000000%N; pUSD := 300%N ]}.

(** In good order, at directory block 215010. *)
Definition running : Service.t Ticker string :=
  service healthy (issued, None) (215010%N, None).

(** With a client that is out of reach. *)
Definition cut_off : Service.t Ticker string :=
  service healthy (issued, None) (0%N, Some "connection refused").

(** With a store that fails on the issuance. *)
Definition failing : Service.t Ticker string :=
  service healthy (∅, Some "database is locked") (215010%N, None).

(** At a directory block height above what 31 bits hold. *)
Definition far_ahead : Service.t Ticker string :=
  service healthy (issued, None) (3000000000%N, None).

(** Over the store without rates, and over the torn store. *)
Definition rateless : Service.t Ticker string :=
  service without_rates (issued, None) (215010%N, None).
Definition torn_service : Service.t Ticker string :=
  service torn (issued, None) (215010%N, None).

End SampleService.
(** * Properties *)

(** ** Go integers *)

Lemma wrap_int64_id (z : Z) : Go.is_int z -> Go.wrap_int64 z = z.
Proof.
  unfold Go.is_int, Go.min_int, Go.max_int, Go.wrap_int64. intros Hz.
  rewrite Z.mod_small by lia. lia.
Qed.

Lemma len_nonneg {A} (l : list A) : 0 <= Go.len l.
Proof. unfold Go.len. lia. Qed.

Lemma len_zero {A} (l : list A) : Go.len l = 0 <-> l = [].
Proof.
  unfold Go.len. destruct l as [|x l]; simpl; split; intros Hl;
    try reflexivity; try discriminate; lia.
Qed.

Lemma to_uint64_id (z : Z) : 0 <= z < 2 ^ 64 -> Z.of_N (Go.to_uint64 z) = z.
Proof.
  intros Hz. unfold Go.to_uint64. rewrite Z.mod_small by lia. lia.
Qed.

(** ** The handler monad *)

Lemma outcome_Return {R} (r : R) : outcome (Return r) = Returned r.
Proof. reflexivity. Qed.

Lemma outcome_bind_call {R A} (c : Call) (v : A) (k : A -> Body R) :
  outcome (@call R A c v ≫= k) = outcome (k v).
Proof.
  unfold outcome, call, mbind, Handler_bind. destruct (k v) as [cs r]. reflexivity.
Qed.

Lemma outcome_bind_value {R A} (m : Handler R A) (cs : list Call) (v : A)
    (k : A -> Body R) :
  m = (cs, inr v) -> outcome (m ≫= k) = outcome (k v).
Proof.
  intros ->. unfold outcome, mbind, Handler_bind. destruct (k v) as [cs' r].
  reflexivity.
Qed.

Section HistoryProperties.
Context `{Imports} {PTicker : Type} `{Countable PTicker} `{!PTickerOps PTicker}.
Context {HistoryTransaction : Type}.
Context `{!Params ParamsGetPegnetTransaction.t}.
Context `{!Params ParamsGetPegnetTransactionStatus.t}.

#[local] Abbreviation Server := (APIServer.t PTicker HistoryTransaction).
#[local] Abbreviation Resp := (Response PTicker HistoryTransaction).

(** What [getTransactions] returns once validation has passed and the store
    has answered without an error: the next offset is computed on [int],
    with its wrap-around. *)
Lemma getTransactions_answer (s : Server) (data : RawMessage)
    (params : ParamsGetPegnetTransaction.t) (cs : list Call)
    (actions : list HistoryTransaction) (count : Z) :
  validate data (Some ParamsGetPegnetTransaction.zero) = (Some params, None) ->
  selectActions s params (queryOptions params)
    = (cs, inr (actions, count, None)) ->
  outcome (getTransactions s data) =
    if Go.len actions =? 0
    then Returned (RespError (RpcError ErrorTransactionNotFound))
    else
      let next :=
        Go.int_add (ParamsGetPegnetTransaction.Offset params) (Go.len actions) in
      Returned
        (RespTransactions
           {| ResultGetTransactions.Count := count;
              ResultGetTransactions.NextOffset :=
                if next <? count then next else 0;
              ResultGetTransactions.Actions := actions |}).
Proof.
  intros Hvalid Hsel. unfold getTransactions. rewrite Hvalid. simpl.
  rewrite (outcome_bind_value _ _ _ _ Hsel).
  destruct (Go.len actions =? 0); reflexivity.
Qed.

(** C1: when a request matches at least one action, with offset [O] (not
    negative), [R] actions returned and total count [C], and [O + R] is
    within [int], the result has [nextOffset = O + R] if [O + R < C] and
    [nextOffset = 0] otherwise; so, the page lying within the total
    ([O + R <= C]), [O < C] and [nextOffset] is either above [O] and at
    most [C], or the sentinel 0, the latter exactly when [O + R = C]. *)
Theorem getTransactions_nextOffset (s : Server) (data : RawMessage)
    (params : ParamsGetPegnetTransaction.t) (cs : list Call)
    (actions : list HistoryTransaction) (count : Z) :
  let O := ParamsGetPegnetTransaction.Offset params in
  let R := Go.len actions in
  validate data (Some ParamsGetPegnetTransaction.zero) = (Some params, None) ->
  selectActions s params (queryOptions params)
    = (cs, inr (actions, count, None)) ->
  actions <> [] ->
  0 <= O ->
  O + R <= Go.max_int ->
  exists res : ResultGetTransactions.t HistoryTransaction,
    outcome (getTransactions s data) = Returned (RespTransactions res) /\
    ResultGetTransactions.Actions res = actions /\
    ResultGetTransactions.Count res = count /\
    ResultGetTransactions.NextOffset res = (if O + R <? count then O + R else 0) /\
    (O + R <= count ->
     O < count /\
     (O < ResultGetTransactions.NextOffset res <= count \/
      ResultGetTransactions.NextOffset res = 0) /\
     (ResultGetTransactions.NextOffset res = 0 <-> O + R = count)).
Proof.
  intros O R Hvalid Hsel Hne HO Hmax.
  assert (HR : 0 < R).
  { pose proof (len_nonneg actions). pose proof (len_zero actions).
    subst R. destruct (Z.eq_dec (Go.len actions) 0); [tauto | lia]. }
  rewrite (getTransactions_answer _ _ _ _ _ _ Hvalid Hsel).
  fold O R. destruct (R =? 0) eqn:HR0; [lia |].
  unfold Go.int_add.
  rewrite wrap_int64_id by (unfold Go.is_int, Go.min_int, Go.max_int in *; lia).
  eexists. split; [reflexivity |]. simpl.
  split; [reflexivity |]. split; [reflexivity |]. split; [reflexivity |].
  intros Hpage. destruct (O + R <? count) eqn:Hlt; lia.
Qed.

(** C6: a request that passes validation and whose history lookup succeeds
    with no action at all is answered with the transaction-not-found error,
    not with a result. *)
Theorem getTransactions_empty_not_found (s : Server) (data : RawMessage)
    (params : ParamsGetPegnetTransaction.t) (cs : list Call) (count : Z) :
  validate data (Some ParamsGetPegnetTransaction.zero) = (Some params, None) ->
  selectActions s params (queryOptions params) = (cs, inr ([], count, None)) ->
  outcome (getTransactions s data)
    = Returned (RespError (RpcError ErrorTransactionNotFound)).
Proof.
  intros Hvalid Hsel.
  rewrite (getTransactions_answer _ _ _ _ _ _ Hvalid Hsel). reflexivity.
Qed.

(** C10: for a valid request whose status lookup succeeds, a reported height
    of 0 is answered with the transaction-not-found error, whatever the
    store says of the transaction otherwise (so a transaction recorded at
    height 0 is answered like a missing one), and every status result has a
    height above 0. *)
Theorem getTransactionStatus_height_zero (s : Server) (data : RawMessage) :
  (forall (params : ParamsGetPegnetTransactionStatus.t) (executed : N),
     validate data (Some ParamsGetPegnetTransactionStatus.zero)
       = (Some params, None) ->
     Pegnet.SelectTransactionHistoryStatus (Node.Pegnet (APIServer.Node s))
       (ParamsGetPegnetTransactionStatus.Hash params) = (0%N, executed, None) ->
     outcome (getTransactionStatus s data)
       = Returned (RespError (RpcError ErrorTransactionNotFound))) /\
  (forall res : ResultGetTransactionStatus.t,
     outcome (getTransactionStatus s data) = Returned (RespTransactionStatus res) ->
     (0 < ResultGetTransactionStatus.Height res)%N).
Proof.
  unfold getTransactionStatus. split.
  - intros params executed Hvalid Hstore. rewrite Hvalid.
    rewrite outcome_bind_call. simpl. rewrite Hstore. reflexivity.
  - intros res.
    destruct (validate data (Some ParamsGetPegnetTransactionStatus.zero))
      as [params [e|]]; [discriminate |].
    rewrite outcome_bind_call.
    destruct (Pegnet.SelectTransactionHistoryStatus _ _)
      as [[height executed] [e|]]; [discriminate |].
    destruct (height =? 0)%N eqn:Hh; [discriminate |].
    rewrite outcome_Return. intros [= <-]. simpl.
    apply N.eqb_neq in Hh. lia.
Qed.

End HistoryProperties.

(** ** Strict decoding *)
Section DecoderProperties.
Context `{Imports} {P : Type} `{Params P}.

(** An error once noted is never dropped. *)
Lemma decodeObject_saved (b : bool) (members : list (string * JSON)) (p : P)
    (err : string) :
  exists p' err', decodeObject b members p (Some err) = (p', Some err').
Proof.
  revert p. induction members as [|[name v] rest IH]; intros p; simpl.
  - eauto.
  - destruct (field name) as [store|].
    + destruct (store v p) as [p'|err' p'|err'].
      * apply IH.
      * apply IH.
      * eauto.
    + destruct b; apply IH.
Qed.

(** A member that names no field makes the strict decoder fail, wherever it
    stands among the members. *)
Lemma decodeObject_unknown_field (members : list (string * JSON)) (name : string)
    (p : P) (saved : option string) :
  In name (map fst members) ->
  field name = None ->
  exists p' err, decodeObject true members p saved = (p', Some err).
Proof.
  intros Hin Hfield. revert p saved.
  induction members as [|[name' v] rest IH]; intros p saved; simpl in *.
  - contradiction.
  - destruct (field name') as [store|] eqn:Hname'.
    + destruct Hin as [-> | Hin]; [congruence |].
      destruct (store v p) as [p'|err' p'|err'].
      * apply IH, Hin.
      * apply IH, Hin.
      * eauto.
    + destruct saved as [err|]; simpl; apply decodeObject_saved.
Qed.

Lemma validate_unknown_field (members : list (string * JSON)) (name : string)
    (p : P) :
  In name (map fst members) ->
  field name = None ->
  exists p' msg,
    validate (RawValue (JObject members)) (Some p)
      = (Some p', Some (RpcError (InvalidParams msg))).
Proof.
  intros Hin Hfield. unfold validate, unmarshalStrict, Decode. simpl.
  destruct (decodeObject_unknown_field members name p None Hin Hfield)
    as (p' & err & ->).
  eauto.
Qed.

End DecoderProperties.

Section ValidationProperties.
Context `{Imports} {PTicker : Type} `{Countable PTicker} `{!PTickerOps PTicker}.
Context {HistoryTransaction : Type}.
Context `{!Params ParamsGetPegnetTransaction.t}.
Context `{!Params ParamsGetPegnetTransactionStatus.t}.
Context `{!Params ParamsSendTransaction.t}.

#[local] Abbreviation Server := (APIServer.t PTicker HistoryTransaction).

(** C7: when the payload is an object with a member whose name is no field
    of the parameter type, [validate] returns an invalid-params error, for
    any parameter type; and the handlers that validate their parameters
    return that error without a single call to a collaborator. *)
Theorem unknown_field_invalid_params (members : list (string * JSON))
    (name : string) :
  In name (map fst members) ->
  let data := RawValue (JObject members) in
  (forall (Q : Type) (HQ : Params Q) (q : Q),
     @field Q HQ name = None ->
     exists msg,
       snd (validate data (Some q)) = Some (RpcError (InvalidParams msg))) /\
  (forall s : Server,
     @field ParamsGetPegnetTransaction.t _ name = None ->
     exists msg,
       outcome (getTransactions s data)
         = Returned (RespError (RpcError (InvalidParams msg))) /\
       calls (getTransactions s data) = []) /\
  (forall s : Server,
     @field ParamsGetPegnetTransactionStatus.t _ name = None ->
     exists msg,
       outcome (getTransactionStatus s data)
         = Returned (RespError (RpcError (InvalidParams msg))) /\
       calls (getTransactionStatus s data) = []) /\
  (forall s : Server,
     @field ParamsSendTransaction.t _ name = None ->
     exists msg,
       outcome (sendTransaction s data)
         = Returned (RespError (RpcError (InvalidParams msg))) /\
       calls (sendTransaction s data) = []).
Proof.
  intros Hin data. repeat split.
  - intros Q HQ q Hfield.
    destruct (validate_unknown_field members name q Hin Hfield)
      as (q' & msg & Hv).
    exists msg. subst data. rewrite Hv. reflexivity.
  - intros s Hfield.
    destruct (validate_unknown_field members name
                ParamsGetPegnetTransaction.zero Hin Hfield) as (q' & msg & Hv).
    exists msg. unfold getTransactions. subst data. rewrite Hv. split; reflexivity.
  - intros s Hfield.
    destruct (validate_unknown_field members name
                ParamsGetPegnetTransactionStatus.zero Hin Hfield)
      as (q' & msg & Hv).
    exists msg. unfold getTransactionStatus. subst data. rewrite Hv.
    split; reflexivity.
  - intros s Hfield.
    destruct (validate_unknown_field members name
                ParamsSendTransaction.zero Hin Hfield) as (q' & msg & Hv).
    exists msg. unfold sendTransaction. subst data. rewrite Hv. split; reflexivity.
Qed.

End ValidationProperties.

(** ** [sendTransaction] *)
Section SendProperties.
Context `{Imports} {PTicker : Type} `{Countable PTicker} `{!PTickerOps PTicker}.
Context {HistoryTransaction : Type}.
Context `{!Params ParamsSendTransaction.t}.

#[local] Abbreviation Server := (APIServer.t PTicker HistoryTransaction).
#[local] Abbreviation Resp := (Response PTicker HistoryTransaction).

(** The handler past validation and past the parsing of the configured
    key. *)
Lemma sendTransaction_unfold (s : Server) (data : RawMessage)
    (params : ParamsSendTransaction.t) (key : EsAddress) :
  validate data (Some ParamsSendTransaction.zero) = (Some params, None) ->
  EsAddress_Set (Config.ECPrivateKey (APIServer.Config s)) = (key, None) ->
  sendTransaction s data =
    let entry :=
      Entry.set_ChainID (ParamsSendTransaction.Entry params) TransactionChain in
    '(txID, entry) ←
      (if negb (ParamsSendTransaction.DryRun params)
       then submit s key entry
       else mret (None, entry));
    (Return
       (RespSendTransaction
          {| ResultSendTransaction.ChainID := Entry.ChainID entry;
             ResultSendTransaction.TxID := txID;
             ResultSendTransaction.Hash := Entry.Hash entry |}) : Body Resp).
Proof.
  intros Hvalid Hkey. unfold sendTransaction. rewrite Hvalid, Hkey. reflexivity.
Qed.

(** C2: in a request that is no dry run (valid, the configured key parsed,
    the balance lookup answered): if computing the cost of the entry fails,
    the handler returns the invalid-transaction error with the cause as its
    data; if the cost is computed and the balance is below it, the handler
    returns the no-entry-credits error, which is another error than
    invalid-transaction, and the only calls made are the balance lookup and
    the cost computation: nothing is submitted. *)
Theorem sendTransaction_funding_errors (s : Server) (data : RawMessage)
    (params : ParamsSendTransaction.t) (key : EsAddress) (balance : N) :
  let entry :=
    Entry.set_ChainID (ParamsSendTransaction.Entry params) TransactionChain in
  validate data (Some ParamsSendTransaction.zero) = (Some params, None) ->
  ParamsSendTransaction.DryRun params = false ->
  EsAddress_Set (Config.ECPrivateKey (APIServer.Config s)) = (key, None) ->
  FactomClient.GetBalance (Node.FactomClient (APIServer.Node s)) key
    = (balance, None) ->
  (forall (cost : Z) (cause : string),
     Entry_Cost entry = (cost, Some cause) ->
     outcome (sendTransaction s data)
       = Returned
           (RespError
              (RpcError
                 {| Name := InvalidTransactionName; Data := Some cause |}))) /\
  (forall cost : Z,
     Entry_Cost entry = (cost, None) ->
     cost < 2 ^ 64 ->
     Z.of_N balance < cost ->
     outcome (sendTransaction s data) = Returned (RespError (RpcError ErrorNoEC)) /\
     Name ErrorNoEC <> Name ErrorInvalidTransaction /\
     calls (sendTransaction s data) = [CallGetBalance key; CallCost entry]).
Proof.
  intros entry Hvalid Hwet Hkey Hbal.
  rewrite (sendTransaction_unfold s data params key Hvalid Hkey).
  rewrite Hwet. fold entry. cbn [negb]. unfold submit.
  split.
  - intros cost cause Hcost.
    unfold outcome, calls, mbind, Handler_bind, call. rewrite Hbal, Hcost.
    reflexivity.
  - intros cost Hcost Hrange Hlow.
    assert (Hlt : (balance <? Go.to_uint64 cost)%N = true).
    { apply N.ltb_lt. pose proof (to_uint64_id cost). lia. }
    unfold outcome, calls, mbind, Handler_bind, call.
    rewrite Hbal, Hcost, Hlt. repeat split. discriminate.
Qed.

(** C8: in a request to send, a failure of the client at the balance lookup
    or at the submission ends the handler in a panic with the error of the
    client, and nothing is called after the call that failed; the handler
    returns nothing of the failure itself. The call of the handler so ends in
    an answer, and the answer is the internal error, which carries no
    data. *)
Theorem sendTransaction_client_failure_internal (s : Server) (data : RawMessage)
    (params : ParamsSendTransaction.t) (key : EsAddress) :
  let entry :=
    Entry.set_ChainID (ParamsSendTransaction.Entry params) TransactionChain in
  let client := Node.FactomClient (APIServer.Node s) in
  validate data (Some ParamsSendTransaction.zero) = (Some params, None) ->
  ParamsSendTransaction.DryRun params = false ->
  EsAddress_Set (Config.ECPrivateKey (APIServer.Config s)) = (key, None) ->
  (forall (balance : N) (err : string),
     FactomClient.GetBalance client key = (balance, Some err) ->
     outcome (sendTransaction s data) = Panicked err /\
     calls (sendTransaction s data) = [CallGetBalance key] /\
     MethodFunc_call (sendTransaction s data)
       = RespError (RpcError InternalError)) /\
  (forall (balance : N) (cost : Z) (entry' : Entry.t) (txID : option Bytes32)
          (err : string),
     FactomClient.GetBalance client key = (balance, None) ->
     Entry_Cost entry = (cost, None) ->
     (balance <? Go.to_uint64 cost)%N = false ->
     FactomClient.ComposeCreate client entry key = (entry', txID, Some err) ->
     outcome (sendTransaction s data) = Panicked err /\
     calls (sendTransaction s data)
       = [CallGetBalance key; CallCost entry; CallComposeCreate entry key] /\
     MethodFunc_call (sendTransaction s data)
       = RespError (RpcError InternalError)) /\
  Data InternalError = None.
Proof.
  intros entry client Hvalid Hwet Hkey.
  unfold MethodFunc_call.
  rewrite (sendTransaction_unfold s data params key Hvalid Hkey).
  rewrite Hwet. fold entry. cbn [negb]. unfold submit. fold client.
  split; [| split; [| reflexivity]].
  - intros balance err Hbal.
    unfold outcome, calls, mbind, Handler_bind, call. rewrite Hbal.
    repeat split.
  - intros balance cost entry' txID err Hbal Hcost Hge Hsubmit.
    unfold outcome, calls, mbind, Handler_bind, call.
    rewrite Hbal, Hcost, Hge, Hsubmit. repeat split.
Qed.

End SendProperties.

(** ** Dry runs *)
Section DryRunProperties.
Context `{Imports} {PTicker : Type} `{Countable PTicker} `{!PTickerOps PTicker}.
Context {HistoryTransaction : Type}.
Context `{!Params ParamsSendTransaction.t}.
Context `{!EntryHash} `{!ContentAddressed}.

#[local] Abbreviation Server := (APIServer.t PTicker HistoryTransaction).

(** C3, amended: a valid request with [dryRun] set makes no call at all (no
    balance lookup, no cost computation, no submission). If the configured
    key does not parse, the handler returns the internal error. If it parses,
    the result has no transaction id, the chain id of the one transaction
    chain, and the hash of the entry, the one computed from its contents;
    any other dry run of an entry with the same contents, by whatever
    request and to whatever server, gets the same result, and so the same
    hash. *)
Theorem sendTransaction_dry_run (s : Server) (data : RawMessage)
    (params : ParamsSendTransaction.t) :
  let entry := ParamsSendTransaction.Entry params in
  validate data (Some ParamsSendTransaction.zero) = (Some params, None) ->
  ParamsSendTransaction.DryRun params = true ->
  calls (sendTransaction s data) = [] /\
  (snd (EsAddress_Set (Config.ECPrivateKey (APIServer.Config s))) <> None ->
   outcome (sendTransaction s data) = Returned (RespError (RpcError InternalError))) /\
  (snd (EsAddress_Set (Config.ECPrivateKey (APIServer.Config s))) = None ->
   outcome (sendTransaction s data)
     = Returned
         (RespSendTransaction
            {| ResultSendTransaction.ChainID := Some TransactionChain;
               ResultSendTransaction.TxID := None;
               ResultSendTransaction.Hash :=
                 Some (Entry_ComputeHash (Entry.ChainID entry) (Entry.Body entry)) |}) /\
   forall (s' : Server) (data' : RawMessage) (params' : ParamsSendTransaction.t),
     validate data' (Some ParamsSendTransaction.zero) = (Some params', None) ->
     ParamsSendTransaction.DryRun params' = true ->
     snd (EsAddress_Set (Config.ECPrivateKey (APIServer.Config s'))) = None ->
     Entry.ChainID (ParamsSendTransaction.Entry params') = Entry.ChainID entry ->
     Entry.Body (ParamsSendTransaction.Entry params') = Entry.Body entry ->
     outcome (sendTransaction s' data') = outcome (sendTransaction s data)).
Proof.
  intros entry Hvalid Hdry.
  assert (Hresult : forall (s0 : Server) (data0 : RawMessage)
            (params0 : ParamsSendTransaction.t),
            validate data0 (Some ParamsSendTransaction.zero)
              = (Some params0, None) ->
            ParamsSendTransaction.DryRun params0 = true ->
            snd (EsAddress_Set (Config.ECPrivateKey (APIServer.Config s0)))
              = None ->
            outcome (sendTransaction s0 data0)
              = Returned
                  (RespSendTransaction
                     {| ResultSendTransaction.ChainID := Some TransactionChain;
                        ResultSendTransaction.TxID := None;
                        ResultSendTransaction.Hash :=
                          Some
                            (Entry_ComputeHash
                               (Entry.ChainID (ParamsSendTransaction.Entry params0))
                               (Entry.Body (ParamsSendTransaction.Entry params0))) |})).
  { intros s0 data0 params0 Hv Hd Hk.
    destruct (EsAddress_Set (Config.ECPrivateKey (APIServer.Config s0)))
      as [key err] eqn:Hkey.
    simpl in Hk. subst err.
    rewrite (sendTransaction_unfold s0 data0 params0 key Hv Hkey), Hd.
    rewrite <- (Entry_hashed data0 params0 Hv). reflexivity. }
  split; [| split].
  - unfold sendTransaction. rewrite Hvalid.
    destruct (EsAddress_Set (Config.ECPrivateKey (APIServer.Config s)))
      as [key [err|]]; [reflexivity |].
    cbn [default from_option id]. rewrite Hdry. reflexivity.
  - unfold sendTransaction. rewrite Hvalid.
    destruct (EsAddress_Set (Config.ECPrivateKey (APIServer.Config s)))
      as [key [err|]]; [reflexivity | simpl; congruence].
  - intros Hkey. split.
    + apply Hresult; assumption.
    + intros s' data' params' Hv' Hd' Hk' Hchain Hbody.
      rewrite (Hresult s' data' params' Hv' Hd' Hk'), Hchain, Hbody.
      symmetry. apply Hresult; assumption.
Qed.

End DryRunProperties.

(** ** The ticker-keyed result *)
Section TickerMapProperties.
Context {PTicker : Type} `{Countable PTicker} `{!PTickerOps PTicker}.

(** A key that [PTicker.UnmarshalJSON] refuses makes [UnmarshalJSON] fail. *)
Lemma UnmarshalJSON_rejects (r0 : gmap PTicker N) (strMap : gmap string N)
    (str : string) (cause : string) :
  is_Some (strMap !! str) ->
  PTicker_UnmarshalJSON str = inl cause ->
  exists err, snd (UnmarshalJSON r0 (inr strMap)) = Some err.
Proof.
  intros Hin Hbad. simpl. revert Hin.
  apply (map_fold_weak_ind
           (fun (st : gmap PTicker N * option string) (m : gmap string N) =>
              is_Some (m !! str) -> exists err, snd st = Some err)).
  - rewrite lookup_empty. intros [? [=]].
  - intros k v m [r err] Hfresh IH Hin.
    destruct err as [err|]; [simpl; eauto |].
    destruct (decide (k = str)) as [-> | Hne].
    + simpl. rewrite Hbad. simpl. eauto.
    + rewrite lookup_insert_ne in Hin by done.
      destruct (IH Hin) as [err [=]].
Qed.

Context `{!PTickerRegistry PTicker}.

(** No two tickers share a symbol. *)
Lemma PTicker_String_inj : Inj (=) (=) (PTicker_String (PTicker:=PTicker)).
Proof.
  intros t1 t2 Heq. pose proof (symbol_decodes t1) as H1.
  rewrite Heq, symbol_decodes in H1. congruence.
Qed.

(** [MarshalJSON] renames every key to its symbol and keeps the amounts. *)
Lemma MarshalJSON_kmap (r : gmap PTicker N) :
  MarshalJSON r = kmap PTicker_String r.
Proof.
  unfold MarshalJSON.
  apply (map_fold_weak_ind
           (fun (strMap : gmap string N) (m : gmap PTicker N) =>
              strMap = kmap PTicker_String m)).
  - by rewrite kmap_empty.
  - intros t b m strMap Hfresh ->.
    rewrite kmap_insert; [done | apply PTicker_String_inj].
Qed.

(** On a wire form whose keys are all symbols, [UnmarshalJSON] succeeds and
    gives each ticker the amount filed under its symbol. *)
Lemma UnmarshalJSON_symbols (r0 : gmap PTicker N) (strMap : gmap string N) :
  (forall str, is_Some (strMap !! str) -> exists t, str = PTicker_String t) ->
  exists r,
    UnmarshalJSON r0 (inr strMap) = (r, None) /\
    forall t, r !! t = strMap !! PTicker_String t.
Proof.
  simpl.
  apply (map_fold_weak_ind
           (fun (st : gmap PTicker N * option string) (m : gmap string N) =>
              (forall str, is_Some (m !! str) -> exists t, str = PTicker_String t) ->
              exists r, st = (r, None) /\
                        forall t, r !! t = m !! PTicker_String t)).
  - intros _. exists ∅. split; [done |]. intros t. by rewrite !lookup_empty.
  - intros k v m st Hfresh IH Hkeys.
    destruct IH as (r & -> & Hr).
    { intros str Hstr. apply Hkeys.
      destruct (decide (k = str)) as [-> | Hne].
      - rewrite lookup_insert_eq. eauto.
      - by rewrite lookup_insert_ne. }
    destruct (Hkeys k) as [t0 ->]; [rewrite lookup_insert_eq; eauto |].
    simpl. rewrite symbol_decodes.
    exists (<[t0 := v]> r). split; [done |]. intros t.
    destruct (decide (t0 = t)) as [-> | Hne].
    + by rewrite !lookup_insert_eq.
    + rewrite !lookup_insert_ne; [apply Hr | | done].
      intros Heq. apply Hne. by apply PTicker_String_inj.
Qed.

(** C9: decoding the wire form of a ticker map gives the map back; the wire
    form files each amount under the symbol of its ticker and under nothing
    else; and decoding any wire form with a key that is the symbol of no
    ticker fails with an error. *)
Theorem ResultPegnetTickerMap_roundtrip (r r0 : gmap PTicker N) :
  UnmarshalJSON r0 (inr (MarshalJSON r)) = (r, None) /\
  (forall (str : string) (b : N),
     MarshalJSON r !! str = Some b <->
     exists t, str = PTicker_String t /\ r !! t = Some b) /\
  (forall (strMap : gmap string N) (str : string),
     is_Some (strMap !! str) ->
     (forall t, str <> PTicker_String t) ->
     exists err, snd (UnmarshalJSON r0 (inr strMap)) = Some err).
Proof.
  split; [| split].
  - destruct (UnmarshalJSON_symbols r0 (MarshalJSON r)) as (r' & Heq & Hr').
    { intros str [b Hb]. rewrite MarshalJSON_kmap in Hb.
      apply lookup_kmap_Some in Hb as (t & -> & _);
        [eauto | apply PTicker_String_inj]. }
    rewrite Heq. f_equal. apply map_eq. intros t.
    rewrite Hr', MarshalJSON_kmap. apply lookup_kmap, PTicker_String_inj.
  - intros str b. rewrite MarshalJSON_kmap.
    rewrite lookup_kmap_Some by apply PTicker_String_inj. reflexivity.
  - intros strMap str Hin Hnone.
    destruct (PTicker_UnmarshalJSON str) as [cause|t] eqn:Hdec.
    + apply (UnmarshalJSON_rejects r0 strMap str cause Hin Hdec).
    + apply decoded_is_symbol in Hdec. destruct (Hnone t Hdec).
Qed.

End TickerMapProperties.

(** ** [float64]

    Rounding to a precision [prec] with exponents up to [emax], as the
    Standard Library specifies it; then binary64. *)
Section Rounding.
Variables prec emax : Z.
Hypothesis prec_pos : 0 < prec.

Lemma digits2_pos_size (p : positive) : digits2_pos p = Pos.size p.
Proof. induction p; simpl; congruence. Qed.

Lemma Zdigits2_bounds (p : positive) :
  2 ^ (Zdigits2 (Zpos p) - 1) <= Zpos p < 2 ^ Zdigits2 (Zpos p).
Proof.
  simpl. rewrite digits2_pos_size.
  pose proof (Pos.size_gt p) as Hgt. pose proof (Pos.size_le p) as Hle.
  apply Pos2Z.pos_lt_pos in Hgt. apply Pos2Z.pos_le_pos in Hle.
  rewrite Pos2Z.inj_pow in Hgt, Hle.
  replace (Z.pos (Pos.size p)) with (Z.succ (Z.pos (Pos.size p) - 1)) in Hle by lia.
  rewrite Z.pow_succ_r in Hle by lia.
  split; [lia | assumption].
Qed.

Lemma Zdigits2_le (m k : Z) : 0 < m -> m < 2 ^ k -> Zdigits2 m <= k.
Proof.
  intros Hm Hk. destruct m as [|p|p]; try lia.
  pose proof (Zdigits2_bounds p) as [Hlo _].
  destruct (Z_le_gt_dec (Zdigits2 (Z.pos p)) k) as [|Hgt]; [assumption |].
  exfalso.
  assert (0 <= k).
  { destruct (Z_lt_le_dec k 0) as [Hneg|]; [| assumption].
    rewrite Z.pow_neg_r in Hk by assumption. lia. }
  assert (2 ^ k <= 2 ^ (Zdigits2 (Z.pos p) - 1)) by (apply Z.pow_le_mono_r; lia).
  lia.
Qed.

Lemma shr_1_m (mrs : shr_record) :
  0 <= shr_m mrs -> shr_m (shr_1 mrs) = shr_m mrs / 2.
Proof.
  destruct mrs as [m r s]. simpl. intros Hm.
  destruct m as [|[p|p|]|p]; simpl; try lia; try reflexivity.
  - rewrite Pos2Z.inj_xI. apply Z.div_unique with 1; lia.
  - rewrite Pos2Z.inj_xO. apply Z.div_unique with 0; lia.
Qed.

Lemma iter_shr_1_m (p : positive) (mrs : shr_record) :
  0 <= shr_m mrs ->
  shr_m (SpecFloat.iter_pos shr_1 p mrs) = shr_m mrs / 2 ^ Zpos p.
Proof.
  revert mrs. induction p as [p IH|p IH|]; intros mrs Hm; simpl SpecFloat.iter_pos.
  - assert (H1 : 0 <= shr_m (shr_1 mrs)).
    { rewrite shr_1_m by assumption. apply Z.div_pos; lia. }
    assert (H2 : 0 <= shr_m (SpecFloat.iter_pos shr_1 p (shr_1 mrs))).
    { rewrite IH by assumption. apply Z.div_pos; lia. }
    rewrite IH, IH, shr_1_m by assumption.
    rewrite !Z.div_div by lia. f_equal.
    replace (Z.pos p~1) with (1 + Z.pos p + Z.pos p) by lia.
    rewrite !Z.pow_add_r by lia. change (2 ^ 1) with 2. lia.
  - assert (H2 : 0 <= shr_m (SpecFloat.iter_pos shr_1 p mrs)).
    { rewrite IH by assumption. apply Z.div_pos; lia. }
    rewrite IH, IH by assumption.
    rewrite !Z.div_div by lia. f_equal.
    replace (Z.pos p~0) with (Z.pos p + Z.pos p) by lia.
    rewrite Z.pow_add_r by lia. lia.
  - rewrite shr_1_m by assumption. reflexivity.
Qed.

Lemma shr_record_of_loc_m (m : Z) (l : location) : shr_m (shr_record_of_loc m l) = m.
Proof. destruct l as [|[]]; reflexivity. Qed.

(** Truncation to the working precision keeps a positive mantissa positive
    when the exponent is not below [emin]. *)
Lemma shr_fexp_spec (m e : Z) (l : location) :
  0 < m -> emin prec emax <= e ->
  0 < shr_m (fst (shr_fexp prec emax m e l)) /\
  Zdigits2 (shr_m (fst (shr_fexp prec emax m e l))) <= prec /\
  e <= snd (shr_fexp prec emax m e l).
Proof.
  intros Hm He. unfold shr_fexp, shr, fexp.
  destruct m as [|p|p]; try lia.
  pose proof (Zdigits2_bounds p) as [Hlo Hhi].
  set (d := Zdigits2 (Z.pos p)) in *.
  assert (Hd : 0 < d) by (subst d; simpl; lia).
  destruct (Z.max (d + e - prec) (emin prec emax) - e) as [|n|n] eqn:Hn; simpl fst; simpl snd.
  - rewrite shr_record_of_loc_m. fold d. lia.
  - rewrite iter_shr_1_m by (rewrite shr_record_of_loc_m; lia).
    rewrite shr_record_of_loc_m.
    assert (Hnd : Z.pos n = d - prec) by lia.
    assert (Hq : 2 ^ (prec - 1) <= Z.pos p / 2 ^ Z.pos n < 2 ^ prec).
    { split.
      - apply Z.div_le_lower_bound; [lia |].
        rewrite <- Z.pow_add_r by lia. replace (Z.pos n + (prec - 1)) with (d - 1) by lia.
        assumption.
      - apply Z.div_lt_upper_bound; [lia |].
        rewrite <- Z.pow_add_r by lia. replace (Z.pos n + prec) with d by lia.
        assumption. }
    assert (0 < 2 ^ (prec - 1)) by (apply Z.pow_pos_nonneg; lia).
    split; [lia |]. split; [apply Zdigits2_le; lia | lia].
  - rewrite shr_record_of_loc_m. fold d. lia.
Qed.

Lemma round_nearest_even_bounds (m : Z) (l : location) :
  m <= round_nearest_even m l <= m + 1.
Proof.
  destruct l as [|[]]; simpl; try lia. destruct (Z.even m); lia.
Qed.

(** Rounding a positive mantissa whose exponent is not below [emin] gives a
    finite number that is not zero, or an infinity. *)
Lemma binary_round_aux_spec (sx : bool) (mx ex : Z) (lx : location) :
  0 < mx -> emin prec emax <= ex ->
  binary_round_aux prec emax sx mx ex lx = S754_infinity sx \/
  exists m e,
    binary_round_aux prec emax sx mx ex lx = S754_finite sx m e /\
    ex <= e /\ Zdigits2 (Zpos m) <= prec.
Proof.
  intros Hmx Hex. unfold binary_round_aux.
  pose proof (shr_fexp_spec mx ex lx Hmx Hex) as (Hm1 & _ & He1).
  destruct (shr_fexp prec emax mx ex lx) as [mrs' e'] eqn:H1. simpl in Hm1, He1.
  pose proof (round_nearest_even_bounds (shr_m mrs') (loc_of_shr_record mrs')) as Hr.
  set (m1 := round_nearest_even (shr_m mrs') (loc_of_shr_record mrs')) in *.
  assert (Hm1' : 0 < m1) by lia.
  assert (He1' : emin prec emax <= e') by lia.
  pose proof (shr_fexp_spec m1 e' loc_Exact Hm1' He1') as (Hm2 & Hd2 & He2).
  destruct (shr_fexp prec emax m1 e' loc_Exact) as [mrs'' e''] eqn:H2.
  simpl in Hm2, Hd2, He2.
  destruct (shr_m mrs'') as [|m|m]; try lia.
  destruct (e'' <=? emax - prec); [right | left; reflexivity].
  exists m, e''. split; [reflexivity |]. split; [lia | assumption].
Qed.

End Rounding.

Lemma of_int_spec (z : Z) :
  z <> 0 ->
  (exists s, Float64.of_int z = S754_infinity s) \/
  exists s m e,
    Float64.of_int z = S754_finite s m e /\ -52 <= e /\ Zdigits2 (Zpos m) <= 53.
Proof.
  assert (Hround : forall s p,
            (exists s', binary_round 53 1024 s p 0 = S754_infinity s') \/
            exists s' m e,
              binary_round 53 1024 s p 0 = S754_finite s' m e /\
              -52 <= e /\ Zdigits2 (Zpos m) <= 53).
  { intros s p. unfold binary_round, shl_align.
    set (ex' := fexp 53 1024 (Z.pos (digits2_pos p) + 0)).
    assert (Hex' : -52 <= ex') by (subst ex'; unfold fexp, emin; lia).
    set (al := match ex' - 0 with
               | Z.neg d => (Pos.iter xO p d, ex')
               | _ => (p, 0)
               end).
    assert (Hal : -52 <= snd al) by (subst al; destruct (ex' - 0); simpl; lia).
    destruct al as [mz ez]. simpl in Hal.
    destruct (binary_round_aux_spec 53 1024 ltac:(lia) s (Zpos mz) ez loc_Exact)
      as [Hinf | (m & e & Hfin & He & Hd)]; [lia | unfold emin; lia | |].
    - left. eauto.
    - right. exists s, m, e. split; [assumption |]. split; [lia | assumption]. }
  intros Hz. unfold Float64.of_int, binary_normalize, Float64.prec, Float64.emax.
  destruct z as [|p|p]; [congruence | apply Hround | apply Hround].
Qed.

Lemma f1e8_eq : Float64.f1e8 = S754_finite false 6710886400000000 (-26).
Proof. vm_compute. reflexivity. Qed.

Lemma div_f1e8_proper (x : Float64.float64) :
  (exists s, x = S754_infinity s) \/
  (exists s m e, x = S754_finite s m e /\ -52 <= e /\ Zdigits2 (Zpos m) <= 53) ->
  proper (Float64.div x Float64.f1e8).
Proof.
  rewrite f1e8_eq. unfold Float64.div, Float64.prec, Float64.emax.
  intros [[s ->] | (s & m & e & -> & He & Hd)]; [exact I |].
  unfold SFdiv, SFdiv_core_binary.
  change (Zdigits2 (Z.pos 6710886400000000)) with 53.
  set (d := Zdigits2 (Z.pos m)) in *.
  assert (Hd1 : 1 <= d) by (subst d; simpl; lia).
  replace (Z.min (fexp 53 1024 (d + e - (53 + -26))) (e - -26)) with (d + e - 80)
    by (unfold fexp, emin; lia).
  replace (e - -26 - (d + e - 80)) with (106 - d) by lia.
  destruct (106 - d) as [|sh|sh] eqn:Hsh; try lia.
  rewrite Z.shiftl_mul_pow2 by lia.
  assert (Hpow : 2 ^ 53 <= 2 ^ Z.pos sh) by (apply Z.pow_le_mono_r; lia).
  set (m' := Z.pos m * 2 ^ Z.pos sh).
  assert (Hm' : 2 ^ 53 <= m') by (subst m'; nia).
  pose proof (Z_div_mod m' 6710886400000000 ltac:(lia)) as Hdiv.
  destruct (Z.div_eucl m' 6710886400000000) as [q r].
  assert (Hq : 0 < q) by (change (2 ^ 53) with 9007199254740992 in Hm'; nia).
  destruct (binary_round_aux_spec 53 1024 ltac:(lia) (xorb s false) q (d + e - 80)
              (new_location 6710886400000000 r))
    as [-> | (m2 & e2 & -> & _)]; [assumption | unfold emin; lia | exact I | exact I].
Qed.

(** The value [float64(usd) / 1e8] of a total that is not zero is neither a
    zero nor a NaN. *)
Lemma usd_equiv_proper (usd : Z) :
  usd <> 0 -> proper (Float64.div (Float64.of_int usd) Float64.f1e8).
Proof. intros Hz. apply div_f1e8_proper, of_int_spec, Hz. Qed.

Lemma proper_not_zero (x : Float64.float64) : proper x -> Float64.is_zero x = false.
Proof. destruct x as [| |  |[] ? ?]; simpl; try contradiction; try reflexivity. destruct s; reflexivity. Qed.

Lemma proper_not_nan (x : Float64.float64) : proper x -> Float64.is_nan x = false.
Proof. destruct x; simpl; try contradiction; reflexivity. Qed.

Lemma SFcompare_antisym (x y : spec_float) :
  SFcompare y x = option_map CompOpp (SFcompare x y).
Proof.
  destruct x as [sx|sx| |sx mx ex], y as [sy|sy| |sy my ey]; simpl;
    try reflexivity;
    try (destruct sx; reflexivity); try (destruct sy; reflexivity);
    try (destruct sx, sy; reflexivity).
  destruct sx, sy; simpl; try reflexivity.
  - rewrite (Z.compare_antisym ey ex).
    destruct (ey ?= ex); simpl; try reflexivity.
    rewrite (Pos.compare_cont_antisym mx my Eq). simpl.
    destruct (Pos.compare_cont Eq mx my); reflexivity.
  - rewrite (Z.compare_antisym ey ex).
    destruct (ey ?= ex); simpl; try reflexivity.
    rewrite (Pos.compare_cont_antisym mx my Eq). reflexivity.
Qed.

Lemma gt_asym (x y : Float64.float64) :
  Float64.gt x y = true -> Float64.gt y x = false.
Proof.
  unfold Float64.gt. rewrite (SFcompare_antisym x y).
  destruct (SFcompare x y) as [[]|]; simpl; congruence.
Qed.

Lemma SFcompare_not_nan (x y : Float64.float64) :
  Float64.is_nan x = false -> Float64.is_nan y = false ->
  exists c, SFcompare x y = Some c.
Proof.
  destruct x, y; simpl; try discriminate; intros _ _; eauto.
Qed.

Lemma not_gt_ge (x y : Float64.float64) :
  Float64.is_nan x = false -> Float64.is_nan y = false ->
  Float64.gt y x = false -> Float64.ge x y = true.
Proof.
  intros Hx Hy. unfold Float64.gt, Float64.ge. rewrite (SFcompare_antisym x y).
  destruct (SFcompare_not_nan x y Hx Hy) as [c ->].
  destruct c; simpl; congruence.
Qed.

Lemma compare_cont_Eq (p q : positive) :
  Pos.compare_cont Eq p q = (Z.pos p ?= Z.pos q).
Proof. reflexivity. Qed.

(** [>=] is transitive: signs first, then exponents, then mantissas. *)
Lemma ge_trans (x y z : Float64.float64) :
  Float64.ge x y = true -> Float64.ge y z = true -> Float64.ge x z = true.
Proof.
  unfold Float64.ge.
  destruct x as [sx|sx| |sx mx ex], y as [sy|sy| |sy my ey],
    z as [sz|sz| |sz mz ez]; simpl; try discriminate; try reflexivity;
    repeat match goal with
           | s : bool |- _ => destruct s
           end; simpl; try discriminate; try reflexivity;
    rewrite ?compare_cont_Eq;
    repeat match goal with
           | |- context [?a ?= ?b] => destruct (Z.compare_spec a b)
           end; simpl; try discriminate; try reflexivity; try lia.
Qed.

(** ** [sort.Slice] *)
Section SortProperties.
Context {A : Type} (less : A -> A -> bool).

Lemma sort_insert_perm (x : A) (l : list A) :
  Permutation (sort_insert less x l) (x :: l).
Proof.
  induction l as [|y l IH]; simpl.
  - reflexivity.
  - destruct (less x y); [reflexivity |].
    rewrite IH. apply perm_swap.
Qed.

Lemma sort_Slice_perm (l : list A) : Permutation (sort_Slice l less) l.
Proof.
  induction l as [|x l IH]; simpl.
  - reflexivity.
  - rewrite sort_insert_perm. apply perm_skip, IH.
Qed.

Hypothesis less_asym : forall a b, less a b = true -> less b a = false.

Lemma sort_insert_sorted (x : A) (l : list A) :
  Sorted (ordered less) l -> Sorted (ordered less) (sort_insert less x l).
Proof.
  induction l as [|y l IH]; simpl; intros Hs.
  - repeat constructor.
  - destruct (less x y) eqn:Hxy.
    + constructor; [assumption |]. constructor. apply less_asym, Hxy.
    + apply Sorted_inv in Hs as [Hs Hhd].
      constructor; [apply IH, Hs |].
      destruct l as [|z l]; simpl.
      * constructor. exact Hxy.
      * destruct (less x z); constructor; [exact Hxy |].
        apply HdRel_inv in Hhd. exact Hhd.
Qed.

Lemma sort_Slice_sorted (l : list A) : Sorted (ordered less) (sort_Slice l less).
Proof.
  induction l as [|x l IH]; simpl.
  - constructor.
  - apply sort_insert_sorted, IH.
Qed.

End SortProperties.

Lemma Sorted_Forall_impl {A} (R R' : A -> A -> Prop) (P : A -> Prop) (l : list A) :
  (forall a b, P a -> P b -> R a b -> R' a b) ->
  Forall P l -> Sorted R l -> Sorted R' l.
Proof.
  intros Himpl HP Hs. induction Hs as [|a l Hs IH Hhd].
  - constructor.
  - apply Forall_cons_iff in HP as [Ha HP].
    constructor; [apply IH, HP |].
    destruct Hhd as [|b l Hab]; constructor.
    apply Forall_cons_iff in HP as [Hb _]. apply Himpl; assumption.
Qed.

Lemma Sorted_firstn {A} (R : A -> A -> Prop) (n : nat) (l : list A) :
  Sorted R l -> Sorted R (firstn n l).
Proof.
  intros Hs. revert n. induction Hs as [|a l Hs IH Hhd]; intros [|n]; simpl;
    try constructor.
  - apply IH.
  - destruct Hhd as [|b l Hab]; destruct n; simpl; constructor. exact Hab.
Qed.

Lemma Forall_firstn_keep {A} (P : A -> Prop) (n : nat) (l : list A) :
  Forall P l -> Forall P (firstn n l).
Proof.
  intros HP. revert n. induction HP as [|a l Ha HP IH]; intros [|n]; simpl;
    constructor; [assumption | apply IH].
Qed.

(** ** [getRichList] *)
Section RichListProperties.
Context `{Imports} {PTicker : Type} `{Countable PTicker} `{!PTickerOps PTicker}.
Context {HistoryTransaction : Type}.

#[local] Abbreviation Server := (APIServer.t PTicker HistoryTransaction).
#[local] Abbreviation Resp := (Response PTicker HistoryTransaction).

Lemma richEntries_ranked (s : Server) (rates : gmap PTicker N)
    (addrs : list FAAddress) (top : list RichEntry.t) :
  Forall (ranked s rates) top ->
  forall top', snd (richEntries s rates addrs top) = inr top' ->
  Forall (ranked s rates) top'.
Proof.
  revert top. induction addrs as [|a rest IH]; intros top Htop top'; simpl.
  - intros [= <-]. exact Htop.
  - unfold mbind, Handler_bind, call.
    destruct (Pegnet.SelectBalances (Node.Pegnet (APIServer.Node s)) a)
      as [balance [e|]] eqn:Hbal; [discriminate |].
    destruct (usd_of rates balance =? 0) eqn:Husd.
    + destruct (richEntries s rates rest top) as [cs r] eqn:Hrest.
      simpl. intros ->. apply (IH top Htop). rewrite Hrest. reflexivity.
    + match goal with
      | |- context [richEntries s rates rest ?t] =>
          destruct (richEntries s rates rest t) as [cs r] eqn:Hrest;
          simpl; intros ->; apply (IH t)
      end.
      * apply Forall_app. split; [exact Htop |].
        constructor; [| constructor].
        unfold ranked. simpl. rewrite Hbal. simpl.
        apply Z.eqb_neq in Husd. split; [exact Husd | reflexivity].
      * rewrite Hrest. reflexivity.
Qed.

Lemma richEntries_stop (s : Server) (rates : gmap PTicker N)
    (addrs : list FAAddress) (top : list RichEntry.t) (o : Outcome Resp) :
  snd (richEntries s rates addrs top) = inl o ->
  exists e, o = Returned (RespError (PlainError e)).
Proof.
  revert top. induction addrs as [|a rest IH]; intros top; simpl.
  - discriminate.
  - unfold mbind, Handler_bind, call.
    destruct (Pegnet.SelectBalances (Node.Pegnet (APIServer.Node s)) a)
      as [balance [e|]]; [simpl; intros [= <-]; eauto |].
    destruct (usd_of rates balance =? 0).
    + destruct (richEntries s rates rest top) as [cs r] eqn:Hrest.
      simpl. intros ->. apply (IH top). rewrite Hrest. reflexivity.
    + match goal with
      | |- context [richEntries s rates rest ?t] =>
          destruct (richEntries s rates rest t) as [cs r] eqn:Hrest;
          simpl; intros ->; apply (IH t)
      end.
      rewrite Hrest. reflexivity.
Qed.

Lemma ranked_proper (s : Server) (rates : gmap PTicker N) (e : RichEntry.t) :
  ranked s rates e -> proper (RichEntry.USDEquiv e).
Proof. intros [Hne ->]. apply usd_equiv_proper, Hne. Qed.

(** C4: a rich list that is returned has at most 100 entries, each value at
    least as large as every value after it, and no value equal to 0: every
    entry stands for an address whose summed total is not zero. *)
Theorem getRichList_top100 (s : Server) (data : RawMessage)
    (res : ResultGetRichList.t) :
  outcome (getRichList s data) = Returned (RespRichList res) ->
  let top100 := ResultGetRichList.Top100 res in
  let store := Node.Pegnet (APIServer.Node s) in
  let rates :=
    fst (Pegnet.SelectRates store (Node.GetCurrentSync (APIServer.Node s))) in
  (length top100 <= 100)%nat /\
  StronglySorted
    (fun a b =>
       Float64.ge (RichEntry.USDEquiv a) (RichEntry.USDEquiv b) = true)
    top100 /\
  Forall (fun e => Float64.is_zero (RichEntry.USDEquiv e) = false) top100 /\
  Forall (ranked s rates) top100.
Proof.
  assert (Hstrong : forall l : list RichEntry.t,
            Sorted
              (fun a b =>
                 Float64.ge (RichEntry.USDEquiv a) (RichEntry.USDEquiv b) = true)
              l ->
            StronglySorted
              (fun a b =>
                 Float64.ge (RichEntry.USDEquiv a) (RichEntry.USDEquiv b) = true)
              l).
  { intros l. apply Sorted_StronglySorted. intros a b c. apply ge_trans. }
  unfold getRichList. rewrite outcome_bind_call.
  destruct (Pegnet.SelectAddresses (Node.Pegnet (APIServer.Node s)))
    as [addrs [e|]]; [discriminate |].
  rewrite outcome_bind_call.
  destruct (Pegnet.SelectRates (Node.Pegnet (APIServer.Node s))
              (Node.GetCurrentSync (APIServer.Node s)))
    as [rates [e|]] eqn:Hrates; [discriminate |].
  pose proof (richEntries_ranked s rates addrs [] ltac:(constructor)) as Hranked.
  pose proof (richEntries_stop s rates addrs []) as Hstop.
  destruct (richEntries s rates addrs []) as [cs [o|top]].
  { destruct (Hstop o eq_refl) as [e ->]. discriminate. }
  specialize (Hranked top eq_refl). clear Hstop.
  unfold outcome, mbind, Handler_bind. simpl.
  set (less := fun i j : RichEntry.t =>
                 Float64.gt (RichEntry.USDEquiv i) (RichEntry.USDEquiv j)).
  intros [= <-]. simpl.
  assert (Hsorted_ranked : Forall (ranked s rates) (sort_Slice top less)).
  { eapply Permutation_Forall; [symmetry; apply sort_Slice_perm | exact Hranked]. }
  assert (Hsorted : Sorted
            (fun a b =>
               Float64.ge (RichEntry.USDEquiv a) (RichEntry.USDEquiv b) = true)
            (sort_Slice top less)).
  { apply (Sorted_Forall_impl (ordered less) _ (ranked s rates));
      [| exact Hsorted_ranked |].
    - intros a b Ha Hb Hab. apply not_gt_ge.
      + apply proper_not_nan, (ranked_proper s rates), Ha.
      + apply proper_not_nan, (ranked_proper s rates), Hb.
      + exact Hab.
    - apply sort_Slice_sorted. intros a b. apply gt_asym. }
  assert (Hfinal : forall l : list RichEntry.t,
            Forall (ranked s rates) l ->
            Forall (fun e => Float64.is_zero (RichEntry.USDEquiv e) = false) l).
  { intros l Hl. eapply Forall_impl; [exact Hl |].
    intros e He. apply proper_not_zero, (ranked_proper s rates), He. }
  destruct (Go.len (sort_Slice top less) >? 100) eqn:Hlen.
  - repeat split.
    + rewrite length_firstn. lia.
    + apply Hstrong, Sorted_firstn, Hsorted.
    + apply Hfinal, Forall_firstn_keep, Hsorted_ranked.
    + apply Forall_firstn_keep, Hsorted_ranked.
  - repeat split.
    + unfold Go.len in Hlen. lia.
    + apply Hstrong, Hsorted.
    + apply Hfinal, Hsorted_ranked.
    + exact Hsorted_ranked.
Qed.

(** What [getRichList] does when the rates cannot be fetched: it returns the
    map that came with the error. *)
Lemma getRichList_rates_failure (s : Server) (data : RawMessage)
    (addrs : list FAAddress) (rates : gmap PTicker N) (err : string) :
  Pegnet.SelectAddresses (Node.Pegnet (APIServer.Node s)) = (addrs, None) ->
  Pegnet.SelectRates (Node.Pegnet (APIServer.Node s))
    (Node.GetCurrentSync (APIServer.Node s)) = (rates, Some err) ->
  outcome (getRichList s data) = Returned (RespRates rates).
Proof.
  intros Haddrs Hrates. unfold getRichList.
  rewrite outcome_bind_call, Haddrs, outcome_bind_call, Hrates. reflexivity.
Qed.

End RichListProperties.

(** * Further properties of the handlers *)

(** ** Validation *)
Section ValidationMore.
Context `{Imports} {P : Type} `{Params P}.

(** X1: when a payload that is not empty passes [validate], the parameters
    are what [IsValid] made of the decoded payload, and a chain id they name
    is the id of the transaction chain. *)
Theorem validate_passed (data : RawMessage) (p p' : P) :
  is_empty data = false ->
  validate data (Some p) = (Some p', None) ->
  exists q,
    unmarshalStrict data p = (q, None) /\
    IsValid q = (p', None) /\
    forall chainID, ValidChainID p' = Some chainID -> chainID = TransactionChain.
Proof.
  intros Hdata. unfold validate. rewrite Hdata.
  destruct (unmarshalStrict data p) as [q [err|]]; [discriminate |].
  destruct (IsValid q) as [q' [err|]] eqn:Hvalid; [discriminate |].
  destruct (ValidChainID q') as [c|] eqn:Hchain.
  - destruct (String.eqb c TransactionChain) eqn:Heq; simpl; [| discriminate].
    intros [= <-]. exists q. split; [reflexivity |]. split; [exact Hvalid |].
    intros chainID. rewrite Hchain. intros [= <-].
    apply String.eqb_eq, Heq.
  - intros [= <-]. exists q. split; [reflexivity |]. split; [exact Hvalid |].
    intros chainID. rewrite Hchain. discriminate.
Qed.

End ValidationMore.

(** ** The history handlers *)
Section HistoryMore.
Context `{Imports} {PTicker : Type} `{Countable PTicker} `{!PTickerOps PTicker}.
Context {HistoryTransaction : Type}.
Context `{!Params ParamsGetPegnetTransaction.t}.
Context `{!Params ParamsGetPegnetTransactionStatus.t}.

#[local] Abbreviation Server := (APIServer.t PTicker HistoryTransaction).
#[local] Abbreviation Resp := (Response PTicker HistoryTransaction).

(** X2: an error of the store is answered as invalid parameters, with the
    message of the store as data: by [getTransactions] whatever actions and
    count came with the error, and by [getTransactionStatus] whatever height
    came with it. *)
Theorem history_store_error (s : Server) (data : RawMessage) (err : string) :
  (forall (params : ParamsGetPegnetTransaction.t) (cs : list Call)
          (actions : list HistoryTransaction) (count : Z),
     validate data (Some ParamsGetPegnetTransaction.zero) = (Some params, None) ->
     selectActions s params (queryOptions params)
       = (cs, inr (actions, count, Some err)) ->
     outcome (getTransactions s data)
       = Returned (RespError (RpcError (InvalidParams err)))) /\
  (forall (params : ParamsGetPegnetTransactionStatus.t) (height executed : N),
     validate data (Some ParamsGetPegnetTransactionStatus.zero)
       = (Some params, None) ->
     Pegnet.SelectTransactionHistoryStatus (Node.Pegnet (APIServer.Node s))
       (ParamsGetPegnetTransactionStatus.Hash params)
       = (height, executed, Some err) ->
     outcome (getTransactionStatus s data)
       = Returned (RespError (RpcError (InvalidParams err)))).
Proof.
  split.
  - intros params cs actions count Hvalid Hsel.
    unfold getTransactions. rewrite Hvalid. simpl.
    rewrite (outcome_bind_value _ _ _ _ Hsel). reflexivity.
  - intros params height executed Hvalid Hstore.
    unfold getTransactionStatus. rewrite Hvalid.
    rewrite outcome_bind_call. simpl. rewrite Hstore. reflexivity.
Qed.

Lemma selectActions_calls (s : Server) (params : ParamsGetPegnetTransaction.t) :
  exists v, selectActions s params (queryOptions params) = ([query_of params], inr v).
Proof.
  unfold selectActions, query_of, call.
  destruct (ParamsGetPegnetTransaction.Hash params) as [hash|]; [eauto |].
  destruct (String.eqb (ParamsGetPegnetTransaction.Address params) ""); simpl.
  - eauto.
  - destruct (NewFAAddress (ParamsGetPegnetTransaction.Address params)). eauto.
Qed.

(** X3: a valid request makes exactly one query, whatever the store answers:
    by hash when a hash is given, whatever else is given; else by address
    when the address is not empty; else by height, with the options of the
    request. *)
Theorem getTransactions_one_query (s : Server) (data : RawMessage)
    (params : ParamsGetPegnetTransaction.t) :
  validate data (Some ParamsGetPegnetTransaction.zero) = (Some params, None) ->
  calls (getTransactions s data) = [query_of params].
Proof.
  intros Hvalid. unfold getTransactions. rewrite Hvalid. simpl.
  destruct (selectActions_calls s params) as [[[actions count] err] Hsel].
  rewrite Hsel. unfold calls, mbind, Handler_bind.
  destruct err as [e|]; [reflexivity |].
  destruct (Go.len actions =? 0); reflexivity.
Qed.

(** X4: the height of a request is cut to 32 bits: two valid requests by
    height that agree on the options and whose heights differ by a multiple
    of [2^32] make the same query and get the same answer. *)
Theorem getTransactions_height_wraps (s : Server) (data1 data2 : RawMessage)
    (params1 params2 : ParamsGetPegnetTransaction.t) :
  validate data1 (Some ParamsGetPegnetTransaction.zero) = (Some params1, None) ->
  validate data2 (Some ParamsGetPegnetTransaction.zero) = (Some params2, None) ->
  ParamsGetPegnetTransaction.Hash params1 = None ->
  ParamsGetPegnetTransaction.Hash params2 = None ->
  ParamsGetPegnetTransaction.Address params1 = "" ->
  ParamsGetPegnetTransaction.Address params2 = "" ->
  queryOptions params1 = queryOptions params2 ->
  (ParamsGetPegnetTransaction.Height params1
   - ParamsGetPegnetTransaction.Height params2) mod 2 ^ 32 = 0 ->
  getTransactions s data1 = getTransactions s data2.
Proof.
  intros Hv1 Hv2 Hh1 Hh2 Ha1 Ha2 Hopts Hmod.
  assert (Hheight : Go.to_uint32 (ParamsGetPegnetTransaction.Height params1)
                    = Go.to_uint32 (ParamsGetPegnetTransaction.Height params2)).
  { unfold Go.to_uint32. f_equal.
    set (h1 := ParamsGetPegnetTransaction.Height params1) in *.
    set (h2 := ParamsGetPegnetTransaction.Height params2) in *.
    apply Z.mod_divide in Hmod as [k Hk]; [| lia].
    replace h1 with (h2 + k * 2 ^ 32) by lia.
    apply Z.mod_add. lia. }
  assert (Hoffset : ParamsGetPegnetTransaction.Offset params1
                    = ParamsGetPegnetTransaction.Offset params2).
  { apply (f_equal HistoryQueryOptions.Offset) in Hopts. exact Hopts. }
  unfold getTransactions. rewrite Hv1, Hv2. simpl.
  unfold selectActions. rewrite Hh1, Hh2, Ha1, Ha2. simpl.
  rewrite Hheight, Hopts, Hoffset. reflexivity.
Qed.

End HistoryMore.

(** ** [getRichList] *)

Lemma StronglySorted_app_cross {A} (R : A -> A -> Prop) (l1 l2 : list A) :
  StronglySorted R (l1 ++ l2) ->
  Forall (fun x => Forall (R x) l2) l1.
Proof.
  induction l1 as [|x l1 IH]; simpl; intros Hs.
  - constructor.
  - apply StronglySorted_inv in Hs as [Hs Hx].
    constructor; [| apply IH, Hs].
    apply Forall_app in Hx as [_ Hx]. exact Hx.
Qed.

Lemma calls_bind_call {R A} (c : Call) (v : A) (k : A -> Body R) :
  calls (@call R A c v ≫= k) = c :: calls (k v).
Proof.
  unfold calls, call, mbind, Handler_bind. destruct (k v) as [cs r]. reflexivity.
Qed.

Lemma calls_bind {R A} (m : Handler R A) (k : A -> Body R) :
  calls (m ≫= k)
    = fst m ++ match snd m with
               | inl _ => []
               | inr v => calls (k v)
               end.
Proof.
  unfold calls, mbind, Handler_bind. destruct m as [cs [o|v]]; simpl.
  - rewrite app_nil_r. reflexivity.
  - destruct (k v) as [cs' r]. reflexivity.
Qed.

Lemma outcome_bind {R A} (m : Handler R A) (k : A -> Body R) :
  outcome (m ≫= k)
    = match snd m with
      | inl o => o
      | inr v => outcome (k v)
      end.
Proof.
  unfold outcome, mbind, Handler_bind. destruct m as [cs [o|v]]; simpl.
  - reflexivity.
  - destruct (k v) as [cs' r]. reflexivity.
Qed.

Section RichListMore.
Context `{Imports} {PTicker : Type} `{Countable PTicker} `{!PTickerOps PTicker}.
Context {HistoryTransaction : Type}.

#[local] Abbreviation Server := (APIServer.t PTicker HistoryTransaction).
#[local] Abbreviation Resp := (Response PTicker HistoryTransaction).

(** The loop over the addresses, when it comes to its end: one balance query
    for each address, in order, and the entries of the addresses whose total
    is not zero, in order. *)
Lemma richEntries_done (s : Server) (rates : gmap PTicker N)
    (addrs : list FAAddress) (top top' : list RichEntry.t) :
  snd (richEntries s rates addrs top) = inr top' ->
  richEntries s rates addrs top
    = (map CallSelectBalances addrs, inr (top ++ omap (entry_of s rates) addrs)).
Proof.
  revert top. induction addrs as [|a rest IH]; intros top; simpl.
  - intros _. rewrite app_nil_r. reflexivity.
  - unfold mbind, Handler_bind, call, entry_of.
    destruct (Pegnet.SelectBalances (Node.Pegnet (APIServer.Node s)) a)
      as [balance [e|]]; [discriminate |].
    simpl. destruct (usd_of rates balance =? 0).
    + destruct (richEntries s rates rest top) as [cs r] eqn:Hrest.
      simpl. intros ->. specialize (IH top). rewrite Hrest in IH.
      specialize (IH eq_refl). injection IH as -> ->. reflexivity.
    + match goal with
      | |- context [richEntries s rates rest ?t] =>
          destruct (richEntries s rates rest t) as [cs r] eqn:Hrest;
          simpl; intros ->; specialize (IH t); rewrite Hrest in IH;
          specialize (IH eq_refl); injection IH as -> ->
      end.
      rewrite <- app_assoc. reflexivity.
Qed.

(** The loop over the addresses, when a balance query fails: the queries up
    to that one have been made, and the error is returned. *)
Lemma richEntries_failed (s : Server) (rates : gmap PTicker N)
    (pre post : list FAAddress) (a : FAAddress) (err : string)
    (top : list RichEntry.t) :
  Forall
    (fun b =>
       snd (Pegnet.SelectBalances (Node.Pegnet (APIServer.Node s)) b) = None)
    pre ->
  snd (Pegnet.SelectBalances (Node.Pegnet (APIServer.Node s)) a) = Some err ->
  richEntries s rates (pre ++ a :: post) top
    = (map CallSelectBalances (pre ++ [a]),
       inl (Returned (RespError (PlainError err)))).
Proof.
  intros Hpre Ha. revert top.
  induction Hpre as [|b pre Hb Hpre IH]; intros top; simpl.
  - unfold mbind, Handler_bind, call.
    destruct (Pegnet.SelectBalances (Node.Pegnet (APIServer.Node s)) a)
      as [balance e]. simpl in Ha. subst e. reflexivity.
  - unfold mbind, Handler_bind, call.
    destruct (Pegnet.SelectBalances (Node.Pegnet (APIServer.Node s)) b)
      as [balance e]. simpl in Hb. subst e.
    destruct (usd_of rates balance =? 0); rewrite IH; reflexivity.
Qed.

(** [getRichList] when the addresses and the rates are there. *)
Lemma getRichList_loop (s : Server) (data : RawMessage)
    (addrs : list FAAddress) (rates : gmap PTicker N) :
  Pegnet.SelectAddresses (Node.Pegnet (APIServer.Node s)) = (addrs, None) ->
  Pegnet.SelectRates (Node.Pegnet (APIServer.Node s))
    (Node.GetCurrentSync (APIServer.Node s)) = (rates, None) ->
  forall (cs : list Call) (st : Outcome Resp + list RichEntry.t),
    richEntries s rates addrs [] = (cs, st) ->
    calls (getRichList s data)
      = CallSelectAddresses
        :: CallSelectRates (Node.GetCurrentSync (APIServer.Node s)) :: cs /\
    outcome (getRichList s data)
      = match st with
        | inl o => o
        | inr top =>
            let sorted :=
              sort_Slice top
                (fun i j =>
                   Float64.gt (RichEntry.USDEquiv i) (RichEntry.USDEquiv j)) in
            Returned
              (RespRichList
                 {| ResultGetRichList.Height :=
                      Node.GetCurrentSync (APIServer.Node s);
                    ResultGetRichList.Top100 :=
                      if Go.len sorted >? 100 then firstn 100 sorted else sorted |})
        end.
Proof.
  intros Haddrs Hrates cs st Hloop. unfold getRichList. split.
  - rewrite calls_bind_call, Haddrs, calls_bind_call, Hrates, calls_bind, Hloop.
    destruct st as [o|top]; simpl; rewrite app_nil_r; reflexivity.
  - rewrite outcome_bind_call, Haddrs, outcome_bind_call, Hrates, outcome_bind,
      Hloop.
    destruct st as [o|top]; reflexivity.
Qed.

(** What [getRichList] returns is a rich list only when the addresses, the
    rates and every balance were there. *)
Lemma getRichList_returned (s : Server) (data : RawMessage)
    (res : ResultGetRichList.t) :
  outcome (getRichList s data) = Returned (RespRichList res) ->
  exists addrs rates,
    Pegnet.SelectAddresses (Node.Pegnet (APIServer.Node s)) = (addrs, None) /\
    Pegnet.SelectRates (Node.Pegnet (APIServer.Node s))
      (Node.GetCurrentSync (APIServer.Node s)) = (rates, None) /\
    richEntries s rates addrs []
      = (map CallSelectBalances addrs, inr (omap (entry_of s rates) addrs)).
Proof.
  intros Hout.
  destruct (Pegnet.SelectAddresses (Node.Pegnet (APIServer.Node s)))
    as [addrs [e|]] eqn:Haddrs.
  { unfold getRichList in Hout. rewrite outcome_bind_call, Haddrs in Hout.
    discriminate. }
  destruct (Pegnet.SelectRates (Node.Pegnet (APIServer.Node s))
              (Node.GetCurrentSync (APIServer.Node s)))
    as [rates [e|]] eqn:Hrates.
  { rewrite (getRichList_rates_failure s data addrs rates e Haddrs Hrates) in Hout.
    discriminate. }
  exists addrs, rates. split; [reflexivity |]. split; [reflexivity |].
  destruct (richEntries s rates addrs []) as [cs st] eqn:Hloop.
  destruct (getRichList_loop s data addrs rates Haddrs Hrates cs st Hloop)
    as [_ Hout'].
  destruct st as [o|top].
  - rewrite Hout' in Hout. subst o.
    destruct (richEntries_stop s rates addrs [] (Returned (RespRichList res)))
      as [e He]; [rewrite Hloop; reflexivity | discriminate].
  - rewrite <- Hloop. apply (richEntries_done s rates addrs [] top).
    rewrite Hloop. reflexivity.
Qed.

(** X5: a call that returns a rich list has asked the store for the
    addresses, for the rates at the synchronised height, and then once for
    the balances of each address, in the order of the addresses: two queries
    and one more per address. *)
Theorem getRichList_queries (s : Server) (data : RawMessage)
    (res : ResultGetRichList.t) :
  outcome (getRichList s data) = Returned (RespRichList res) ->
  let addrs := fst (Pegnet.SelectAddresses (Node.Pegnet (APIServer.Node s))) in
  calls (getRichList s data)
    = CallSelectAddresses
      :: CallSelectRates (Node.GetCurrentSync (APIServer.Node s))
      :: map CallSelectBalances addrs /\
  length (calls (getRichList s data)) = (2 + length addrs)%nat /\
  ResultGetRichList.Height res = Node.GetCurrentSync (APIServer.Node s).
Proof.
  intros Hout.
  destruct (getRichList_returned s data res Hout)
    as (addrs & rates & Haddrs & Hrates & Hloop).
  rewrite Haddrs. simpl.
  destruct (getRichList_loop s data addrs rates Haddrs Hrates _ _ Hloop)
    as [Hcalls Hout'].
  rewrite Hcalls. split; [reflexivity |]. split.
  - simpl. rewrite length_map. reflexivity.
  - rewrite Hout' in Hout. injection Hout as <-. reflexivity.
Qed.

(** X6: when the balances of an address cannot be fetched, the error of the
    store is what [getRichList] returns: no address after that one is asked
    for, and nothing of the list made so far is returned. When the addresses
    themselves cannot be fetched, the error is returned after that one
    query. *)
Theorem getRichList_store_failure (s : Server) (data : RawMessage) :
  let store := Node.Pegnet (APIServer.Node s) in
  let height := Node.GetCurrentSync (APIServer.Node s) in
  (forall (addrs : list FAAddress) (err : string),
     Pegnet.SelectAddresses store = (addrs, Some err) ->
     outcome (getRichList s data) = Returned (RespError (PlainError err)) /\
     calls (getRichList s data) = [CallSelectAddresses]) /\
  (forall (pre post : list FAAddress) (a : FAAddress) (rates : gmap PTicker N)
          (err : string),
     Pegnet.SelectAddresses store = (pre ++ a :: post, None) ->
     Pegnet.SelectRates store height = (rates, None) ->
     Forall (fun b => snd (Pegnet.SelectBalances store b) = None) pre ->
     snd (Pegnet.SelectBalances store a) = Some err ->
     outcome (getRichList s data) = Returned (RespError (PlainError err)) /\
     calls (getRichList s data)
       = CallSelectAddresses :: CallSelectRates height
         :: map CallSelectBalances (pre ++ [a])).
Proof.
  intros store height. split.
  - intros addrs err Haddrs. unfold getRichList, calls, outcome.
    unfold mbind, Handler_bind, call. fold store. rewrite Haddrs. split; reflexivity.
  - intros pre post a rates err Haddrs Hrates Hpre Ha.
    pose proof (richEntries_failed s rates pre post a err [] Hpre Ha) as Hloop.
    destruct (getRichList_loop s data _ rates Haddrs Hrates _ _ Hloop)
      as [Hcalls Hout].
    split; assumption.
Qed.

Lemma entry_of_ranked (s : Server) (rates : gmap PTicker N) (a : FAAddress)
    (e : RichEntry.t) :
  entry_of s rates a = Some e -> ranked s rates e /\ RichEntry.Address e = a.
Proof.
  unfold entry_of, ranked.
  destruct (usd_of rates
              (fst (Pegnet.SelectBalances (Node.Pegnet (APIServer.Node s)) a))
            =? 0) eqn:Husd; [discriminate |].
  intros [= <-]. simpl. apply Z.eqb_neq in Husd. repeat split. exact Husd.
Qed.

Lemma entries_proper (s : Server) (rates : gmap PTicker N)
    (addrs : list FAAddress) :
  Forall (fun e => proper (RichEntry.USDEquiv e)) (omap (entry_of s rates) addrs).
Proof.
  induction addrs as [|a rest IH]; simpl; [constructor |].
  destruct (entry_of s rates a) as [e|] eqn:He; [| exact IH].
  constructor; [| exact IH].
  apply entry_of_ranked in He as [Hr _]. apply (ranked_proper s rates e Hr).
Qed.

(** Sorting by [>] puts values that are no zero and no NaN in descending
    order. *)
Lemma sort_Slice_descending (l : list RichEntry.t) :
  Forall (fun e => proper (RichEntry.USDEquiv e)) l ->
  StronglySorted
    (fun a b => Float64.ge (RichEntry.USDEquiv a) (RichEntry.USDEquiv b) = true)
    (sort_Slice l
       (fun i j => Float64.gt (RichEntry.USDEquiv i) (RichEntry.USDEquiv j))).
Proof.
  intros Hl.
  set (less := fun i j : RichEntry.t =>
                 Float64.gt (RichEntry.USDEquiv i) (RichEntry.USDEquiv j)).
  apply Sorted_StronglySorted; [intros a b c; apply ge_trans |].
  apply (Sorted_Forall_impl (ordered less) _
           (fun e => proper (RichEntry.USDEquiv e))).
  - intros a b Ha Hb Hab.
    apply not_gt_ge; [apply proper_not_nan, Ha | apply proper_not_nan, Hb | exact Hab].
  - eapply Permutation_Forall; [symmetry; apply sort_Slice_perm | exact Hl].
  - apply sort_Slice_sorted. intros a b. apply gt_asym.
Qed.

(** X7: the rich list holds the largest: the entries of the addresses whose
    total is not zero are the list that is returned together with the ones
    left out, each of these as often as the store lists its address; every
    value returned is at least as large as every value left out; and with at
    most 100 such addresses none is left out. *)
Theorem getRichList_largest (s : Server) (data : RawMessage)
    (res : ResultGetRichList.t) :
  outcome (getRichList s data) = Returned (RespRichList res) ->
  let store := Node.Pegnet (APIServer.Node s) in
  let addrs := fst (Pegnet.SelectAddresses store) in
  let rates :=
    fst (Pegnet.SelectRates store (Node.GetCurrentSync (APIServer.Node s))) in
  let entries := omap (entry_of s rates) addrs in
  exists left_out : list RichEntry.t,
    Permutation (ResultGetRichList.Top100 res ++ left_out) entries /\
    Forall
      (fun kept =>
         Forall
           (fun out =>
              Float64.ge (RichEntry.USDEquiv kept) (RichEntry.USDEquiv out) = true)
           left_out)
      (ResultGetRichList.Top100 res) /\
    ((length entries <= 100)%nat -> left_out = []).
Proof.
  intros Hout.
  destruct (getRichList_returned s data res Hout)
    as (addrs & rates & Haddrs & Hrates & Hloop).
  cbv zeta. rewrite Haddrs, Hrates. simpl.
  destruct (getRichList_loop s data addrs rates Haddrs Hrates _ _ Hloop)
    as [_ Hout'].
  rewrite Hout' in Hout. injection Hout as <-. simpl.
  set (entries := omap (entry_of s rates) addrs).
  set (less := fun i j : RichEntry.t =>
                 Float64.gt (RichEntry.USDEquiv i) (RichEntry.USDEquiv j)).
  pose proof (sort_Slice_descending entries (entries_proper s rates addrs))
    as Hsorted. fold less in Hsorted.
  pose proof (sort_Slice_perm less entries) as Hperm.
  destruct (Go.len (sort_Slice entries less) >? 100) eqn:Hlen.
  - exists (skipn 100 (sort_Slice entries less)).
    rewrite firstn_skipn. split; [exact Hperm |]. split.
    + apply StronglySorted_app_cross. rewrite firstn_skipn. exact Hsorted.
    + intros Hle. apply Permutation_length in Hperm.
      unfold Go.len in Hlen. lia.
  - exists []. rewrite app_nil_r. split; [exact Hperm |]. split.
    + apply Forall_forall. intros kept _. constructor.
    + reflexivity.
Qed.

End RichListMore.

(** ** [sendTransaction] *)
Section SendMore.
Context `{Imports} {PTicker : Type} `{Countable PTicker} `{!PTickerOps PTicker}.
Context {HistoryTransaction : Type}.
Context `{!Params ParamsSendTransaction.t}.

#[local] Abbreviation Server := (APIServer.t PTicker HistoryTransaction).
#[local] Abbreviation Resp := (Response PTicker HistoryTransaction).

(** X8: a balance that covers the cost, and be it the cost exactly, lets the
    entry through: the balance is looked up, the cost computed and the entry
    submitted, in this order; when the submission succeeds the result holds
    the transaction id it gave, and the chain id and hash of the entry as the
    submission left it. *)
Theorem sendTransaction_submits (s : Server) (data : RawMessage)
    (params : ParamsSendTransaction.t) (key : EsAddress) (balance : N)
    (cost : Z) :
  let entry :=
    Entry.set_ChainID (ParamsSendTransaction.Entry params) TransactionChain in
  let client := Node.FactomClient (APIServer.Node s) in
  validate data (Some ParamsSendTransaction.zero) = (Some params, None) ->
  ParamsSendTransaction.DryRun params = false ->
  EsAddress_Set (Config.ECPrivateKey (APIServer.Config s)) = (key, None) ->
  FactomClient.GetBalance client key = (balance, None) ->
  Entry_Cost entry = (cost, None) ->
  0 <= cost <= Z.of_N balance ->
  calls (sendTransaction s data)
    = [CallGetBalance key; CallCost entry; CallComposeCreate entry key] /\
  forall (entry' : Entry.t) (txID : option Bytes32),
    FactomClient.ComposeCreate client entry key = (entry', txID, None) ->
    outcome (sendTransaction s data)
      = Returned
          (RespSendTransaction
             {| ResultSendTransaction.ChainID := Entry.ChainID entry';
                ResultSendTransaction.TxID := txID;
                ResultSendTransaction.Hash := Entry.Hash entry' |}).
Proof.
  intros entry client Hvalid Hwet Hkey Hbal Hcost Hrange.
  assert (Hge : (balance <? Go.to_uint64 cost)%N = false).
  { apply N.ltb_ge. unfold Go.to_uint64.
    assert (0 <= cost mod 2 ^ 64 <= cost).
    { split; [apply Z.mod_pos_bound; lia | apply Z.mod_le; lia]. }
    lia. }
  rewrite (sendTransaction_unfold s data params key Hvalid Hkey).
  rewrite Hwet. fold entry. cbn [negb]. unfold submit. fold client.
  unfold outcome, calls, mbind, Handler_bind, call.
  rewrite Hbal, Hcost, Hge.
  destruct (FactomClient.ComposeCreate client entry key)
    as [[entry' txID] [err|]]; split; try reflexivity.
  - intros entry'' txID'. discriminate.
  - intros entry'' txID' [= <- <-]. reflexivity.
Qed.

(** X9: whatever the request, the calls that [sendTransaction] makes are the
    first few of: the balance lookup for the configured key, the cost of the
    entry of the request bound to the transaction chain, the submission of
    that entry with that key. No other entry is costed or submitted, whatever
    chain the request names. *)
Theorem sendTransaction_calls (s : Server) (data : RawMessage) :
  let params :=
    default ParamsSendTransaction.zero
      (fst (validate data (Some ParamsSendTransaction.zero))) in
  let key := fst (EsAddress_Set (Config.ECPrivateKey (APIServer.Config s))) in
  let entry :=
    Entry.set_ChainID (ParamsSendTransaction.Entry params) TransactionChain in
  calls (sendTransaction s data)
    `prefix_of` [CallGetBalance key; CallCost entry; CallComposeCreate entry key] /\
  Entry.ChainID entry = Some TransactionChain.
Proof.
  intros params key entry. split; [| reflexivity].
  subst params key entry. unfold sendTransaction.
  destruct (validate data (Some ParamsSendTransaction.zero)) as [params [e|]];
    [apply prefix_nil |].
  destruct (EsAddress_Set (Config.ECPrivateKey (APIServer.Config s)))
    as [key [e|]]; [apply prefix_nil |].
  cbn [fst default from_option id].
  destruct (ParamsSendTransaction.DryRun (default ParamsSendTransaction.zero params));
    cbn [negb]; [apply prefix_nil |].
  unfold submit, calls, mbind, Handler_bind, call.
  destruct (FactomClient.GetBalance _ key) as [balance [e|]];
    [eexists; reflexivity |].
  destruct (Entry_Cost _) as [cost [e|]]; [eexists; reflexivity |].
  destruct (balance <? Go.to_uint64 cost)%N; [eexists; reflexivity |].
  destruct (FactomClient.ComposeCreate _ _ key) as [[entry' txID] [e|]];
    eexists; reflexivity.
Qed.

End SendMore.

Section SendRevisions.
Context `{Imports} {PTicker : Type} `{Countable PTicker} `{!PTickerOps PTicker}.
Context {HistoryTransaction TransactionBatch : Type}.
Context `{!Batches TransactionBatch}.
Context `{!Params ParamsGetTransaction.t}.
Context `{!Params ParamsGetPegnetBalances.t}.
Context `{!Params ParamsGetPegnetRates.t}.
Context `{!Params ParamsSendTransaction.t}.

#[local] Abbreviation Server := (APIServer.t PTicker HistoryTransaction).

(** X10: the two revisions of [sendTransaction] make the same calls, and
    end alike unless a valid request meets a configured key that does not
    parse: there the first panics with the error of the parser and the second
    returns the internal error. *)
Theorem sendTransaction_revisions (s : Server) (data : RawMessage) :
  calls (sendTransaction_first s data) = calls (sendTransaction s data) /\
  (outcome (sendTransaction_first s data) = outcome (sendTransaction s data) \/
   exists err,
     snd (validate data (Some ParamsSendTransaction.zero)) = None /\
     snd (EsAddress_Set (Config.ECPrivateKey (APIServer.Config s))) = Some err /\
     outcome (sendTransaction_first s data) = Panicked err /\
     outcome (sendTransaction s data)
       = Returned (RespError (RpcError InternalError))) /\
  (snd (EsAddress_Set (Config.ECPrivateKey (APIServer.Config s))) = None ->
   sendTransaction_first s data = sendTransaction s data).
Proof.
  unfold sendTransaction_first, sendTransaction.
  destruct (validate data (Some ParamsSendTransaction.zero)) as [params [e|]];
    [split; [reflexivity | split; [left; reflexivity | reflexivity]] |].
  destruct (EsAddress_Set (Config.ECPrivateKey (APIServer.Config s)))
    as [key [e|]]; simpl.
  - split; [reflexivity |]. split; [| discriminate].
    right. exists e. repeat split.
  - split; [reflexivity |]. split; [left; reflexivity | reflexivity].
Qed.

End SendRevisions.

(** ** The ticker-keyed result, from the wire *)
Section TickerMapMore.
Context {PTicker : Type} `{Countable PTicker} `{!PTickerOps PTicker}.
Context `{!PTickerRegistry PTicker}.

(** X11: decoding a wire form succeeds exactly when each of its keys is the
    symbol of a ticker, and encoding what was decoded then gives the wire
    form back. *)
Theorem UnmarshalJSON_then_MarshalJSON (r0 : gmap PTicker N)
    (strMap : gmap string N) :
  (snd (UnmarshalJSON r0 (inr strMap)) = None <->
   forall str, is_Some (strMap !! str) -> exists t, str = PTicker_String t) /\
  (snd (UnmarshalJSON r0 (inr strMap)) = None ->
   MarshalJSON (fst (UnmarshalJSON r0 (inr strMap))) = strMap).
Proof.
  assert (Hkeys : snd (UnmarshalJSON r0 (inr strMap)) = None ->
                  forall str, is_Some (strMap !! str) ->
                              exists t, str = PTicker_String t).
  { intros Hok str Hin.
    destruct (PTicker_UnmarshalJSON str) as [cause|t] eqn:Hdec.
    - destruct (UnmarshalJSON_rejects r0 strMap str cause Hin Hdec) as [err Herr].
      congruence.
    - exists t. apply decoded_is_symbol, Hdec. }
  split; [split; [exact Hkeys |] |].
  - intros Hsym.
    destruct (UnmarshalJSON_symbols r0 strMap Hsym) as (r & -> & _). reflexivity.
  - intros Hok. specialize (Hkeys Hok).
    destruct (UnmarshalJSON_symbols r0 strMap Hkeys) as (r & -> & Hr). simpl.
    rewrite MarshalJSON_kmap. apply map_eq. intros str.
    destruct (strMap !! str) as [b|] eqn:Hstr.
    + destruct (Hkeys str) as [t ->]; [eauto |].
      rewrite lookup_kmap by apply PTicker_String_inj. rewrite Hr. exact Hstr.
    + apply lookup_kmap_None; [apply PTicker_String_inj |].
      intros t ->. rewrite Hr. exact Hstr.
Qed.

End TickerMapMore.

(** ** The remaining handlers *)

Lemma result_bind_ask {E R A} (e : E) (v : A) (k : A -> Traced E R Empty_set) :
  result (@ask E R A e v ≫= k) = result (k v).
Proof. reflexivity. Qed.

Lemma events_bind_ask {E R A} (e : E) (v : A) (k : A -> Traced E R Empty_set) :
  events (@ask E R A e v ≫= k) = e :: events (k v).
Proof. reflexivity. Qed.

(** One step of a handler: the bindings and the call in front. *)
Ltac run :=
  cbv beta iota zeta; cbn [default from_option id fst snd negb];
  rewrite ?events_bind_ask, ?result_bind_ask; cbv beta iota zeta.

(** Closes a goal with a hypothesis that equates two ways to end. *)
Ltac refute :=
  intros;
  match goal with
  | Hend : _ = _ |- _ =>
      solve [ discriminate Hend
            | cbv [result reply raise fault state] in Hend; discriminate Hend ]
  end.

Lemma to_int32_range (n : N) : - 2 ^ 31 <= to_int32 n < 2 ^ 31.
Proof.
  unfold to_int32.
  pose proof (Z.mod_pos_bound (Z.of_N n + 2 ^ 31) (2 ^ 32) ltac:(lia)). lia.
Qed.

Lemma to_int32_small (n : N) : (n < 2 ^ 31)%N -> to_int32 n = Z.of_N n.
Proof.
  intros Hn. unfold to_int32.
  assert (Z.of_N n < 2 ^ 31) by (change (2 ^ 31) with (Z.of_N (2 ^ 31)); lia).
  rewrite Z.mod_small by lia. lia.
Qed.

Lemma to_int32_large (n : N) :
  (2 ^ 31 <= n < 2 ^ 32)%N -> to_int32 n = Z.of_N n - 2 ^ 32.
Proof.
  intros Hn. unfold to_int32.
  assert (2 ^ 31 <= Z.of_N n < 2 ^ 32).
  { change (2 ^ 31) with (Z.of_N (2 ^ 31)).
    change (2 ^ 32) with (Z.of_N (2 ^ 32)). lia. }
  replace (Z.of_N n + 2 ^ 31) with (Z.of_N n - 2 ^ 31 + 1 * 2 ^ 32) by lia.
  rewrite Z.mod_add by lia. rewrite Z.mod_small by lia. lia.
Qed.

Section RemainingProperties.
Context `{Imports} {PTicker : Type} `{Countable PTicker} `{!PTickerOps PTicker}.
Context {HistoryTransaction TransactionBatch : Type}.
Context `{!Batches TransactionBatch}.
Context `{!Params ParamsGetTransaction.t}.
Context `{!Params ParamsGetPegnetBalances.t}.
Context `{!Params ParamsGetPegnetRates.t}.
Context `{!Params ParamsSendTransaction.t}.

#[local] Abbreviation Svc := (Service.t PTicker HistoryTransaction).
#[local] Abbreviation Rep := (Reply PTicker HistoryTransaction TransactionBatch).

(** X12: [getSyncStatus] always returns a status, after one call to the
    client and whatever the payload: the synchronised height of the node as
    it is, and for the height of the chain: -1 when the client fails, the
    directory block height when that is below [2^31], and that height less
    [2^32], a negative number, from [2^31] on; so the height 4294967295 reads
    like a failure. *)
Theorem getSyncStatus_always (s : Svc) (data : RawMessage) :
  events (getSyncStatus (TransactionBatch:=TransactionBatch) s data)
    = [CallHeightsGet] /\
  exists status : ResultGetSyncStatus.t,
    result (getSyncStatus (TransactionBatch:=TransactionBatch) s data)
      = Returned (ReplySyncStatus status) /\
    ResultGetSyncStatus.Sync status
      = Node.GetCurrentSync (APIServer.Node (Service.Server s)) /\
    - 2 ^ 31 <= ResultGetSyncStatus.Current status < 2 ^ 31 /\
    (snd (Service.Heights_Get s) <> None ->
     ResultGetSyncStatus.Current status = -1) /\
    (snd (Service.Heights_Get s) = None ->
     let height := fst (Service.Heights_Get s) in
     ((height < 2 ^ 31)%N ->
      ResultGetSyncStatus.Current status = Z.of_N height) /\
     ((2 ^ 31 <= height < 2 ^ 32)%N ->
      ResultGetSyncStatus.Current status = Z.of_N height - 2 ^ 32) /\
     (height = 4294967295%N -> ResultGetSyncStatus.Current status = -1)).
Proof.
  unfold getSyncStatus. run.
  destruct (Service.Heights_Get s) as [height [err|]]; run.
  - split; [reflexivity |]. eexists. split; [reflexivity |]. simpl.
    split; [reflexivity |]. split; [lia |]. split; [reflexivity | refute].
  - split; [reflexivity |]. eexists. split; [reflexivity |]. simpl.
    split; [reflexivity |]. split; [apply to_int32_range |].
    split; [congruence |]. intros _.
    split; [apply to_int32_small |]. split; [apply to_int32_large |].
    intros ->. reflexivity.
Qed.

(** X13: [getPegnetRates], for a valid request that gives a height. A map
    of rates is returned only when the store gave no error, and it is the map
    of the store and is not empty. When the store gives an empty map the
    answer is not-found, whatever error came with it, in both revisions: a
    failure of the store that comes with no rates is never reported as a
    fault. *)
Theorem getPegnetRates_answers (rev : Revision) (s : Svc) (data : RawMessage)
    (params : ParamsGetPegnetRates.t) (height : N) :
  let store := Node.Pegnet (APIServer.Node (Service.Server s)) in
  validate data (Some ParamsGetPegnetRates.zero) = (Some params, None) ->
  ParamsGetPegnetRates.Height params = Some height ->
  events (getPegnetRates (TransactionBatch:=TransactionBatch) rev s data)
    = [Made (CallSelectRates height)] /\
  (forall r : gmap PTicker N,
     result (getPegnetRates (TransactionBatch:=TransactionBatch) rev s data)
       = Returned (ReplyTickerMap r) ->
     Pegnet.SelectRates store height = (r, None) /\ r <> ∅) /\
  (fst (Pegnet.SelectRates store height) = ∅ ->
   result (getPegnetRates (TransactionBatch:=TransactionBatch) rev s data)
     = Returned (ReplyError ErrorNotFound)) /\
  (forall (rates : gmap PTicker N) (err : string),
     Pegnet.SelectRates store height = (rates, Some err) ->
     rates <> ∅ -> err <> ErrNoRows ->
     result (getPegnetRates (TransactionBatch:=TransactionBatch) rev s data)
       = result (fault (A:=Empty_set) rev err)).
Proof.
  intros store Hvalid Hheight. unfold getPegnetRates.
  rewrite Hvalid. run. rewrite Hheight.
  run. fold store.
  destruct (Pegnet.SelectRates store height) as [rates err]. run.
  assert (Hsize : (size rates =? 0)%nat = true <-> rates = ∅).
  { rewrite Nat.eqb_eq. apply map_size_empty_iff. }
  split; [| split; [| split]].
  - destruct (is_ErrNoRows err || (size rates =? 0)%nat); [reflexivity |].
    destruct err as [e|]; [destruct rev |]; reflexivity.
  - intros r.
    destruct (is_ErrNoRows err || (size rates =? 0)%nat) eqn:Hnone;
      [refute |].
    apply orb_false_iff in Hnone as [_ Hne].
    destruct err as [e|]; [destruct rev; refute |].
    intros [= <-]. split; [reflexivity |].
    intros Hempty. apply Hsize in Hempty. congruence.
  - intros Hempty. apply Hsize in Hempty. rewrite Hempty, orb_true_r. reflexivity.
  - intros rates' e [= <- ->] Hne Herr.
    assert (Hrows : is_ErrNoRows (Some e) = false).
    { run. apply String.eqb_neq, Herr. }
    assert (Hsz : (size rates =? 0)%nat = false).
    { destruct (size rates =? 0)%nat eqn:Hs; [| reflexivity].
      destruct Hne. apply Hsize. reflexivity. }
    rewrite Hrows, Hsz. reflexivity.
Qed.

(** X14: [getPegnetBalances], for a valid request: one query to the store;
    when the store answers without an error, its map is the result, also
    when it is empty; when it answers with [sql.ErrNoRows], the result is
    address-not-found, whatever map came with it; any other error is a
    fault. *)
Theorem getPegnetBalances_answers (rev : Revision) (s : Svc) (data : RawMessage)
    (params : ParamsGetPegnetBalances.t) :
  let store := Node.Pegnet (APIServer.Node (Service.Server s)) in
  let address := ParamsGetPegnetBalances.Address params in
  validate data (Some ParamsGetPegnetBalances.zero) = (Some params, None) ->
  events (getPegnetBalances (TransactionBatch:=TransactionBatch) rev s data)
    = [Made (CallSelectBalances address)] /\
  (forall bals : gmap PTicker N,
     Pegnet.SelectBalances store address = (bals, None) ->
     result (getPegnetBalances (TransactionBatch:=TransactionBatch) rev s data)
       = Returned (ReplyTickerMap bals)) /\
  (forall bals : gmap PTicker N,
     Pegnet.SelectBalances store address = (bals, Some ErrNoRows) ->
     result (getPegnetBalances (TransactionBatch:=TransactionBatch) rev s data)
       = Returned (ReplyError ErrorAddressNotFound)) /\
  (forall (bals : gmap PTicker N) (err : string),
     Pegnet.SelectBalances store address = (bals, Some err) ->
     err <> ErrNoRows ->
     result (getPegnetBalances (TransactionBatch:=TransactionBatch) rev s data)
       = result (fault (A:=Empty_set) rev err)).
Proof.
  intros store address Hvalid. unfold getPegnetBalances.
  rewrite Hvalid. run. fold address store.
  run.
  destruct (Pegnet.SelectBalances store address) as [bals err]. run.
  split; [| split; [| split]].
  - destruct (is_ErrNoRows err); [reflexivity |].
    destruct err as [e|]; [destruct rev |]; reflexivity.
  - intros bals' [= <- ->]. reflexivity.
  - intros bals' [= <- ->]. reflexivity.
  - intros bals' e [= <- ->] Herr.
    assert (Hrows : is_ErrNoRows (Some e) = false).
    { run. apply String.eqb_neq, Herr. }
    rewrite Hrows. reflexivity.
Qed.

Lemma getPegnetIssuance_returns (s : Svc) (data : RawMessage) :
  exists r : Rep,
    result (getPegnetIssuance (TransactionBatch:=TransactionBatch) Second s data)
      = Returned r.
Proof.
  unfold getPegnetIssuance. run.
  destruct (Service.SelectIssuances s) as [issuance err]. run.
  destruct (is_ErrNoRows err); [eexists; reflexivity |].
  destruct err as [e|]; [eexists; reflexivity |].
  unfold getSyncStatus, invoke. run.
  destruct (Service.Heights_Get s) as [height [err|]]; eexists; reflexivity.
Qed.

(** X15: [getPegnetIssuance] never looks at its payload. When the store
    fails, the client is not called. When the store answers, the client is
    asked for the heights, the result holds the issuance of the store and
    the status that [getSyncStatus] returns, each revision in its own
    struct, and the type assertion on that status cannot fail, so that the
    second revision never panics. *)
Theorem getPegnetIssuance_answers (rev : Revision) (s : Svc) (data : RawMessage) :
  (snd (Service.SelectIssuances s) <> None ->
   events (getPegnetIssuance (TransactionBatch:=TransactionBatch) rev s data)
     = [CallSelectIssuances]) /\
  (snd (Service.SelectIssuances s) = None ->
   events (getPegnetIssuance (TransactionBatch:=TransactionBatch) rev s data)
     = [CallSelectIssuances; CallHeightsGet] /\
   exists status : ResultGetSyncStatus.t,
     result (getSyncStatus (TransactionBatch:=TransactionBatch) s RawEmpty)
       = Returned (ReplySyncStatus status) /\
     result (getPegnetIssuance (TransactionBatch:=TransactionBatch) First s data)
       = Returned
           (ReplyFirstIssuance
              {| FirstRevision.ResultGetIssuance.SyncStatus := status;
                 FirstRevision.ResultGetIssuance.Issuance :=
                   fst (Service.SelectIssuances s) |}) /\
     result (getPegnetIssuance (TransactionBatch:=TransactionBatch) Second s data)
       = Returned
           (ReplyIssuance
              {| ResultGetIssuance.SyncStatus := status;
                 ResultGetIssuance.Issuance := fst (Service.SelectIssuances s) |})) /\
  (exists r : Rep, result (getPegnetIssuance Second s data) = Returned r).
Proof.
  unfold getPegnetIssuance.
  run.
  destruct (Service.SelectIssuances s) as [issuance err]. run.
  destruct err as [e|].
  - split; [| split; [refute |]].
    + intros _. destruct (is_ErrNoRows (Some e)); [reflexivity |].
      destruct rev; reflexivity.
    + destruct (is_ErrNoRows (Some e)); eexists; reflexivity.
  - run. unfold getSyncStatus, invoke.
    destruct (Service.Heights_Get s) as [height [err|]]; run.
    + split; [congruence |]. split.
      * intros _. split; [destruct rev; reflexivity |].
        eexists. split; [reflexivity |]. split; reflexivity.
      * eexists. reflexivity.
    + split; [congruence |]. split.
      * intros _. split; [destruct rev; reflexivity |].
        eexists. split; [reflexivity |]. split; reflexivity.
      * eexists. reflexivity.
Qed.

(** X16: [getTransaction], in both modes and both revisions: when the
    store does not know the hash of a valid request, the answer is
    transaction-not-found and the client has not been called; when the store
    fails, its error is returned as it is, and the client has not been called
    either. *)
Theorem getTransaction_unknown (rev : Revision) (s : Svc) (getEntry : bool)
    (data : RawMessage) (params : ParamsGetTransaction.t) (hash : Bytes32) :
  validate data (Some ParamsGetTransaction.zero) = (Some params, None) ->
  ParamsGetTransaction.Hash params = Some hash ->
  (Service.DoesTransactionExist s hash = (false, None) ->
   result (getTransaction (TransactionBatch:=TransactionBatch) rev s getEntry data)
     = Returned (Earlier (RespError (RpcError ErrorTransactionNotFound))) /\
   events (getTransaction (TransactionBatch:=TransactionBatch) rev s getEntry data)
     = [CallDoesTransactionExist hash]) /\
  (forall (found : bool) (err : string),
     Service.DoesTransactionExist s hash = (found, Some err) ->
     result (getTransaction (TransactionBatch:=TransactionBatch) rev s getEntry data)
       = Returned (Earlier (RespError (PlainError err))) /\
     events (getTransaction (TransactionBatch:=TransactionBatch) rev s getEntry data)
       = [CallDoesTransactionExist hash]).
Proof.
  intros Hvalid Hhash. unfold getTransaction. rewrite Hvalid. run.
  rewrite Hhash. run.
  split.
  - intros ->. split; reflexivity.
  - intros found err ->. split; reflexivity.
Qed.

(** What [getTransaction] returns in the mode that decodes: an error, or
    the struct of the revision made from an entry that the other mode
    returns as it is. *)
Lemma getTransaction_decoded (rev : Revision) (s : Svc) (data : RawMessage) :
  events (getTransaction (TransactionBatch:=TransactionBatch) rev s true data)
    = events (getTransaction (TransactionBatch:=TransactionBatch) rev s false data) /\
  forall r : Rep,
    result (getTransaction rev s false data) = Returned r ->
    (exists err, r = Earlier (RespError err)) \/
    exists (e : Entry.t) (txBatch : TransactionBatch),
      r = transaction_of rev e txBatch /\
      result (getTransaction (TransactionBatch:=TransactionBatch) rev s true data)
        = Returned (ReplyEntry e) /\
      Entry_IsPopulated e = true /\
      UnmarshalEntry (NewTransactionBatch e) = (txBatch, None).
Proof.
  unfold getTransaction.
  destruct (validate data (Some ParamsGetTransaction.zero)) as [params [err|]].
  { split; [reflexivity |]. intros r [= <-]. left. eauto. }
  run.
  destruct (ParamsGetTransaction.Hash (default ParamsGetTransaction.zero params))
    as [hash|]; [| split; [reflexivity | refute]].
  run.
  destruct (Service.DoesTransactionExist s hash) as [found [err|]].
  { split; [reflexivity |]. intros r [= <-]. left. eauto. }
  destruct found; run.
  2: { split; [reflexivity |]. intros r [= <-]. left. eauto. }
  destruct (Service.Entry_Get s _) as [e [err|]].
  { split; [reflexivity |]. destruct rev; [refute |].
    intros r [= <-]. left. eauto. }
  destruct (Entry_IsPopulated e) eqn:Hpop; run.
  2: { split; [reflexivity |]. intros r [= <-]. left. eauto. }
  destruct (UnmarshalEntry (NewTransactionBatch e)) as [txBatch [err|]] eqn:Hbatch.
  { split; [destruct rev; reflexivity |]. destruct rev; [refute |].
    intros r [= <-]. left. eauto. }
  split; [reflexivity |].
  intros r [= <-]. right. exists e, txBatch. repeat split; assumption.
Qed.

(** X17: the two modes of [getTransaction] make the same calls on the same
    request, and whenever the decoded transaction is returned, the entry mode
    returns the entry it was decoded from: the result holds the hash of that
    entry and the batch decoded from it, and its timestamp is never set; nor
    is the index that the struct of the first revision has. *)
Theorem getTransaction_modes (rev : Revision) (s : Svc) (data : RawMessage) :
  events (getTransaction (TransactionBatch:=TransactionBatch) rev s true data)
    = events (getTransaction (TransactionBatch:=TransactionBatch) rev s false data) /\
  (forall res : ResultGetTransaction.t TransactionBatch,
     result (getTransaction Second s false data) = Returned (ReplyTransaction res) ->
     exists e : Entry.t,
       result (getTransaction (TransactionBatch:=TransactionBatch) Second s true data)
         = Returned (ReplyEntry e) /\
       Entry_IsPopulated e = true /\
       UnmarshalEntry (NewTransactionBatch e)
         = (default (NewTransactionBatch e) (ResultGetTransaction.Tx res), None) /\
       ResultGetTransaction.Tx res <> None /\
       ResultGetTransaction.Hash res = Entry.Hash e /\
       ResultGetTransaction.Timestamp res = 0) /\
  (forall res : FirstRevision.ResultGetTransaction.t TransactionBatch,
     result (getTransaction First s false data)
       = Returned (ReplyFirstTransaction res) ->
     exists e : Entry.t,
       result (getTransaction (TransactionBatch:=TransactionBatch) First s true data)
         = Returned (ReplyEntry e) /\
       Entry_IsPopulated e = true /\
       UnmarshalEntry (NewTransactionBatch e)
         = (default (NewTransactionBatch e)
              (FirstRevision.ResultGetTransaction.Tx res), None) /\
       FirstRevision.ResultGetTransaction.Tx res <> None /\
       FirstRevision.ResultGetTransaction.Hash res = Entry.Hash e /\
       FirstRevision.ResultGetTransaction.Timestamp res = 0 /\
       FirstRevision.ResultGetTransaction.TxIndex res = 0%N).
Proof.
  split; [apply getTransaction_decoded |]. split.
  - intros res Hres.
    destruct (proj2 (getTransaction_decoded Second s data) _ Hres)
      as [[err Herr] | (e & txBatch & Hr & Hentry & Hpop & Hbatch)];
      [discriminate Herr |].
    injection Hr as ->. exists e. cbn.
    split; [exact Hentry |]. split; [exact Hpop |]. split; [exact Hbatch |].
    split; [discriminate |]. split; reflexivity.
  - intros res Hres.
    destruct (proj2 (getTransaction_decoded First s data) _ Hres)
      as [[err Herr] | (e & txBatch & Hr & Hentry & Hpop & Hbatch)];
      [discriminate Herr |].
    injection Hr as ->. exists e. cbn.
    split; [exact Hentry |]. split; [exact Hpop |]. split; [exact Hbatch |].
    split; [discriminate |]. repeat split.
Qed.

Lemma softened_reply (r1 r2 : Rep) :
  as_second r1 = r2 -> softened (reply r1) (reply r2).
Proof.
  intros <-. split; [reflexivity |]. left. exists r1. split; reflexivity.
Qed.

Lemma softened_raise (err : string) :
  softened (raise err : Method Rep) (raise err).
Proof.
  split; [reflexivity |]. right. exists err. split; [| left]; reflexivity.
Qed.

Lemma softened_fault (err : string) :
  softened (fault First err : Method Rep) (fault Second err).
Proof.
  split; [reflexivity |]. right. exists err. split; [| right]; reflexivity.
Qed.

Lemma softened_ask {A} (e : Event) (v : A) (k1 k2 : A -> Method Rep) :
  softened (k1 v) (k2 v) -> softened (ask e v ≫= k1) (ask e v ≫= k2).
Proof.
  intros [Hev Hres]. split.
  - rewrite !events_bind_ask. f_equal. exact Hev.
  - rewrite !result_bind_ask. exact Hres.
Qed.

(** Both revisions end the same way. *)
Ltac same :=
  first [ apply softened_reply; reflexivity | apply softened_raise ].

(** X18: from the first revision to the second, [getTransaction] in both
    modes, [getPegnetBalances], [getPegnetIssuance] and [getPegnetRates]
    keep their calls; what the first returns the second returns too, a
    [ResultGetTransaction] and a [ResultGetIssuance] in the struct of the
    second, with the members that both have; where the first panics the
    second panics alike or returns the internal error; and the second
    panics only where a nil pointer is read. *)
Theorem revisions_agree (s : Svc) (data : RawMessage) :
  Forall2 softened (revised First s data) (revised Second s data) /\
  Forall
    (fun h : Method Rep =>
       forall err, result h = Panicked err -> err = nil_dereference)
    (revised Second s data).
Proof.
  assert (Htx : forall getEntry,
            softened (TransactionBatch:=TransactionBatch) (getTransaction First s getEntry data)
              (getTransaction Second s getEntry data) /\
            forall err,
              result (getTransaction (TransactionBatch:=TransactionBatch)
                        Second s getEntry data) = Panicked err ->
              err = nil_dereference).
  { intros getEntry. unfold getTransaction.
    destruct (validate data (Some ParamsGetTransaction.zero)) as [params [err|]];
      [split; [same | refute] |].
    run.
    destruct (ParamsGetTransaction.Hash (default ParamsGetTransaction.zero params))
      as [hash|]; [| split; [same | intros err [= <-]; reflexivity]].
    split.
    - apply softened_ask.
      destruct (Service.DoesTransactionExist s hash) as [found [err|]];
        [same |].
      destruct found; run; [| same].
      apply softened_ask.
      destruct (Service.Entry_Get s _) as [e [err|]]; [apply softened_fault |].
      destruct (Entry_IsPopulated e); run; [| same].
      destruct getEntry; [same |].
      destruct (UnmarshalEntry (NewTransactionBatch e)) as [txBatch [err|]];
        [apply softened_fault | same].
    - run.
      destruct (Service.DoesTransactionExist s hash) as [found [err|]];
        [refute |].
      destruct found; run; [| refute].
      run.
      destruct (Service.Entry_Get s _) as [e [err|]]; [refute |].
      destruct (Entry_IsPopulated e); run; [| refute].
      destruct getEntry; [refute |].
      destruct (UnmarshalEntry (NewTransactionBatch e)) as [txBatch [err|]];
        refute. }
  assert (Hbal : softened (TransactionBatch:=TransactionBatch) (getPegnetBalances First s data)
                   (getPegnetBalances Second s data) /\
                 forall err,
                   result (getPegnetBalances (TransactionBatch:=TransactionBatch)
                             Second s data) = Panicked err ->
                   err = nil_dereference).
  { unfold getPegnetBalances.
    destruct (validate data (Some ParamsGetPegnetBalances.zero))
      as [params [err|]]; [split; [same | refute] |].
    run. split.
    - apply softened_ask.
      destruct (Pegnet.SelectBalances _ _) as [bals err].
      destruct (is_ErrNoRows err); [same |].
      destruct err as [e|]; [apply softened_fault | same].
    - run.
      destruct (Pegnet.SelectBalances _ _) as [bals err].
      destruct (is_ErrNoRows err); [refute |].
      destruct err as [e|]; refute. }
  assert (Hiss : softened (TransactionBatch:=TransactionBatch) (getPegnetIssuance First s data)
                   (getPegnetIssuance Second s data) /\
                 forall err,
                   result (getPegnetIssuance (TransactionBatch:=TransactionBatch)
                             Second s data) = Panicked err ->
                   err = nil_dereference).
  { split.
    - unfold getPegnetIssuance. apply softened_ask.
      destruct (Service.SelectIssuances s) as [issuance err].
      destruct (is_ErrNoRows err); [same |].
      destruct err as [e|]; [apply softened_fault |].
      unfold getSyncStatus, invoke. run.
      destruct (Service.Heights_Get s) as [height [err|]];
        (split; [reflexivity |]); left; eexists; split; reflexivity.
    - intros err Hpanic.
      destruct (getPegnetIssuance_returns s data) as [r Hr].
      rewrite Hr in Hpanic. refute. }
  assert (Hrat : softened (TransactionBatch:=TransactionBatch) (getPegnetRates First s data)
                   (getPegnetRates Second s data) /\
                 forall err,
                   result (getPegnetRates (TransactionBatch:=TransactionBatch)
                             Second s data) = Panicked err ->
                   err = nil_dereference).
  { unfold getPegnetRates.
    destruct (validate data (Some ParamsGetPegnetRates.zero))
      as [params [err|]]; [split; [same | refute] |].
    run.
    destruct (ParamsGetPegnetRates.Height (default ParamsGetPegnetRates.zero params))
      as [height|]; [| split; [same | intros err [= <-]; reflexivity]].
    split.
    - apply softened_ask.
      destruct (Pegnet.SelectRates _ _) as [rates err].
      destruct (is_ErrNoRows err || (size rates =? 0)%nat); [same |].
      destruct err as [e|]; [apply softened_fault | same].
    - run.
      destruct (Pegnet.SelectRates _ _) as [rates err].
      destruct (is_ErrNoRows err || (size rates =? 0)%nat); [refute |].
      destruct err as [e|]; refute. }
  unfold revised. split.
  - repeat
      (constructor;
       [first [apply Htx | apply Hbal | apply Hiss | apply Hrat] |]).
    constructor.
  - repeat
      (constructor;
       [first [apply Htx | apply Hbal | apply Hiss | apply Hrat] |]).
    constructor.
Qed.

End RemainingProperties.

(** ** Requests that do not pass [validate] *)
Section Rejected.
Context `{Imports} {PTicker : Type} `{Countable PTicker} `{!PTickerOps PTicker}.
Context {HistoryTransaction TransactionBatch : Type}.
Context `{!Batches TransactionBatch}.
Context `{!Params ParamsGetPegnetTransaction.t}.
Context `{!Params ParamsGetPegnetTransactionStatus.t}.
Context `{!Params ParamsSendTransaction.t}.
Context `{!Params ParamsGetTransaction.t}.
Context `{!Params ParamsGetPegnetBalances.t}.
Context `{!Params ParamsGetPegnetRates.t}.

#[local] Abbreviation Svc := (Service.t PTicker HistoryTransaction).

(** X19: a request that [validate] turns down reaches neither the store nor
    the client, and the error of [validate] is what the handler returns, as
    it is: in [getTransactionStatus], [getTransactions], [sendTransaction] of
    both revisions, and in [getTransaction] in both modes,
    [getPegnetBalances] and [getPegnetRates] of both revisions. *)
Theorem rejected_request (rev : Revision) (svc : Svc) (data : RawMessage)
    (err : GoError) :
  let s := Service.Server svc in
  (snd (validate data (Some ParamsGetPegnetTransactionStatus.zero)) = Some err ->
   calls (getTransactionStatus s data) = [] /\
   outcome (getTransactionStatus s data) = Returned (RespError err)) /\
  (snd (validate data (Some ParamsGetPegnetTransaction.zero)) = Some err ->
   calls (getTransactions s data) = [] /\
   outcome (getTransactions s data) = Returned (RespError err)) /\
  (snd (validate data (Some ParamsSendTransaction.zero)) = Some err ->
   calls (sendTransaction s data) = [] /\
   outcome (sendTransaction s data) = Returned (RespError err) /\
   sendTransaction_first s data = sendTransaction s data) /\
  (snd (validate data (Some ParamsGetTransaction.zero)) = Some err ->
   forall getEntry,
     events (getTransaction (TransactionBatch:=TransactionBatch) rev svc getEntry data)
       = [] /\
     result (getTransaction (TransactionBatch:=TransactionBatch) rev svc getEntry data)
       = Returned (Earlier (RespError err))) /\
  (snd (validate data (Some ParamsGetPegnetBalances.zero)) = Some err ->
   events (getPegnetBalances (TransactionBatch:=TransactionBatch) rev svc data) = [] /\
   result (getPegnetBalances (TransactionBatch:=TransactionBatch) rev svc data)
     = Returned (Earlier (RespError err))) /\
  (snd (validate data (Some ParamsGetPegnetRates.zero)) = Some err ->
   events (getPegnetRates (TransactionBatch:=TransactionBatch) rev svc data) = [] /\
   result (getPegnetRates (TransactionBatch:=TransactionBatch) rev svc data)
     = Returned (Earlier (RespError err))).
Proof.
  intros s.
  repeat match goal with |- _ /\ _ => split end.
  all: unfold getTransactionStatus, getTransactions, sendTransaction,
         sendTransaction_first, getTransaction, getPegnetBalances,
         getPegnetRates.
  all: match goal with
       | |- context [validate ?d ?p] =>
           destruct (validate d p) as [params [e|]]
       end.
  all: cbn [snd]; intros [= ->]; try intros getEntry; repeat split.
Qed.

(** X20: a request to send that decodes, is valid, and names a chain that
    is not the transaction chain is answered token-not-found by both
    revisions, and nothing is called: not the parser of the key, not the
    client. *)
Theorem sendTransaction_foreign_chain (s : APIServer.t PTicker HistoryTransaction)
    (data : RawMessage) (q p : ParamsSendTransaction.t) (chainID : Bytes32) :
  is_empty data = false ->
  unmarshalStrict data ParamsSendTransaction.zero = (q, None) ->
  IsValid q = (p, None) ->
  ValidChainID p = Some chainID ->
  chainID <> TransactionChain ->
  calls (sendTransaction s data) = [] /\
  outcome (sendTransaction s data)
    = Returned (RespError (RpcError ErrorTokenNotFound)) /\
  sendTransaction_first s data = sendTransaction s data.
Proof.
  intros Hdata Hdecode Hvalid Hchain Hforeign.
  assert (Hrejected : validate data (Some ParamsSendTransaction.zero)
                      = (Some p, Some (RpcError ErrorTokenNotFound))).
  { unfold validate. rewrite Hdata, Hdecode, Hvalid, Hchain.
    apply String.eqb_neq in Hforeign. rewrite Hforeign. reflexivity. }
  unfold sendTransaction, sendTransaction_first. rewrite Hrejected.
  repeat split.
Qed.

End Rejected.
(** * The handlers on the sample deployment *)

Import Sample.

(** Two pages of the five actions of [FA1], and the three actions at height
    100 of the scenario in the specification. *)
Lemma getTransactions_nextOffset_witness :
  (exists res : ResultGetTransactions.t string,
     outcome
       (getTransactions healthy
          (object [("address", JString "FA1"); ("offset", JNumber 2)]))
       = Returned (RespTransactions res) /\
     ResultGetTransactions.Actions res = ["t3"; "t4"] /\
     ResultGetTransactions.Count res = 5 /\
     ResultGetTransactions.NextOffset res = 4) /\
  (exists res : ResultGetTransactions.t string,
     outcome
       (getTransactions healthy
          (object [("height", JNumber 100); ("offset", JNumber 0)]))
       = Returned (RespTransactions res) /\
     ResultGetTransactions.Actions res = ["t1"; "t2"; "t3"] /\
     ResultGetTransactions.Count res = 3 /\
     ResultGetTransactions.NextOffset res = 0).
Proof.
  split.
  - destruct (getTransactions_nextOffset healthy
                (object [("address", JString "FA1"); ("offset", JNumber 2)])
                {| ParamsGetPegnetTransaction.Hash := None;
                   ParamsGetPegnetTransaction.Address := "FA1";
                   ParamsGetPegnetTransaction.Height := 0;
                   ParamsGetPegnetTransaction.Offset := 2;
                   ParamsGetPegnetTransaction.Desc := false;
                   ParamsGetPegnetTransaction.Transfer := false;
                   ParamsGetPegnetTransaction.Conversion := false;
                   ParamsGetPegnetTransaction.Coinbase := false;
                   ParamsGetPegnetTransaction.Burn := false |}
                [CallSelectTransactionHistoryActionsByAddress "FA1"
                   {| HistoryQueryOptions.Offset := 2;
                      HistoryQueryOptions.Desc := false;
                      HistoryQueryOptions.Transfer := false;
                      HistoryQueryOptions.Conversion := false;
                      HistoryQueryOptions.Coinbase := false;
                      HistoryQueryOptions.FCTBurn := false |}]
                ["t3"; "t4"] 5)
      as (res & Hres & Hactions & Hcount & Hnext & _).
    + reflexivity.
    + reflexivity.
    + discriminate.
    + simpl. lia.
    + vm_compute. discriminate.
    + exists res. repeat split; assumption.
  - destruct (getTransactions_nextOffset healthy
                (object [("height", JNumber 100); ("offset", JNumber 0)])
                {| ParamsGetPegnetTransaction.Hash := None;
                   ParamsGetPegnetTransaction.Address := "";
                   ParamsGetPegnetTransaction.Height := 100;
                   ParamsGetPegnetTransaction.Offset := 0;
                   ParamsGetPegnetTransaction.Desc := false;
                   ParamsGetPegnetTransaction.Transfer := false;
                   ParamsGetPegnetTransaction.Conversion := false;
                   ParamsGetPegnetTransaction.Coinbase := false;
                   ParamsGetPegnetTransaction.Burn := false |}
                [CallSelectTransactionHistoryActionsByHeight 100
                   {| HistoryQueryOptions.Offset := 0;
                      HistoryQueryOptions.Desc := false;
                      HistoryQueryOptions.Transfer := false;
                      HistoryQueryOptions.Conversion := false;
                      HistoryQueryOptions.Coinbase := false;
                      HistoryQueryOptions.FCTBurn := false |}]
                ["t1"; "t2"; "t3"] 3)
      as (res & Hres & Hactions & Hcount & Hnext & _).
    + reflexivity.
    + reflexivity.
    + discriminate.
    + simpl. lia.
    + vm_compute. discriminate.
    + exists res. repeat split; assumption.
Defined.

(** The last page of all: the offset is the count, nothing is left. *)
Lemma getTransactions_empty_not_found_witness :
  outcome
    (getTransactions healthy
       (object [("address", JString "FA1"); ("offset", JNumber 5)]))
    = Returned (RespError (RpcError ErrorTransactionNotFound)).
Proof.
  eapply (getTransactions_empty_not_found healthy); reflexivity.
Defined.

(** One transaction at height 12, and one the store does not know. *)
Lemma getTransactionStatus_height_zero_witness :
  outcome (getTransactionStatus healthy (object [("entryhash", JString "bb")]))
    = Returned (RespError (RpcError ErrorTransactionNotFound)) /\
  (0 < 12)%N.
Proof.
  split.
  - eapply (proj1 (getTransactionStatus_height_zero healthy
                     (object [("entryhash", JString "bb")])));
      reflexivity.
  - apply (proj2 (getTransactionStatus_height_zero healthy
                    (object [("entryhash", JString "aa")]))
             {| ResultGetTransactionStatus.Height := 12;
                ResultGetTransactionStatus.Executed := 1 |}).
    reflexivity.
Defined.

(** A member [bogus] next to a good one. *)
Lemma unknown_field_invalid_params_witness :
  exists msg,
    outcome
      (getTransactions healthy
         (object [("address", JString "FA1"); ("bogus", JNumber 5)]))
      = Returned (RespError (RpcError (InvalidParams msg))) /\
    calls
      (getTransactions healthy
         (object [("address", JString "FA1"); ("bogus", JNumber 5)])) = [].
Proof.
  apply (proj1 (proj2 (unknown_field_invalid_params
                         (PTicker:=Ticker) (HistoryTransaction:=string)
                         [("address", JString "FA1"); ("bogus", JNumber 5)]
                         "bogus" ltac:(simpl; right; left; reflexivity)))).
  reflexivity.
Defined.

(** No entry credits for a small entry; and an entry above the size for
    which a cost exists. *)
Lemma sendTransaction_funding_errors_witness :
  (outcome (sendTransaction broke (object [("content", JString "hello")]))
     = Returned (RespError (RpcError ErrorNoEC)) /\
   Name ErrorNoEC <> Name ErrorInvalidTransaction /\
   calls (sendTransaction broke (object [("content", JString "hello")]))
     = [CallGetBalance "Es-sample-key";
        CallCost
          {| Entry.ChainID := Some TransactionChain;
             Entry.Hash := Some "hash of hello";
             Entry.Body := "hello" |}]) /\
  outcome
    (sendTransaction healthy (object [("content", JString oversized)]))
    = Returned
        (RespError
           (RpcError
              {| Name := InvalidTransactionName;
                 Data := Some "Entry cannot be larger than 10KB" |})).
Proof.
  split.
  - destruct (sendTransaction_funding_errors broke
                (object [("content", JString "hello")])
                {| ParamsSendTransaction.DryRun := false;
                   ParamsSendTransaction.Entry :=
                     {| Entry.ChainID := None;
                        Entry.Hash := Some "hash of hello";
                        Entry.Body := "hello" |} |}
                "Es-sample-key" 0%N)
      as [_ Hlow]; [reflexivity | reflexivity | reflexivity | reflexivity |].
    apply (Hlow 1); [reflexivity | lia | lia].
  - destruct (sendTransaction_funding_errors healthy
                (object [("content", JString oversized)])
                {| ParamsSendTransaction.DryRun := false;
                   ParamsSendTransaction.Entry :=
                     {| Entry.ChainID := None;
                        Entry.Hash := Some ("hash of " +:+ oversized);
                        Entry.Body := oversized |} |}
                "Es-sample-key" 20%N)
      as [Hcost _];
      [vm_compute; reflexivity | reflexivity | reflexivity | reflexivity |].
    apply (Hcost 0). vm_compute. reflexivity.
Defined.

(** A dry run on the server in good order; the same entry, its members given
    in another order, on a server whose client is out of reach; the requests
    are those of the sample whose entries are hashed. *)
Section DryRunSample.
#[local] Existing Instance SampleEntries.entry_hash.
#[local] Existing Instance SampleEntries.params_send.
#[local] Existing Instance SampleEntries.content_addressed.

Lemma sendTransaction_dry_run_witness :
  calls
    (sendTransaction healthy
       (object [("content", JString "hello"); ("dryrun", JBool true)])) = [] /\
  outcome
    (sendTransaction healthy
       (object [("content", JString "hello"); ("dryrun", JBool true)]))
    = Returned
        (RespSendTransaction
           {| ResultSendTransaction.ChainID := Some TransactionChain;
              ResultSendTransaction.TxID := None;
              ResultSendTransaction.Hash := Some "hash of hello" |}) /\
  outcome
    (sendTransaction unreachable_at_lookup
       (object [("dryrun", JBool true); ("content", JString "hello")]))
    = outcome
        (sendTransaction healthy
           (object [("content", JString "hello"); ("dryrun", JBool true)])).
Proof.
  destruct (sendTransaction_dry_run healthy
              (object [("content", JString "hello"); ("dryrun", JBool true)])
              {| ParamsSendTransaction.DryRun := true;
                 ParamsSendTransaction.Entry :=
                   {| Entry.ChainID := None;
                      Entry.Hash := Some "hash of hello";
                      Entry.Body := "hello" |} |})
    as (Hcalls & _ & Hrest); [reflexivity | reflexivity |].
  destruct Hrest as [Hresult Hsame]; [reflexivity |].
  split; [exact Hcalls |]. split; [exact Hresult |].
  apply (Hsame unreachable_at_lookup
           (object [("dryrun", JBool true); ("content", JString "hello")])
           {| ParamsSendTransaction.DryRun := true;
              ParamsSendTransaction.Entry :=
                {| Entry.ChainID := None;
                   Entry.Hash := Some "hash of hello";
                   Entry.Body := "hello" |} |});
    reflexivity.
Defined.

End DryRunSample.

(** A dry run on a server whose configuration holds no key: the request is
    valid, and what comes back is the internal error, not an entry hash. *)
Lemma sendTransaction_dry_run_unconfigured :
  let data := object [("content", JString "hello"); ("dryrun", JBool true)] in
  validate data (Some ParamsSendTransaction.zero)
    = (Some
         {| ParamsSendTransaction.DryRun := true;
            ParamsSendTransaction.Entry :=
              {| Entry.ChainID := None;
                 Entry.Hash := Some "hash of hello";
                 Entry.Body := "hello" |} |},
       None) /\
  outcome (sendTransaction unconfigured data)
    = Returned (RespError (RpcError InternalError)) /\
  forall res : ResultSendTransaction.t,
    outcome (sendTransaction unconfigured data)
      <> Returned (RespSendTransaction res).
Proof.
  simpl. split; [reflexivity |]. split; [reflexivity |].
  intros res. discriminate.
Qed.

(** The rich list of the sample store: [FA2] with 33.2, then [FA1] with 5;
    [FA3], which holds nothing, is left out. *)
Lemma getRichList_top100_witness :
  let top100 :=
    [ {| RichEntry.Address := "FA2";
         RichEntry.USDEquiv := S754_finite false 4672484613396890 (-47) |};
      {| RichEntry.Address := "FA1";
         RichEntry.USDEquiv := S754_finite false 5629499534213120 (-50) |} ] in
  (length top100 <= 100)%nat /\
  StronglySorted
    (fun a b =>
       Float64.ge (RichEntry.USDEquiv a) (RichEntry.USDEquiv b) = true)
    top100 /\
  Forall (fun e => Float64.is_zero (RichEntry.USDEquiv e) = false) top100 /\
  Forall
    (ranked healthy
       (fst (Pegnet.SelectRates (Node.Pegnet (APIServer.Node healthy)) 215000%N)))
    top100.
Proof.
  apply (getRichList_top100 healthy RawEmpty
           {| ResultGetRichList.Height := 215000%N;
              ResultGetRichList.Top100 :=
                [ {| RichEntry.Address := "FA2";
                     RichEntry.USDEquiv :=
                       S754_finite false 4672484613396890 (-47) |};
                  {| RichEntry.Address := "FA1";
                     RichEntry.USDEquiv :=
                       S754_finite false 5629499534213120 (-50) |} ] |}).
  vm_compute. reflexivity.
Defined.

(** Two balances, to the wire and back. *)
Lemma ResultPegnetTickerMap_roundtrip_witness :
  UnmarshalJSON ∅ (inr (MarshalJSON balances)) = (balances, None) /\
  (exists err,
     snd (UnmarshalJSON (∅ : gmap Ticker N)
            (inr {[ "PEG" := 5%N; "pXYZ" := 7%N ]})) = Some err).
Proof.
  split.
  - apply (ResultPegnetTickerMap_roundtrip balances ∅).
  - apply (proj2 (proj2 (ResultPegnetTickerMap_roundtrip balances ∅))
             {[ "PEG" := 5%N; "pXYZ" := 7%N ]} "pXYZ").
    + vm_compute. eauto.
    + intros []; discriminate.
Defined.

(** C5, as the code has it: when the store gives an error for the rates,
    [getRichList] hands back the map that came with the error, which the
    library sends as a result; no error is returned. (The specification has
    the operation fail with an error.) *)
Theorem getRichList_rates_unavailable :
  outcome (getRichList without_rates RawEmpty) = Returned (RespRates ∅) /\
  forall e : GoError,
    outcome (getRichList without_rates RawEmpty) <> Returned (RespError e).
Proof.
  assert (Hout : outcome (getRichList without_rates RawEmpty)
                 = Returned (RespRates ∅)).
  { apply (getRichList_rates_failure without_rates RawEmpty
             ["FA1"; "FA2"; "FA3"] ∅ "sql: no rows in result set");
      reflexivity. }
  split; [exact Hout |]. intros e. rewrite Hout. discriminate.
Qed.

(** A client out of reach at the balance lookup, and one out of reach at
    the submission. *)
Lemma sendTransaction_client_failure_internal_witness :
  let data := object [("content", JString "hello")] in
  let entry :=
    {| Entry.ChainID := Some TransactionChain;
       Entry.Hash := Some "hash of hello";
       Entry.Body := "hello" |} in
  (outcome (sendTransaction unreachable_at_lookup data)
     = Panicked "connection refused" /\
   calls (sendTransaction unreachable_at_lookup data)
     = [CallGetBalance "Es-sample-key"] /\
   MethodFunc_call (sendTransaction unreachable_at_lookup data)
     = RespError (RpcError InternalError)) /\
  (outcome (sendTransaction unreachable_at_submission data)
     = Panicked "connection refused" /\
   calls (sendTransaction unreachable_at_submission data)
     = [CallGetBalance "Es-sample-key"; CallCost entry;
        CallComposeCreate entry "Es-sample-key"] /\
   MethodFunc_call (sendTransaction unreachable_at_submission data)
     = RespError (RpcError InternalError)).
Proof.
  intros data entry. split.
  - destruct (sendTransaction_client_failure_internal unreachable_at_lookup
                data
                {| ParamsSendTransaction.DryRun := false;
                   ParamsSendTransaction.Entry :=
                     {| Entry.ChainID := None;
                        Entry.Hash := Some "hash of hello";
                        Entry.Body := "hello" |} |}
                "Es-sample-key")
      as (Hlookup & _ & _); [reflexivity | reflexivity | reflexivity |].
    apply (Hlookup 0%N). reflexivity.
  - destruct (sendTransaction_client_failure_internal unreachable_at_submission
                data
                {| ParamsSendTransaction.DryRun := false;
                   ParamsSendTransaction.Entry :=
                     {| Entry.ChainID := None;
                        Entry.Hash := Some "hash of hello";
                        Entry.Body := "hello" |} |}
                "Es-sample-key")
      as (_ & Hsubmit & _); [reflexivity | reflexivity | reflexivity |].
    apply (Hsubmit 20%N 1 entry (Some "txid")); reflexivity.
Defined.

(** * The remaining handlers on the sample deployment *)

Import SampleService.

(** A request to send that names the transaction chain. *)
Lemma validate_passed_witness :
  let data :=
    object [("chainid", JString TransactionChain); ("content", JString "hello")] in
  exists q : ParamsSendTransaction.t,
    unmarshalStrict data ParamsSendTransaction.zero = (q, None) /\
    IsValid q = (q, None) /\
    ValidChainID q = Some TransactionChain.
Proof.
  destruct (validate_passed
              (object [("chainid", JString TransactionChain);
                       ("content", JString "hello")])
              ParamsSendTransaction.zero
              {| ParamsSendTransaction.DryRun := false;
                 ParamsSendTransaction.Entry :=
                   {| Entry.ChainID := Some TransactionChain;
                      Entry.Hash := Some "hash of hello";
                      Entry.Body := "hello" |} |})
    as (q & Hq & Hvalid & Hchain); [reflexivity | reflexivity |].
  exists q. split; [exact Hq |].
  injection Hq as <-. split; reflexivity.
Defined.

(** A store that fails on the one transaction that is asked for. *)
Lemma history_store_error_witness :
  let failing_store :=
    store_with (Pegnet.SelectAddresses (store None))
      (Pegnet.SelectRates (store None) 0%N) (Pegnet.SelectBalances (store None)) in
  let s :=
    server_over
      {| Pegnet.SelectAddresses := Pegnet.SelectAddresses failing_store;
         Pegnet.SelectRates := Pegnet.SelectRates failing_store;
         Pegnet.SelectBalances := Pegnet.SelectBalances failing_store;
         Pegnet.SelectTransactionHistoryStatus _ :=
           (12%N, 1%N, Some "database is locked");
         Pegnet.SelectTransactionHistoryActionsByHash _ _ :=
           (["t1"], 1, Some "database is locked");
         Pegnet.SelectTransactionHistoryActionsByAddress :=
           Pegnet.SelectTransactionHistoryActionsByAddress failing_store;
         Pegnet.SelectTransactionHistoryActionsByHeight :=
           Pegnet.SelectTransactionHistoryActionsByHeight failing_store |} in
  let data := object [("entryhash", JString "aa")] in
  outcome (getTransactions s data)
    = Returned (RespError (RpcError (InvalidParams "database is locked"))) /\
  outcome (getTransactionStatus s data)
    = Returned (RespError (RpcError (InvalidParams "database is locked"))).
Proof.
  intros failing_store s data.
  destruct (history_store_error s data "database is locked") as [Hactions Hstatus].
  split.
  - eapply Hactions; reflexivity.
  - eapply Hstatus; reflexivity.
Defined.

(** A request with a hash and an address is a query by hash. *)
Lemma getTransactions_one_query_witness :
  calls
    (getTransactions healthy
       (object [("address", JString "FA1"); ("entryhash", JString "aa")]))
    = [CallSelectTransactionHistoryActionsByHash "aa"
         {| HistoryQueryOptions.Offset := 0;
            HistoryQueryOptions.Desc := false;
            HistoryQueryOptions.Transfer := false;
            HistoryQueryOptions.Conversion := false;
            HistoryQueryOptions.Coinbase := false;
            HistoryQueryOptions.FCTBurn := false |}].
Proof.
  apply (getTransactions_one_query healthy
           (object [("address", JString "FA1"); ("entryhash", JString "aa")])
           {| ParamsGetPegnetTransaction.Hash := Some "aa";
              ParamsGetPegnetTransaction.Address := "FA1";
              ParamsGetPegnetTransaction.Height := 0;
              ParamsGetPegnetTransaction.Offset := 0;
              ParamsGetPegnetTransaction.Desc := false;
              ParamsGetPegnetTransaction.Transfer := false;
              ParamsGetPegnetTransaction.Conversion := false;
              ParamsGetPegnetTransaction.Coinbase := false;
              ParamsGetPegnetTransaction.Burn := false |}).
  reflexivity.
Defined.

(** The height 4294967396 is answered as the height 100 is. *)
Lemma getTransactions_height_wraps_witness :
  getTransactions healthy (object [("height", JNumber 4294967396)])
    = getTransactions healthy (object [("height", JNumber 100)]) /\
  exists res : ResultGetTransactions.t string,
    outcome (getTransactions healthy (object [("height", JNumber 4294967396)]))
      = Returned (RespTransactions res) /\
    ResultGetTransactions.Actions res = ["t1"; "t2"; "t3"].
Proof.
  assert (Hsame :
            getTransactions healthy (object [("height", JNumber 4294967396)])
              = getTransactions healthy (object [("height", JNumber 100)])).
  { apply (getTransactions_height_wraps healthy
             (object [("height", JNumber 4294967396)])
             (object [("height", JNumber 100)])
             {| ParamsGetPegnetTransaction.Hash := None;
                ParamsGetPegnetTransaction.Address := "";
                ParamsGetPegnetTransaction.Height := 4294967396;
                ParamsGetPegnetTransaction.Offset := 0;
                ParamsGetPegnetTransaction.Desc := false;
                ParamsGetPegnetTransaction.Transfer := false;
                ParamsGetPegnetTransaction.Conversion := false;
                ParamsGetPegnetTransaction.Coinbase := false;
                ParamsGetPegnetTransaction.Burn := false |}
             {| ParamsGetPegnetTransaction.Hash := None;
                ParamsGetPegnetTransaction.Address := "";
                ParamsGetPegnetTransaction.Height := 100;
                ParamsGetPegnetTransaction.Offset := 0;
                ParamsGetPegnetTransaction.Desc := false;
                ParamsGetPegnetTransaction.Transfer := false;
                ParamsGetPegnetTransaction.Conversion := false;
                ParamsGetPegnetTransaction.Coinbase := false;
                ParamsGetPegnetTransaction.Burn := false |});
      reflexivity. }
  split; [exact Hsame |].
  rewrite Hsame. eexists. split; reflexivity.
Defined.

(** The sample store has three addresses: five queries. *)
Lemma getRichList_queries_witness :
  calls (getRichList healthy RawEmpty)
    = [CallSelectAddresses; CallSelectRates 215000;
       CallSelectBalances "FA1"; CallSelectBalances "FA2";
       CallSelectBalances "FA3"] /\
  length (calls (getRichList healthy RawEmpty)) = 5%nat.
Proof.
  destruct (getRichList_queries healthy RawEmpty
              {| ResultGetRichList.Height := 215000%N;
                 ResultGetRichList.Top100 :=
                   [ {| RichEntry.Address := "FA2";
                        RichEntry.USDEquiv :=
                          S754_finite false 4672484613396890 (-47) |};
                     {| RichEntry.Address := "FA1";
                        RichEntry.USDEquiv :=
                          S754_finite false 5629499534213120 (-50) |} ] |})
    as (Hcalls & Hlength & _); [vm_compute; reflexivity |].
  split; [exact Hcalls | exact Hlength].
Defined.

(** A store that cannot list the addresses, and one that fails on the
    second of three: the third is not asked for. *)
Lemma getRichList_store_failure_witness :
  (outcome (getRichList blind RawEmpty)
     = Returned (RespError (PlainError "database is locked")) /\
   calls (getRichList blind RawEmpty) = [CallSelectAddresses]) /\
  (outcome (getRichList patchy RawEmpty)
     = Returned (RespError (PlainError "database is locked")) /\
   calls (getRichList patchy RawEmpty)
     = [CallSelectAddresses; CallSelectRates 215000;
        CallSelectBalances "FA1"; CallSelectBalances "FA2"]).
Proof.
  split.
  - apply (proj1 (getRichList_store_failure blind RawEmpty) []
             "database is locked").
    reflexivity.
  - apply (proj2 (getRichList_store_failure patchy RawEmpty) ["FA1"] ["FA3"]
             "FA2"
             {[ PEG := 2000000%N; pUSD := 100000000%N; pEUR := 110000000%N ]}
             "database is locked").
    + reflexivity.
    + reflexivity.
    + repeat constructor.
    + reflexivity.
Defined.

(** The three addresses of the sample store: none with a total is left
    out. *)
Lemma getRichList_largest_witness :
  let store := Node.Pegnet (APIServer.Node healthy) in
  let entries :=
    omap
      (entry_of healthy
         (fst (Pegnet.SelectRates store (Node.GetCurrentSync (APIServer.Node healthy)))))
      (fst (Pegnet.SelectAddresses store)) in
  length entries = 2%nat /\
  Permutation
    [ {| RichEntry.Address := "FA2";
         RichEntry.USDEquiv := S754_finite false 4672484613396890 (-47) |};
      {| RichEntry.Address := "FA1";
         RichEntry.USDEquiv := S754_finite false 5629499534213120 (-50) |} ]
    entries.
Proof.
  intros store entries.
  destruct (getRichList_largest healthy RawEmpty
              {| ResultGetRichList.Height := 215000%N;
                 ResultGetRichList.Top100 :=
                   [ {| RichEntry.Address := "FA2";
                        RichEntry.USDEquiv :=
                          S754_finite false 4672484613396890 (-47) |};
                     {| RichEntry.Address := "FA1";
                        RichEntry.USDEquiv :=
                          S754_finite false 5629499534213120 (-50) |} ] |})
    as (left_out & Hperm & _ & Hnone); [vm_compute; reflexivity |].
  assert (Hlength : length entries = 2%nat) by (vm_compute; reflexivity).
  split; [exact Hlength |].
  rewrite Hnone in Hperm.
  - rewrite app_nil_r in Hperm. exact Hperm.
  - fold store. fold entries. rewrite Hlength. lia.
Defined.

(** One entry credit for an entry that costs one. *)
Lemma sendTransaction_submits_witness :
  let s := server None (1%N, None) None in
  let data := object [("content", JString "hello")] in
  let entry :=
    {| Entry.ChainID := Some TransactionChain;
       Entry.Hash := Some "hash of hello";
       Entry.Body := "hello" |} in
  calls (sendTransaction s data)
    = [CallGetBalance "Es-sample-key"; CallCost entry;
       CallComposeCreate entry "Es-sample-key"] /\
  outcome (sendTransaction s data)
    = Returned
        (RespSendTransaction
           {| ResultSendTransaction.ChainID := Some TransactionChain;
              ResultSendTransaction.TxID := Some "txid";
              ResultSendTransaction.Hash := Some "hash of hello" |}).
Proof.
  intros s data entry.
  destruct (sendTransaction_submits s data
              {| ParamsSendTransaction.DryRun := false;
                 ParamsSendTransaction.Entry :=
                   {| Entry.ChainID := None;
                      Entry.Hash := Some "hash of hello";
                      Entry.Body := "hello" |} |}
              "Es-sample-key" 1%N 1)
    as [Hcalls Hresult];
    [reflexivity | reflexivity | reflexivity | reflexivity | reflexivity
    | simpl; lia |].
  split; [exact Hcalls |].
  apply (Hresult entry (Some "txid")). reflexivity.
Defined.

(** A configuration without a key: the first revision panics on any valid
    request, the second returns the internal error; with a key that parses
    the two are one. *)
Lemma sendTransaction_revisions_witness :
  let data := object [("content", JString "hello")] in
  (outcome (sendTransaction_first unconfigured data) = Panicked "invalid prefix" /\
   outcome (sendTransaction unconfigured data)
     = Returned (RespError (RpcError InternalError))) /\
  sendTransaction_first healthy data = sendTransaction healthy data.
Proof.
  intros data. split.
  - destruct (sendTransaction_revisions unconfigured data)
      as (_ & [Hsame | (err & _ & Hkey & Hfirst & Hsecond)] & _).
    + discriminate Hsame.
    + injection Hkey as <-. split; [exact Hfirst | exact Hsecond].
  - apply (proj2 (proj2 (sendTransaction_revisions healthy data))).
    reflexivity.
Defined.

(** A wire form of two tickers, and one with a key that is no ticker. *)
Lemma UnmarshalJSON_then_MarshalJSON_witness :
  MarshalJSON
    (fst (UnmarshalJSON (∅ : gmap Ticker N)
            (inr {[ "PEG" := 5%N; "pEUR" := 7%N ]})))
    = {[ "PEG" := 5%N; "pEUR" := 7%N ]} /\
  snd (UnmarshalJSON (∅ : gmap Ticker N) (inr {[ "PEG" := 5%N; "pXYZ" := 7%N ]}))
    <> None.
Proof.
  split.
  - apply (proj2 (UnmarshalJSON_then_MarshalJSON (∅ : gmap Ticker N)
                    {[ "PEG" := 5%N; "pEUR" := 7%N ]})).
    vm_compute. reflexivity.
  - intros Hnone.
    destruct (UnmarshalJSON_then_MarshalJSON (∅ : gmap Ticker N)
                {[ "PEG" := 5%N; "pXYZ" := 7%N ]}) as [[Hkeys _] _].
    destruct (Hkeys Hnone "pXYZ") as [[] Ht];
      [vm_compute; eauto | | |]; discriminate Ht.
Defined.

(** The heights 215010 and 3000000000, and a client out of reach. *)
Lemma getSyncStatus_always_witness :
  (exists status,
     result (getSyncStatus (TransactionBatch:=string) running RawEmpty)
       = Returned (ReplySyncStatus status) /\
     ResultGetSyncStatus.Sync status = 215000%N /\
     ResultGetSyncStatus.Current status = 215010) /\
  (exists status,
     result (getSyncStatus (TransactionBatch:=string) far_ahead RawEmpty)
       = Returned (ReplySyncStatus status) /\
     ResultGetSyncStatus.Current status = -1294967296) /\
  (exists status,
     result (getSyncStatus (TransactionBatch:=string) cut_off RawEmpty)
       = Returned (ReplySyncStatus status) /\
     ResultGetSyncStatus.Current status = -1).
Proof.
  split; [| split].
  - destruct (getSyncStatus_always (TransactionBatch:=string) running RawEmpty)
      as (_ & status & Hres & Hsync & _ & _ & Hok).
    exists status. split; [exact Hres |]. split; [exact Hsync |].
    destruct Hok as (Hsmall & _ & _); [reflexivity |].
    rewrite Hsmall; [reflexivity | simpl; lia].
  - destruct (getSyncStatus_always (TransactionBatch:=string) far_ahead RawEmpty)
      as (_ & status & Hres & _ & _ & _ & Hok).
    exists status. split; [exact Hres |].
    destruct Hok as (_ & Hlarge & _); [reflexivity |].
    rewrite Hlarge; [reflexivity | simpl; lia].
  - destruct (getSyncStatus_always (TransactionBatch:=string) cut_off RawEmpty)
      as (_ & status & Hres & _ & _ & Hfail & _).
    exists status. split; [exact Hres |].
    apply Hfail. discriminate.
Defined.

(** Rates at height 215000; a store that fails with no rates; and a store
    that fails with rates. *)
Lemma getPegnetRates_answers_witness :
  let data := object [("height", JNumber 215000)] in
  (Pegnet.SelectRates (Node.Pegnet (APIServer.Node healthy)) 215000%N
     = ({[ PEG := 2000000%N; pUSD := 100000000%N; pEUR := 110000000%N ]}, None) /\
   ({[ PEG := 2000000%N; pUSD := 100000000%N; pEUR := 110000000%N ]}
      : gmap Ticker N) <> ∅) /\
  (forall rev,
     result
       (getPegnetRates (TransactionBatch:=string) rev
          (service rates_down (issued, None) (215010%N, None)) data)
       = Returned (ReplyError ErrorNotFound)) /\
  result (getPegnetRates (TransactionBatch:=string) Second torn_service data)
    = Returned (Earlier (RespError (RpcError InternalError))) /\
  result (getPegnetRates (TransactionBatch:=string) First torn_service data)
    = Panicked "database is locked".
Proof.
  intros data. split; [| split; [| split]].
  - destruct (getPegnetRates_answers (TransactionBatch:=string) Second running
                data {| ParamsGetPegnetRates.Height := Some 215000%N |}
                215000%N)
      as (_ & Hmap & _); [reflexivity | reflexivity |].
    apply Hmap. reflexivity.
  - intros rev.
    destruct (getPegnetRates_answers (TransactionBatch:=string) rev
                (service rates_down (issued, None) (215010%N, None))
                data {| ParamsGetPegnetRates.Height := Some 215000%N |}
                215000%N)
      as (_ & _ & Hempty & _); [reflexivity | reflexivity |].
    apply Hempty. reflexivity.
  - destruct (getPegnetRates_answers (TransactionBatch:=string) Second
                torn_service
                data {| ParamsGetPegnetRates.Height := Some 215000%N |}
                215000%N)
      as (_ & _ & _ & Hfault); [reflexivity | reflexivity |].
    apply (Hfault {[ PEG := 2000000%N ]} "database is locked").
    + reflexivity.
    + intros Hempty.
      apply (f_equal (fun m : gmap Ticker N => m !! PEG)) in Hempty.
      discriminate Hempty.
    + discriminate.
  - destruct (getPegnetRates_answers (TransactionBatch:=string) First
                torn_service
                data {| ParamsGetPegnetRates.Height := Some 215000%N |}
                215000%N)
      as (_ & _ & _ & Hfault); [reflexivity | reflexivity |].
    apply (Hfault {[ PEG := 2000000%N ]} "database is locked").
    + reflexivity.
    + intros Hempty.
      apply (f_equal (fun m : gmap Ticker N => m !! PEG)) in Hempty.
      discriminate Hempty.
    + discriminate.
Defined.

(** An address that holds nothing; one for which the store has rows and no
    rows at once; one on which the store fails. *)
Lemma getPegnetBalances_answers_witness :
  result
    (getPegnetBalances (TransactionBatch:=string) Second running
       (object [("address", JString "FA3")]))
    = Returned (ReplyTickerMap ∅) /\
  result
    (getPegnetBalances (TransactionBatch:=string) Second torn_service
       (object [("address", JString "FA1")]))
    = Returned (ReplyError ErrorAddressNotFound) /\
  result
    (getPegnetBalances (TransactionBatch:=string) Second torn_service
       (object [("address", JString "FA2")]))
    = Returned (Earlier (RespError (RpcError InternalError))).
Proof.
  split; [| split].
  - destruct (getPegnetBalances_answers (TransactionBatch:=string) Second
                running (object [("address", JString "FA3")])
                {| ParamsGetPegnetBalances.Address := "FA3" |})
      as (_ & Hmap & _); [reflexivity |].
    apply Hmap. reflexivity.
  - destruct (getPegnetBalances_answers (TransactionBatch:=string) Second
                torn_service (object [("address", JString "FA1")])
                {| ParamsGetPegnetBalances.Address := "FA1" |})
      as (_ & _ & Hrows & _); [reflexivity |].
    apply (Hrows {[ pUSD := 500000000%N ]}). reflexivity.
  - destruct (getPegnetBalances_answers (TransactionBatch:=string) Second
                torn_service (object [("address", JString "FA2")])
                {| ParamsGetPegnetBalances.Address := "FA2" |})
      as (_ & _ & _ & Hfault); [reflexivity |].
    apply (Hfault ∅ "database is locked"); [reflexivity | discriminate].
Defined.

(** A store that fails on the issuance, and one that answers while the
    client is out of reach. *)
Lemma getPegnetIssuance_answers_witness :
  events (getPegnetIssuance (TransactionBatch:=string) Second failing RawEmpty)
    = [CallSelectIssuances] /\
  events (getPegnetIssuance (TransactionBatch:=string) Second cut_off RawEmpty)
    = [CallSelectIssuances; CallHeightsGet] /\
  result (getPegnetIssuance (TransactionBatch:=string) Second cut_off RawEmpty)
    = Returned
        (ReplyIssuance
           {| ResultGetIssuance.SyncStatus :=
                {| ResultGetSyncStatus.Sync := 215000%N;
                   ResultGetSyncStatus.Current := -1 |};
              ResultGetIssuance.Issuance := issued |}) /\
  result (getPegnetIssuance (TransactionBatch:=string) First cut_off RawEmpty)
    = Returned
        (ReplyFirstIssuance
           {| FirstRevision.ResultGetIssuance.SyncStatus :=
                {| ResultGetSyncStatus.Sync := 215000%N;
                   ResultGetSyncStatus.Current := -1 |};
              FirstRevision.ResultGetIssuance.Issuance := issued |}).
Proof.
  split.
  - apply (proj1 (getPegnetIssuance_answers (TransactionBatch:=string) Second
                    failing RawEmpty)).
    discriminate.
  - destruct (getPegnetIssuance_answers (TransactionBatch:=string) Second
                cut_off RawEmpty)
      as (_ & Hok & _).
    destruct Hok as (Hevents & status & Hstatus & Hfirst & Hsecond);
      [reflexivity |].
    split; [exact Hevents |].
    injection Hstatus as <-. split; [exact Hsecond | exact Hfirst].
Defined.

(** A hash the store does not know, and one it fails on. *)
Lemma getTransaction_unknown_witness :
  (result
     (getTransaction (TransactionBatch:=string) Second running false
        (object [("entryhash", JString "zz")]))
     = Returned (Earlier (RespError (RpcError ErrorTransactionNotFound))) /\
   events
     (getTransaction (TransactionBatch:=string) Second running false
        (object [("entryhash", JString "zz")]))
     = [CallDoesTransactionExist "zz"]) /\
  (result
     (getTransaction (TransactionBatch:=string) Second running true
        (object [("entryhash", JString "ee")]))
     = Returned (Earlier (RespError (PlainError "database is locked"))) /\
   events
     (getTransaction (TransactionBatch:=string) Second running true
        (object [("entryhash", JString "ee")]))
     = [CallDoesTransactionExist "ee"]).
Proof.
  split.
  - destruct (getTransaction_unknown (TransactionBatch:=string) Second
                running false (object [("entryhash", JString "zz")])
                {| ParamsGetTransaction.Hash := Some "zz" |} "zz")
      as [Hunknown _]; [reflexivity | reflexivity |].
    apply Hunknown. reflexivity.
  - destruct (getTransaction_unknown (TransactionBatch:=string) Second
                running true (object [("entryhash", JString "ee")])
                {| ParamsGetTransaction.Hash := Some "ee" |} "ee")
      as [_ Hfails]; [reflexivity | reflexivity |].
    apply (Hfails false "database is locked"). reflexivity.
Defined.

(** The transaction [aa], decoded and as an entry, in both revisions. *)
Lemma getTransaction_modes_witness :
  let data := object [("entryhash", JString "aa")] in
  (exists e : Entry.t,
     result (getTransaction (TransactionBatch:=string) Second running true data)
       = Returned (ReplyEntry e) /\
     Entry.Hash e = Some "aa" /\
     UnmarshalEntry (NewTransactionBatch e) = ("[transfer]", None)) /\
  (exists e : Entry.t,
     result (getTransaction (TransactionBatch:=string) First running true data)
       = Returned (ReplyEntry e) /\
     Entry.Hash e = Some "aa").
Proof.
  intros data.
  destruct (getTransaction_modes (TransactionBatch:=string) Second running data)
    as (_ & Hsecond & Hfirst).
  split.
  - destruct (Hsecond
                {| ResultGetTransaction.Hash := Some "aa";
                   ResultGetTransaction.Timestamp := 0;
                   ResultGetTransaction.Tx := Some "[transfer]" |})
      as (e & Hentry & _ & Hbatch & _ & Hhash & _); [reflexivity |].
    exists e. split; [exact Hentry |]. split; [symmetry; exact Hhash |].
    injection Hentry as <-. reflexivity.
  - destruct (Hfirst
                {| FirstRevision.ResultGetTransaction.Hash := Some "aa";
                   FirstRevision.ResultGetTransaction.Timestamp := 0;
                   FirstRevision.ResultGetTransaction.TxIndex := 0%N;
                   FirstRevision.ResultGetTransaction.Tx := Some "[transfer]" |})
      as (e & Hentry & _ & _ & _ & Hhash & _); [reflexivity |].
    exists e. split; [exact Hentry | symmetry; exact Hhash].
Defined.

(** The transaction [dd], whose entry the client cannot get: a panic in the
    first revision, the internal error in the second; and the transaction
    [aa], returned by each in its own struct. *)
Lemma revisions_agree_witness :
  let data := object [("entryhash", JString "dd")] in
  let data' := object [("entryhash", JString "aa")] in
  (result (getTransaction (TransactionBatch:=string) First running false data)
     = Panicked "connection refused" /\
   result (getTransaction (TransactionBatch:=string) Second running false data)
     = Returned (Earlier (RespError (RpcError InternalError))) /\
   events (getTransaction (TransactionBatch:=string) First running false data)
     = events (getTransaction (TransactionBatch:=string) Second running false data)) /\
  result (getTransaction (TransactionBatch:=string) Second running false data')
    = Returned
        (ReplyTransaction
           {| ResultGetTransaction.Hash := Some "aa";
              ResultGetTransaction.Timestamp := 0;
              ResultGetTransaction.Tx := Some "[transfer]" |}).
Proof.
  intros data data'. split.
  - destruct (revisions_agree (TransactionBatch:=string) running data)
      as [Hsoft _].
    apply Forall2_cons_1 in Hsoft as
      [[Hevents [(r & Hfirst & _) | (err & Hfirst & [Hsecond | Hsecond])]] _].
    + discriminate Hfirst.
    + discriminate Hsecond.
    + split; [| split; [exact Hsecond | exact Hevents]].
      rewrite Hfirst. injection Hfirst as <-. reflexivity.
  - destruct (revisions_agree (TransactionBatch:=string) running data')
      as [Hsoft _].
    apply Forall2_cons_1 in Hsoft as
      [[_ [(r & Hfirst & Hsecond) | (err & Hfirst & _)]] _].
    + rewrite Hsecond. injection Hfirst as <-. reflexivity.
    + discriminate Hfirst.
Defined.

(** A member [bogus], which no request has. *)
Lemma rejected_request_witness :
  let data := object [("bogus", JNumber 1)] in
  let err := RpcError (InvalidParams "json: unknown field bogus") in
  (calls (getTransactions healthy data) = [] /\
   outcome (getTransactions healthy data) = Returned (RespError err)) /\
  (calls (sendTransaction healthy data) = [] /\
   outcome (sendTransaction healthy data) = Returned (RespError err) /\
   sendTransaction_first healthy data = sendTransaction healthy data) /\
  (events (getPegnetRates (TransactionBatch:=string) First running data) = [] /\
   result (getPegnetRates (TransactionBatch:=string) First running data)
     = Returned (Earlier (RespError err))).
Proof.
  intros data err.
  destruct (rejected_request (TransactionBatch:=string) First running data err)
    as (_ & Hhistory & Hsend & _ & _ & Hrates).
  split; [apply Hhistory; reflexivity |].
  split; [apply Hsend; reflexivity |].
  apply Hrates. reflexivity.
Defined.

(** A request to send to the chain [ff]. *)
Lemma sendTransaction_foreign_chain_witness :
  let data := object [("chainid", JString "ff"); ("content", JString "hello")] in
  calls (sendTransaction healthy data) = [] /\
  outcome (sendTransaction healthy data)
    = Returned (RespError (RpcError ErrorTokenNotFound)) /\
  sendTransaction_first healthy data = sendTransaction healthy data.
Proof.
  intros data.
  apply (sendTransaction_foreign_chain healthy data
           {| ParamsSendTransaction.DryRun := false;
              ParamsSendTransaction.Entry :=
                {| Entry.ChainID := Some "ff";
                   Entry.Hash := Some "hash of hello";
                   Entry.Body := "hello" |} |}
           {| ParamsSendTransaction.DryRun := false;
              ParamsSendTransaction.Entry :=
                {| Entry.ChainID := Some "ff";
                   Entry.Hash := Some "hash of hello";
                   Entry.Body := "hello" |} |}
           "ff");
    [reflexivity | reflexivity | reflexivity | reflexivity | discriminate].
Defined.
